(** * AML rule evaluator and alert store: a shallow embedding

    This development embeds the rule-based part of
    [AI_agents/transcations/aml_detection_agent.py] (class
    [AMLDetectionAgent]) and the alert/report store of
    [AI_agents/transcations/api_server.py], and proves the properties the
    specification states about them.

    Modelling conventions.
    - A pandas cell is a [pyval]; a row is a finite map from column names
      to cells ([row.get(k)] is a lookup with a default).
    - Python floats are the rationals extended with [inf], [-inf] and
      [nan] ([pyfloat]); arithmetic on finite values is exact.
    - Text is ASCII: [upper], [lower] and [strip] touch ASCII letters and
      ASCII white space only.
    - Code that can raise lives in the exception monad [res]; a
      [try/except] is [try_except].
    - Library primitives whose exact text format does not matter here
      (number parsing and printing, the text of times, the serializers)
      and the file system are the methods of classes. *)

From Stdlib Require Import QArith Qround Lqa Ascii String DecimalString DecimalPos DecimalZ.
From stdpp Require Import gmap strings list fin_maps sorting.

Open Scope string_scope.

(** ** Python values *)

Inductive pyfloat :=
| Fnan
| Finf (neg : bool)
| Ffin (q : Q).

Inductive pyval :=
| VNone
| VBool (b : bool)
| VInt (z : Z)
| VNum (x : pyfloat)
| VStr (s : string).

Inductive pyexn :=
| ValueError | TypeError | KeyError | RuntimeError
| FileNotFoundError | EmptyDataError | ParserError.

Inductive res (A : Type) :=
| Ok (a : A)
| Raise (e : pyexn).
Arguments Ok {A} a.
Arguments Raise {A} e.

#[global] Instance res_ret : MRet res := fun A a => Ok a.

#[global] Instance res_bind : MBind res := fun A B k m =>
  match m with
  | Ok a => k a
  | Raise e => Raise e
  end.

(** [isinstance(e, c)]: pandas' [EmptyDataError] and [ParserError] are
    kinds of [ValueError]. *)
Definition is_a (e c : pyexn) : bool :=
  match e, c with
  | ValueError, ValueError | TypeError, TypeError
  | KeyError, KeyError | RuntimeError, RuntimeError
  | FileNotFoundError, FileNotFoundError
  | EmptyDataError, EmptyDataError | ParserError, ParserError
  | EmptyDataError, ValueError | ParserError, ValueError => true
  | _, _ => false
  end.

(** [try: body except (e1, e2, ...): handler] *)
Definition try_except {A} (body : res A) (caught : list pyexn) (handler : res A) : res A :=
  match body with
  | Ok a => Ok a
  | Raise e => if existsb (is_a e) caught then handler else Raise e
  end.

(** [try: body except Exception: handler] *)
Definition try_except_all {A} (body : res A) (handler : res A) : res A :=
  match body with
  | Ok a => Ok a
  | Raise _ => handler
  end.

(** ** Text *)

Definition is_lower_ascii (c : ascii) : bool :=
  let n := N_of_ascii c in ((97 <=? n) && (n <=? 122))%N.

Definition is_upper_ascii (c : ascii) : bool :=
  let n := N_of_ascii c in ((65 <=? n) && (n <=? 90))%N.

Definition upper_ascii (c : ascii) : ascii :=
  if is_lower_ascii c then ascii_of_N (N_of_ascii c - 32) else c.

Definition lower_ascii (c : ascii) : ascii :=
  if is_upper_ascii c then ascii_of_N (N_of_ascii c + 32) else c.

Fixpoint smap (f : ascii -> ascii) (s : string) : string :=
  match s with
  | EmptyString => EmptyString
  | String c s' => String (f c) (smap f s')
  end.

Definition upper (s : string) : string := smap upper_ascii s.
Definition lower (s : string) : string := smap lower_ascii s.

Definition is_space_ascii (c : ascii) : bool :=
  let n := N_of_ascii c in
  (((9 <=? n) && (n <=? 13)) || ((28 <=? n) && (n <=? 32)))%N.

Fixpoint lstrip (s : string) : string :=
  match s with
  | String c s' => if is_space_ascii c then lstrip s' else s
  | EmptyString => EmptyString
  end.

Fixpoint rstrip (s : string) : string :=
  match s with
  | EmptyString => EmptyString
  | String c s' =>
      match rstrip s' with
      | EmptyString => if is_space_ascii c then EmptyString else String c EmptyString
      | t => String c t
      end
  end.

Definition strip (s : string) : string := rstrip (lstrip s).

Fixpoint join (sep : string) (l : list string) : string :=
  match l with
  | [] => ""
  | [x] => x
  | x :: l' => x +:+ sep +:+ join sep l'
  end.

Definition str_eqb (a b : string) : bool := bool_decide (a = b).

(** ** Floats *)

Definition Q_of_bool (b : bool) : Q := if b then 1%Q else 0%Q.

(** [a > b] on floats; any comparison with [nan] is false. *)
Definition fgt (a b : pyfloat) : bool :=
  match a, b with
  | Fnan, _ | _, Fnan => false
  | Finf n1, Finf n2 => negb n1 && n2
  | Finf n1, Ffin _ => negb n1
  | Ffin _, Finf n2 => n2
  | Ffin x, Ffin y => negb (Qle_bool x y)
  end.

(** Truth value of a float: only zero is falsy. *)
Definition float_truthy (x : pyfloat) : bool :=
  match x with
  | Ffin q => negb (Qeq_bool q 0)
  | _ => true
  end.

Definition is_fnan (x : pyfloat) : bool :=
  match x with Fnan => true | _ => false end.

(** [pd.notna] on a scalar. *)
Definition notna (v : pyval) : bool :=
  match v with
  | VNone => false
  | VNum Fnan => false
  | _ => true
  end.

(** ** Rows and frames *)

Abbreviation Row := (gmap string pyval).

(** [row.get(k)] and [row.get(k, d)] *)
Definition get (row : Row) (k : string) : pyval := default VNone (row !! k).
Definition get_d (row : Row) (k : string) (d : pyval) : pyval := default d (row !! k).

Record DataFrame := {
  columns : list string;
  rows : list Row
}.

(** [df[name]]: the column as a list of cells; a cell a row does not
    carry is [NaN]. *)
Definition column (df : DataFrame) (name : string) : res (list pyval) :=
  if bool_decide (name ∈ columns df)
  then Ok (map (fun r => default (VNum Fnan) (r !! name)) (rows df))
  else Raise KeyError.

(** ** Number helpers used by the calibrator *)

Fixpoint insert_sorted (x : Q) (l : list Q) : list Q :=
  match l with
  | [] => [x]
  | y :: l' => if Qle_bool x y then x :: l else y :: insert_sorted x l'
  end.

Definition sort_Q (l : list Q) : list Q := foldr insert_sorted [] l.

(** The finite values of a list of floats, when all of them are finite. *)
Fixpoint all_finite (l : list pyfloat) : option (list Q) :=
  match l with
  | [] => Some []
  | Ffin q :: l' => option_map (cons q) (all_finite l')
  | _ :: _ => None
  end.

(** NumPy's default ("linear") percentile of a non-empty list: the value at
    the virtual index [(n-1)*p/100] of the sorted data, interpolating
    between the two neighbours. *)
Definition linear_percentile (l : list Q) (p : Q) : Q :=
  let a := sort_Q l in
  let n := length a in
  let h := ((inject_Z (Z.of_nat n) - 1) * p / 100)%Q in
  let i := Z.to_nat (Qfloor h) in
  let g := (h - inject_Z (Qfloor h))%Q in
  let lo := nth i a 0%Q in
  let hi := nth (Nat.min (i + 1) (n - 1)) a 0%Q in
  (lo + g * (hi - lo))%Q.

Definition string_of_Z (z : Z) : string := NilZero.string_of_int (Z.to_int z).

(** [str.title()]: a letter that follows a non-letter is upper-cased, any
    other letter is lower-cased. *)
Fixpoint title_from (prev_letter : bool) (s : string) : string :=
  match s with
  | EmptyString => EmptyString
  | String c s' =>
      let letter := is_lower_ascii c || is_upper_ascii c in
      String (if prev_letter then lower_ascii c else upper_ascii c)
             (title_from letter s')
  end.

Definition title (s : string) : string := title_from false s.

(** ** The detection agent *)

Record AMLDetectionAgent := {
  high_amount_threshold_percentile : Q;
  high_amount_threshold : option pyfloat
}.

(** [AMLDetectionAgent(high_amount_threshold_percentile=95)] *)
Definition init (high_amount_threshold_percentile : Q) : AMLDetectionAgent :=
  {| high_amount_threshold_percentile := high_amount_threshold_percentile;
     high_amount_threshold := None |}.

Definition default_percentile : Q := 95.

Definition set_threshold (self : AMLDetectionAgent) (t : pyfloat) : AMLDetectionAgent :=
  {| high_amount_threshold_percentile := high_amount_threshold_percentile self;
     high_amount_threshold := Some t |}.

(** The keys of [self.aml_rules]. *)
Definition aml_rules : list string := ["MAS"; "FINMA"; "HKMA/SFC"].

Definition default_threshold : pyfloat := Ffin 1000000.

(** [self.high_amount_threshold and amount > self.high_amount_threshold]:
    an unset or zero threshold is falsy and switches the comparison off. *)
Definition threshold_truthy (self : AMLDetectionAgent) : bool :=
  match high_amount_threshold self with
  | None => false
  | Some t => float_truthy t
  end.

Definition above_threshold (self : AMLDetectionAgent) (amount : pyfloat) : bool :=
  match high_amount_threshold self with
  | None => false
  | Some t => fgt amount t
  end.

Record DetectionResult := {
  transaction_id : pyval;
  is_suspicious : Z;
  risk_category : string;
  suspicious_detection_count : Z;
  high_risk_detected : Z;
  reasons : string
}.

(** [classify_risk(high_risk_detected, suspicious_count)] *)
Definition classify_risk (high_risk_detected : bool) (suspicious_count : Z) : string :=
  if high_risk_detected then "HIGH PRIORITY RISK"
  else if (suspicious_count =? 0)%Z then ""
  else if (suspicious_count =? 1)%Z then ""
  else if (suspicious_count =? 2)%Z then "LOW RISK"
  else if (3 <=? suspicious_count)%Z && (suspicious_count <=? 4)%Z then "MEDIUM RISK"
  else if (5 <=? suspicious_count)%Z then "HIGH PRIORITY RISK"
  else "".

(** Truth value of a string: the empty string is falsy. *)
Definition str_truthy (s : string) : bool :=
  match s with EmptyString => false | _ => true end.

(** A high-risk rule that matches sets the flag and appends its reason. *)
Definition hit (st : bool * list string) (reason : string) : bool * list string :=
  (true, (st.2 ++ [reason])%list).

(** A suspicious indicator that matches counts one and appends its reason. *)
Definition tally (st : Z * list string) (reason : string) : Z * list string :=
  ((st.1 + 1)%Z, (st.2 ++ [reason])%list).

(** The library primitives the agent calls whose text formats are left
    open: number printing and number parsing. *)
Class PyLib := {
  (** [repr] of a finite float *)
  repr_fin : Q -> string;
  (** [format(x, ',.2f')] *)
  fmt_amount : pyfloat -> string;
  (** [float(s)] on text; [None] stands for [ValueError] *)
  py_float_str : string -> option pyfloat;
  (** pandas' numeric reading of text; [None] when it is not numeric *)
  pd_numeric_str : string -> option pyfloat;
  (** [np.percentile] on data that holds an infinity *)
  percentile_nonfinite : list pyfloat -> Q -> pyfloat
}.

Section Agent.

Context `{Lib : PyLib}.

(** [str(v)] *)
Definition py_str (v : pyval) : string :=
  match v with
  | VNone => "None"
  | VBool true => "True"
  | VBool false => "False"
  | VInt z => string_of_Z z
  | VNum Fnan => "nan"
  | VNum (Finf false) => "inf"
  | VNum (Finf true) => "-inf"
  | VNum (Ffin q) => repr_fin q
  | VStr s => s
  end.

(** [float(v)] *)
Definition py_float (v : pyval) : res pyfloat :=
  match v with
  | VNone => Raise TypeError
  | VBool b => Ok (Ffin (Q_of_bool b))
  | VInt z => Ok (Ffin (inject_Z z))
  | VNum x => Ok x
  | VStr s =>
      match py_float_str s with
      | Some x => Ok x
      | None => Raise ValueError
      end
  end.

(** One cell under [pd.to_numeric(..., errors='coerce')]. *)
Definition to_numeric_coerce (v : pyval) : pyfloat :=
  match v with
  | VNone => Fnan
  | VBool b => Ffin (Q_of_bool b)
  | VInt z => Ffin (inject_Z z)
  | VNum x => x
  | VStr s => default Fnan (pd_numeric_str s)
  end.

Definition dropna (l : list pyfloat) : list pyfloat :=
  filter (fun x => is_fnan x = false) l.

(** [np.percentile(a, p)] for non-empty, nan-free [a]. *)
Definition np_percentile (a : list pyfloat) (p : Q) : res pyfloat :=
  if Qle_bool 0 p && Qle_bool p 100 then
    match all_finite a with
    | Some qs => Ok (Ffin (linear_percentile qs p))
    | None => Ok (percentile_nonfinite a p)
    end
  else Raise ValueError.

Definition field_upper (row : Row) (k : string) : string :=
  upper (py_str (get_d row k (VStr ""))).

Definition field_lower (row : Row) (k : string) : string :=
  lower (py_str (get_d row k (VStr ""))).

(** [check_high_risk_variables(row)]: [(is_high_risk, reasons)] *)
Definition check_high_risk_variables (self : AMLDetectionAgent) (row : Row)
  : res (bool * list string) :=
  let st : bool * list string := (false, []) in
  (* Rule 1: PEP check *)
  let st :=
    if notna (get row "customer_is_pep")
       && str_eqb (upper (py_str (get row "customer_is_pep"))) "TRUE"
    then hit st "Customer is a Politically Exposed Person (PEP)" else st in
  (* Rule 2: Domiciliary company without EDD *)
  let st :=
    if str_eqb (field_lower row "customer_type") "domiciliary_company" then
      let edd_performed := field_upper row "edd_performed" in
      if negb (str_eqb edd_performed "TRUE")
      then hit st "Domiciliary company without Enhanced Due Diligence (EDD)" else st
    else st in
  (* Rule 3: EDD required but not performed *)
  let edd_required := field_upper row "edd_required" in
  let st :=
    if str_eqb edd_required "TRUE" then
      let edd_performed := field_upper row "edd_performed" in
      if negb (str_eqb edd_performed "TRUE")
      then hit st "EDD required but not performed" else st
    else st in
  (* Rule 4: SOW not documented *)
  let sow_documented := field_upper row "sow_documented" in
  let st :=
    if str_eqb sow_documented "FALSE"
    then hit st "Source of Wealth (SOW) not documented" else st in
  (* Rule 5: Low risk profile with high amount *)
  st ← (if notna (get row "amount") then
          try_except
            (amount ← py_float (get_d row "amount" (VInt 0));
             let client_risk := field_lower row "client_risk_profile" in
             if str_eqb client_risk "low" && threshold_truthy self
                && above_threshold self amount
             then mret (hit st ("Low risk profile customer with unusually high amount ("
                                  +:+ fmt_amount amount +:+ ")"))
             else mret st)
            [ValueError; TypeError]
            (mret st)
        else mret st);
  (* Rule 6: Suitability not assessed *)
  let suitability_assessed := field_upper row "suitability_assessed" in
  let st :=
    if str_eqb suitability_assessed "FALSE"
    then hit st "Suitability not assessed" else st in
  (* Rule 7: Suitability mismatch *)
  let st :=
    if str_eqb suitability_assessed "TRUE" then
      let suitability_result := field_lower row "suitability_result" in
      if str_eqb suitability_result "mismatch"
      then hit st "Suitability assessment shows mismatch" else st
    else st in
  (* Rule 8: Cash ID not verified *)
  let cash_id_verified := field_upper row "cash_id_verified" in
  let st :=
    if str_eqb cash_id_verified "FALSE"
    then hit st "Cash ID not verified" else st in
  mret st.

(** [check_suspicious_detection_variables(row)]: [(count, reasons)] *)
Definition check_suspicious_detection_variables (self : AMLDetectionAgent) (row : Row)
  : res (Z * list string) :=
  let st : Z * list string := (0%Z, []) in
  (* Rule 1: regulator AML rules *)
  let regulator := strip (py_str (get_d row "regulator" (VStr ""))) in
  let booking_jurisdiction := strip (py_str (get_d row "booking_jurisdiction" (VStr ""))) in
  let st :=
    if bool_decide (regulator ∈ aml_rules) then
      if str_eqb regulator "MAS" then
        if str_eqb (field_lower row "customer_type") "domiciliary_company" then
          if negb (str_eqb (field_upper row "edd_performed") "TRUE")
          then tally st "MAS: Domiciliary company without EDD (AML violation)" else st
        else st
      else if str_eqb regulator "FINMA" then
        let customer_risk := field_lower row "customer_risk_rating" in
        if bool_decide (customer_risk ∈ ["high"; "medium"]) then
          if negb (str_eqb (field_upper row "edd_performed") "TRUE")
          then tally st "FINMA: High/Medium risk customer without EDD (AML violation)"
          else st
        else st
      else if str_eqb regulator "HKMA/SFC" then
        if str_eqb (field_upper row "sow_documented") "FALSE"
        then tally st "HKMA/SFC: Missing SOW documentation (AML violation)" else st
      else st
    else st in
  (* Rule 2: unusually high amount for low risk profile customer *)
  st ← (if notna (get row "amount") && threshold_truthy self then
          try_except
            (amount ← py_float (get_d row "amount" (VInt 0));
             let client_risk := field_lower row "client_risk_profile" in
             if str_eqb client_risk "low" && above_threshold self amount
             then mret (tally st ("Unusually high amount (" +:+ fmt_amount amount
                                    +:+ ") for low risk profile customer"))
             else mret st)
            [ValueError; TypeError]
            (mret st)
        else mret st);
  (* Rule 3: domiciliary company *)
  let st :=
    if str_eqb (field_lower row "customer_type") "domiciliary_company"
    then tally st "Customer type is domiciliary company" else st in
  (* Rule 4: customer risk rating *)
  let customer_risk := field_lower row "customer_risk_rating" in
  let st :=
    if bool_decide (customer_risk ∈ ["medium"; "high"])
    then tally st ("Customer risk rating is " +:+ title customer_risk) else st in
  (* Rule 5: sanctions screening shows potential *)
  let sanctions := field_lower row "sanctions_screening" in
  let st :=
    if str_eqb sanctions "potential"
    then tally st "Sanctions screening shows potential match" else st in
  mret st.

(** [calculate_high_amount_threshold(df)]; returns the updated agent. *)
Definition calculate_high_amount_threshold (self : AMLDetectionAgent) (df : DataFrame)
  : AMLDetectionAgent :=
  match
    (col ← column df "amount";
     let amounts := dropna (map to_numeric_coerce col) in
     if (0 <? length amounts)%nat then
       t ← np_percentile amounts (high_amount_threshold_percentile self);
       mret (set_threshold self t)
     else mret (set_threshold self default_threshold))
  with
  | Ok self' => self'
  | Raise _ => set_threshold self default_threshold
  end.

(** The body of the loop of [process_dataframe] for one row. *)
Definition score_row (self : AMLDetectionAgent) (row : Row) : res DetectionResult :=
  '(is_high_risk, high_risk_reasons) ← check_high_risk_variables self row;
  '(suspicious_count, suspicious_reasons) ← check_suspicious_detection_variables self row;
  let risk_category := classify_risk is_high_risk suspicious_count in
  let all_reasons := (high_risk_reasons ++ suspicious_reasons)%list in
  mret {| transaction_id := get_d row "transaction_id" (VStr "");
          is_suspicious := if str_truthy risk_category then 1 else 0;
          risk_category := risk_category;
          suspicious_detection_count := suspicious_count;
          high_risk_detected := if is_high_risk then 1 else 0;
          reasons := match all_reasons with
                     | [] => "No suspicious indicators"
                     | _ => join "; " all_reasons
                     end |}.

(** [for idx, row in df.iterrows(): ... results.append(...)] *)
Fixpoint score_rows (self : AMLDetectionAgent) (rs : list Row) : res (list DetectionResult) :=
  match rs with
  | [] => mret []
  | row :: rs' =>
      r ← score_row self row;
      results ← score_rows self rs';
      mret (r :: results)
  end.

(** [process_dataframe(df)]: the updated agent and the results. *)
Definition process_dataframe (self : AMLDetectionAgent) (df : DataFrame)
  : res (AMLDetectionAgent * list DetectionResult) :=
  let self := calculate_high_amount_threshold self df in
  results ← score_rows self (rows df);
  mret (self, results).

End Agent.

(** ** The rules one by one

    Each predicate below is the condition under which one rule of the
    evaluator matches; the two check functions are characterised later as
    "run every rule, keep the reasons of those that match". *)

Section RuleTable.

Context `{Lib : PyLib}.

(** The amount of a row as the amount rules read it: present, not
    [NaN], and accepted by [float]. *)
Definition amount_of (row : Row) : option pyfloat :=
  if notna (get row "amount") then
    match py_float (get_d row "amount" (VInt 0)) with
    | Ok a => Some a
    | Raise _ => None
    end
  else None.

Definition hr_pep (row : Row) : bool :=
  notna (get row "customer_is_pep")
  && str_eqb (upper (py_str (get row "customer_is_pep"))) "TRUE".

Definition hr_domiciliary_no_edd (row : Row) : bool :=
  str_eqb (field_lower row "customer_type") "domiciliary_company"
  && negb (str_eqb (field_upper row "edd_performed") "TRUE").

Definition hr_edd_gap (row : Row) : bool :=
  str_eqb (field_upper row "edd_required") "TRUE"
  && negb (str_eqb (field_upper row "edd_performed") "TRUE").

Definition hr_no_sow (row : Row) : bool :=
  str_eqb (field_upper row "sow_documented") "FALSE".

Definition low_profile_high_amount (self : AMLDetectionAgent) (row : Row) : bool :=
  match amount_of row with
  | Some a =>
      str_eqb (field_lower row "client_risk_profile") "low"
      && threshold_truthy self && above_threshold self a
  | None => false
  end.

Definition hr_not_assessed (row : Row) : bool :=
  str_eqb (field_upper row "suitability_assessed") "FALSE".

Definition hr_mismatch (row : Row) : bool :=
  str_eqb (field_upper row "suitability_assessed") "TRUE"
  && str_eqb (field_lower row "suitability_result") "mismatch".

Definition hr_cash_id (row : Row) : bool :=
  str_eqb (field_upper row "cash_id_verified") "FALSE".

Definition regulator_of (row : Row) : string :=
  strip (py_str (get_d row "regulator" (VStr ""))).

Definition sd_mas (row : Row) : bool :=
  str_eqb (regulator_of row) "MAS"
  && str_eqb (field_lower row "customer_type") "domiciliary_company"
  && negb (str_eqb (field_upper row "edd_performed") "TRUE").

Definition sd_finma (row : Row) : bool :=
  str_eqb (regulator_of row) "FINMA"
  && bool_decide (field_lower row "customer_risk_rating" ∈ ["high"; "medium"])
  && negb (str_eqb (field_upper row "edd_performed") "TRUE").

Definition sd_hkma (row : Row) : bool :=
  str_eqb (regulator_of row) "HKMA/SFC"
  && str_eqb (field_upper row "sow_documented") "FALSE".

Definition sd_domiciliary (row : Row) : bool :=
  str_eqb (field_lower row "customer_type") "domiciliary_company".

Definition sd_risk_rating (row : Row) : bool :=
  bool_decide (field_lower row "customer_risk_rating" ∈ ["medium"; "high"]).

Definition sd_sanctions (row : Row) : bool :=
  str_eqb (field_lower row "sanctions_screening") "potential".

Definition amount_text (row : Row) : string :=
  match amount_of row with
  | Some a => fmt_amount a
  | None => ""
  end.

(** The reason a rule gives when it matches, nothing otherwise. *)
Definition say (b : bool) (reason : string) : list string :=
  if b then [reason] else [].

Definition high_risk_reasons (self : AMLDetectionAgent) (row : Row) : list string :=
  (say (hr_pep row) "Customer is a Politically Exposed Person (PEP)"
   ++ say (hr_domiciliary_no_edd row) "Domiciliary company without Enhanced Due Diligence (EDD)"
   ++ say (hr_edd_gap row) "EDD required but not performed"
   ++ say (hr_no_sow row) "Source of Wealth (SOW) not documented"
   ++ say (low_profile_high_amount self row)
        ("Low risk profile customer with unusually high amount ("
           +:+ amount_text row +:+ ")")
   ++ say (hr_not_assessed row) "Suitability not assessed"
   ++ say (hr_mismatch row) "Suitability assessment shows mismatch"
   ++ say (hr_cash_id row) "Cash ID not verified")%list.

Definition any_high_risk (self : AMLDetectionAgent) (row : Row) : bool :=
  hr_pep row || hr_domiciliary_no_edd row || hr_edd_gap row || hr_no_sow row
  || low_profile_high_amount self row || hr_not_assessed row || hr_mismatch row
  || hr_cash_id row.

Definition suspicious_reasons (self : AMLDetectionAgent) (row : Row) : list string :=
  (say (sd_mas row) "MAS: Domiciliary company without EDD (AML violation)"
   ++ say (sd_finma row) "FINMA: High/Medium risk customer without EDD (AML violation)"
   ++ say (sd_hkma row) "HKMA/SFC: Missing SOW documentation (AML violation)"
   ++ say (low_profile_high_amount self row)
        ("Unusually high amount (" +:+ amount_text row
           +:+ ") for low risk profile customer")
   ++ say (sd_domiciliary row) "Customer type is domiciliary company"
   ++ say (sd_risk_rating row)
        ("Customer risk rating is " +:+ title (field_lower row "customer_risk_rating"))
   ++ say (sd_sanctions row) "Sanctions screening shows potential match")%list.

Definition Z_of_bool (b : bool) : Z := if b then 1%Z else 0%Z.

Definition suspicious_count (self : AMLDetectionAgent) (row : Row) : Z :=
  (Z_of_bool (sd_mas row) + Z_of_bool (sd_finma row) + Z_of_bool (sd_hkma row)
   + Z_of_bool (low_profile_high_amount self row) + Z_of_bool (sd_domiciliary row)
   + Z_of_bool (sd_risk_rating row) + Z_of_bool (sd_sanctions row))%Z.

End RuleTable.

(** ** Vocabulary of the claims about the evaluator *)

(** The fifteen rules: eight high-risk rules and the suspicious
    indicators (the regulator rule has one variant per regulator). *)
Inductive rule :=
| HR_pep | HR_domiciliary_no_edd | HR_edd_gap | HR_no_sow | HR_amount
| HR_not_assessed | HR_mismatch | HR_cash_id
| SD_mas | SD_finma | SD_hkma | SD_amount | SD_domiciliary | SD_risk_rating
| SD_sanctions.

(** The fields a rule reads. *)
Definition reads (r : rule) : list string :=
  match r with
  | HR_pep => ["customer_is_pep"]
  | HR_domiciliary_no_edd => ["customer_type"; "edd_performed"]
  | HR_edd_gap => ["edd_required"; "edd_performed"]
  | HR_no_sow => ["sow_documented"]
  | HR_amount => ["amount"; "client_risk_profile"]
  | HR_not_assessed => ["suitability_assessed"]
  | HR_mismatch => ["suitability_assessed"; "suitability_result"]
  | HR_cash_id => ["cash_id_verified"]
  | SD_mas => ["regulator"; "customer_type"; "edd_performed"]
  | SD_finma => ["regulator"; "customer_risk_rating"; "edd_performed"]
  | SD_hkma => ["regulator"; "sow_documented"]
  | SD_amount => ["amount"; "client_risk_profile"]
  | SD_domiciliary => ["customer_type"]
  | SD_risk_rating => ["customer_risk_rating"]
  | SD_sanctions => ["sanctions_screening"]
  end.

(** The fields that hold a yes/no flag. *)
Definition flag_fields : list string :=
  ["customer_is_pep"; "edd_required"; "edd_performed"; "sow_documented";
   "suitability_assessed"; "cash_id_verified"].

(** The text holds ASCII characters only. *)
Definition ascii_text (s : string) : Prop :=
  Forall (fun c => (N_of_ascii c < 128)%N) (list_ascii_of_string s).

(** A field is missing when the row has no such key or holds a null. *)
Definition missing (row : Row) (k : string) : Prop :=
  row !! k = None ∨ row !! k = Some VNone ∨ row !! k = Some (VNum Fnan).

Section Vocabulary.

Context `{Lib : PyLib}.

Definition matches (self : AMLDetectionAgent) (row : Row) (r : rule) : bool :=
  match r with
  | HR_pep => hr_pep row
  | HR_domiciliary_no_edd => hr_domiciliary_no_edd row
  | HR_edd_gap => hr_edd_gap row
  | HR_no_sow => hr_no_sow row
  | HR_amount => low_profile_high_amount self row
  | HR_not_assessed => hr_not_assessed row
  | HR_mismatch => hr_mismatch row
  | HR_cash_id => hr_cash_id row
  | SD_mas => sd_mas row
  | SD_finma => sd_finma row
  | SD_hkma => sd_hkma row
  | SD_amount => low_profile_high_amount self row
  | SD_domiciliary => sd_domiciliary row
  | SD_risk_rating => sd_risk_rating row
  | SD_sanctions => sd_sanctions row
  end.

(** A value that says "true": the boolean, or the word in any letter case. *)
Definition says_true (v : pyval) : Prop :=
  v = VBool true ∨ ∃ s, v = VStr s ∧ lower s = "true".

(** A flag is malformed when its text is plain ASCII and is neither
    "true" nor "false" in any letter case; an amount is malformed when
    [float] rejects it. Text that holds other characters is left out:
    the evaluator upper-cases it by the rules of Unicode, which this
    development does not embed. *)
Definition malformed (row : Row) (k : string) : Prop :=
  (k ∈ flag_fields
   ∧ ∃ v, row !! k = Some v
          ∧ ascii_text (py_str v)
          ∧ lower (py_str v) ≠ "true" ∧ lower (py_str v) ≠ "false")
  ∨ (k = "amount" ∧ ∃ v e, row !! k = Some v ∧ py_float v = Raise e).

Definition unusable (row : Row) (k : string) : Prop :=
  missing row k ∨ malformed row k.

End Vocabulary.

(** A small concrete library, enough to run the agent on whole-number
    amounts: numbers are read and printed as decimal integers. *)
Definition parse_whole (s : string) : option pyfloat :=
  match NilZero.int_of_string s with
  | Some i => Some (Ffin (inject_Z (Z.of_int i)))
  | None => None
  end.

Definition show_whole (x : pyfloat) : string :=
  match x with
  | Fnan => "nan"
  | Finf false => "inf"
  | Finf true => "-inf"
  | Ffin q => string_of_Z (Qfloor q)
  end.

Definition whole_lib : PyLib := {|
  repr_fin := fun q => string_of_Z (Qfloor q);
  fmt_amount := show_whole;
  py_float_str := parse_whole;
  pd_numeric_str := parse_whole;
  percentile_nonfinite := fun _ _ => Fnan
|}.

Definition default_agent : AMLDetectionAgent := init default_percentile.

(** A domiciliary company with due diligence done and a high risk rating. *)
Definition row_two_indicators : Row :=
  {[ "transaction_id" := VStr "T1";
     "customer_type" := VStr "domiciliary_company";
     "edd_performed" := VBool true;
     "customer_risk_rating" := VStr "High" ]}.

(** A domiciliary company with nothing else on record. *)
Definition row_shell_company : Row :=
  {[ "customer_type" := VStr "domiciliary_company" ]}.

(** A politically exposed customer. *)
Definition row_pep : Row :=
  {[ "transaction_id" := VStr "T2"; "customer_is_pep" := VStr "True" ]}.

(** ** Vocabulary of the claims about the calibrator *)

Section Calibration.

Context `{Lib : PyLib}.

(** What a cell is worth as a number, if anything: nulls and text that
    is not numeric are worth nothing. *)
Definition numeric_value (v : pyval) : option pyfloat :=
  match v with
  | VNone => None
  | VBool b => Some (Ffin (Q_of_bool b))
  | VInt z => Some (Ffin (inject_Z z))
  | VNum Fnan => None
  | VNum x => Some x
  | VStr s =>
      match pd_numeric_str s with
      | Some Fnan => None
      | o => o
      end
  end.

(** The cells of the amount column; none when the frame has no such
    column. *)
Definition amount_cells (df : DataFrame) : list pyval :=
  if bool_decide ("amount" ∈ columns df)
  then map (fun r => default (VNum Fnan) (r !! "amount")) (rows df)
  else [].

(** The amounts of the batch that read as numbers. *)
Definition numeric_amounts (df : DataFrame) : list pyfloat :=
  omap numeric_value (amount_cells df).

End Calibration.

(** The row carries the finite amount [a], as a float or as an integer. *)
Definition has_amount (row : Row) (a : Q) : Prop :=
  row !! "amount" = Some (VNum (Ffin a))
  \/ exists z, row !! "amount" = Some (VInt z) /\ a = inject_Z z.

(** The rank of a category: none, low, medium, high priority. *)
Definition category_rank (c : string) : Z :=
  if str_eqb c "LOW RISK" then 1
  else if str_eqb c "MEDIUM RISK" then 2
  else if str_eqb c "HIGH PRIORITY RISK" then 3
  else 0.

Section Unremarkable.

Context `{Lib : PyLib}.

(** The text of a field in lower case, as the claims speak of it. *)
Definition field_text (row : Row) (k : string) : string :=
  lower (py_str (get_d row k (VStr ""))).

(** A row with no flag anomaly: not politically exposed, not a
    domiciliary company, no due diligence required, source of wealth not
    marked absent, suitability neither unassessed nor mismatched, cash
    identity not marked unverified, risk rating neither medium nor high,
    and no potential sanctions match. *)
Definition unremarkable (row : Row) : Prop :=
  field_text row "customer_is_pep" <> "true"
  /\ field_text row "customer_type" <> "domiciliary_company"
  /\ field_text row "edd_required" <> "true"
  /\ field_text row "sow_documented" <> "false"
  /\ field_text row "suitability_assessed" <> "false"
  /\ field_text row "suitability_result" <> "mismatch"
  /\ field_text row "cash_id_verified" <> "false"
  /\ field_text row "customer_risk_rating" <> "medium"
  /\ field_text row "customer_risk_rating" <> "high"
  /\ field_text row "sanctions_screening" <> "potential".

End Unremarkable.

(** A batch of whole-number amounts: five ordinary rows and one outlier
    with a low risk profile. *)
Definition plain_row (id : string) (amount : Z) : Row :=
  {[ "transaction_id" := VStr id; "amount" := VInt amount;
     "client_risk_profile" := VStr "balanced"; "customer_risk_rating" := VStr "Low" ]}.

Definition outlier_row : Row :=
  {[ "transaction_id" := VStr "T6"; "amount" := VInt 6000;
     "client_risk_profile" := VStr "Low"; "customer_risk_rating" := VStr "Low" ]}.

Definition batch_columns : list string :=
  ["transaction_id"; "amount"; "client_risk_profile"; "customer_risk_rating"].

Definition six_before : list Row := [plain_row "T1" 100; plain_row "T2" 200].

Definition six_after : list Row :=
  [plain_row "T3" 150; plain_row "T4" 300; plain_row "T5" 250].

Definition batch_of_six : DataFrame :=
  {| columns := batch_columns;
     rows := (six_before ++ outlier_row :: six_after)%list |}.

(** ** The alert store and the report directory

    Times are counted in microseconds; [now] is the reading of the clock
    when an operation runs. The module-level globals of the service are
    the fields of [Store]; the listing of the directory of monthly
    reports is a finite map from file names to files, and the files the
    service reaches are a [Disk]. *)

Definition microseconds_per_day : Z := 86400000000.
Definition RETENTION_DAYS : Z := 30.
Definition REPORT_RETENTION_DAYS : Z := 365.

(** [s.replace(c, "")] for a one-character [c] *)
Fixpoint remove_char (c : ascii) (s : string) : string :=
  match s with
  | EmptyString => EmptyString
  | String a s' => if Ascii.eqb a c then remove_char c s' else String a (remove_char c s')
  end.

(** [s.endswith(suffix)]: some tail of [s] is [suffix]. *)
Fixpoint ends_with (suffix s : string) : bool :=
  str_eqb s suffix
  || match s with
     | EmptyString => false
     | String _ s' => ends_with suffix s'
     end.

(** [s.split(sep)] for a one-character [sep] *)
Fixpoint split_on (sep : ascii) (s : string) : list string :=
  match s with
  | EmptyString => [""]
  | String a s' =>
      if Ascii.eqb a sep then "" :: split_on sep s'
      else match split_on sep s' with
           | [] => [String a ""]
           | w :: ws => String a w :: ws
           end
  end.

(** [sub in s] on text *)
Fixpoint contains (sub s : string) : bool :=
  String.prefix sub s
  || match s with
     | EmptyString => false
     | String _ s' => contains sub s'
     end.

(** A time read from text: without an offset, as [datetime.utcnow()]
    gives it, or with one. Comparing a time that has an offset with one
    that has none raises [TypeError]. *)
Inductive parsed_time :=
| Naive (t : Z)
| Aware.

(** The text of timestamps: [datetime.isoformat] of a time without
    offset, [datetime.fromisoformat] ([None] stands for [ValueError]) and
    [strftime("%Y-%m")]. The texts are lawful when an ISO text holds no
    letter Z and reads back as the time it was written from. *)
Class TimeText := {
  isoformat : Z -> string;
  fromisoformat : string -> option parsed_time;
  month_key : Z -> string
}.

Definition iso_lawful `{TimeText} : Prop :=
  (forall t, remove_char "Z" (isoformat t) = isoformat t)
  /\ (forall t, fromisoformat (isoformat t) = Some (Naive t)).

Record ResolvedMeta := {
  note : string;
  resolved_at : string
}.

Record Store := {
  df_raw : option DataFrame;
  df_scored : option DataFrame;
  agent : option AMLDetectionAgent;
  resolved_alerts : gmap string ResolvedMeta
}.

Definition set_resolved (st : Store) (m : gmap string ResolvedMeta) : Store :=
  {| df_raw := df_raw st; df_scored := df_scored st; agent := agent st;
     resolved_alerts := m |}.

Record File := {
  content : string;
  mtime : Z
}.

Abbreviation Dir := (gmap string File).

(** [for k in ks: del m[k]] *)
Definition delete_all {V} (ks : list string) (m : gmap string V) : gmap string V :=
  foldl (fun m k => delete k m) m ks.

(** The cell of a row of a frame under a column. *)
Definition cell (r : Row) (name : string) : pyval := default (VNum Fnan) (r !! name).

(** [df[mask]] where the mask tests the cells of one column; the frame
    must have the column. *)
Definition select (df : DataFrame) (name : string) (p : pyval -> bool) : res DataFrame :=
  if bool_decide (name ∈ columns df)
  then Ok {| columns := columns df;
             rows := filter (fun r => p (cell r name) = true) (rows df) |}
  else Raise KeyError.

(** [v == 1] *)
Definition is_one (v : pyval) : bool :=
  match v with
  | VBool b => b
  | VInt z => (z =? 1)%Z
  | VNum (Ffin q) => Qeq_bool q 1
  | _ => false
  end.

Inductive resolve_response :=
| DataNotLoaded
| NotFound (detail : string)
| Resolved (transaction_id : string).

Section Store.

Context `{Lib : PyLib} `{Clock : TimeText}.

(** The test the loop of the sweep makes on one entry,
    [dt is None or dt < cutoff]: a timestamp that does not read as a time
    marks the entry, one that reads as a time with an offset makes the
    comparison raise. *)
Definition sweep_entry (cutoff : Z) (meta : ResolvedMeta) : res bool :=
  let ts := resolved_at meta in
  match fromisoformat (remove_char "Z" ts) with
  | None => Ok true
  | Some (Naive dt) => Ok (dt <? cutoff)%Z
  | Some Aware => Raise TypeError
  end.

(** The first loop of the sweep: the ids to delete. *)
Fixpoint sweep (cutoff : Z) (entries : list (string * ResolvedMeta)) : res (list string) :=
  match entries with
  | [] => mret []
  | (tid, meta) :: rest =>
      old ← sweep_entry cutoff meta;
      to_delete ← sweep cutoff rest;
      mret (if (old : bool) then tid :: to_delete else to_delete)
  end.

(** [purge_old_resolved_alerts()]: when the first loop raises, the sweep
    is abandoned and nothing is deleted. *)
Definition purge_old_resolved_alerts (now : Z) (st : Store) : Store :=
  let cutoff := (now - RETENTION_DAYS * microseconds_per_day)%Z in
  match sweep cutoff (map_to_list (resolved_alerts st)) with
  | Ok to_delete => set_resolved st (delete_all to_delete (resolved_alerts st))
  | Raise _ => st
  end.

(** The entry is one a completed sweep removes: its timestamp does not
    read as a time, or reads as a time before the cutoff. *)
Definition expired (cutoff : Z) (meta : ResolvedMeta) : bool :=
  match fromisoformat (remove_char "Z" (resolved_at meta)) with
  | None => true
  | Some (Naive dt) => (dt <? cutoff)%Z
  | Some Aware => false
  end.

(** The timestamp of the entry reads as a time with an offset. *)
Definition aware (meta : ResolvedMeta) : bool :=
  match fromisoformat (remove_char "Z" (resolved_at meta)) with
  | Some Aware => true
  | _ => false
  end.

(** Some entry of the map makes the sweep raise. *)
Definition abandons (m : gmap string ResolvedMeta) : bool :=
  existsb (fun e => aware e.2) (map_to_list m).

(** [df_scored[df_scored["is_suspicious"] == 1]] *)
Definition flagged (df : DataFrame) : res DataFrame := select df "is_suspicious" is_one.

(** [resolve_alert(transaction_id, note)] *)
Definition resolve_alert (now : Z) (transaction_id : string) (note : option string)
    (st : Store) : resolve_response * Store :=
  match df_scored st with
  | None => (DataNotLoaded, st)
  | Some df =>
      let tid := transaction_id in
      let exists_ :=
        match
          (fl ← flagged df;
           ids ← column fl "transaction_id";
           mret (existsb (fun v => str_eqb (py_str v) tid) ids))
        with
        | Ok b => b
        | Raise _ => false
        end in
      if negb exists_
      then (NotFound ("Alert for transaction " +:+ tid +:+ " not found or not suspicious"),
            st)
      else (Resolved tid,
            set_resolved st
              (<[tid := {| note := default "" note;
                           resolved_at := isoformat now +:+ "Z" |}]>
                 (resolved_alerts st)))
  end.

(** The transaction id names an alert of the batch: some row of the
    scored frame is suspicious and carries that id. *)
Definition is_alert (df : DataFrame) (tid : string) : Prop :=
  "is_suspicious" ∈ columns df
  /\ "transaction_id" ∈ columns df
  /\ exists r, r ∈ rows df
              /\ is_one (cell r "is_suspicious") = true
              /\ py_str (cell r "transaction_id") = tid.

(** What [resolve_alert] records. *)
Definition resolution (now : Z) (note : option string) : ResolvedMeta :=
  {| note := default "" note; resolved_at := isoformat now +:+ "Z" |}.

(** [list_resolved_alerts()] *)
Definition list_resolved_alerts (now : Z) (st : Store)
    : list (string * ResolvedMeta) * Store :=
  let st := purge_old_resolved_alerts now st in
  (map_to_list (resolved_alerts st), st).

End Store.

(** *** Monthly reports

    The reports directory is the map [children] from the names of its
    files to the files; files elsewhere, which a month name with a path
    separator can lead to, are in [elsewhere]. The listing of the reports
    directory shows the children only. *)

Record Summary := {
  summary_month : string;
  generated_at : string;
  total_flagged : Z;
  resolved : Z;
  unresolved : Z;
  by_regulator : gmap string nat;
  by_category : gmap string nat
}.

(** The texts of the two artifacts: [DataFrame.to_csv] and [json.dump]. *)
Class Serializer := {
  to_csv : DataFrame -> string;
  json_dump : Summary -> string
}.

(** Where [os.path.join(REPORTS_DIR, path)] leads. *)
Inductive place :=
| Child (name : string)
| Elsewhere (path : string).

(** What becomes of writing a text to a file: the write fails before the
    file is there, fails after part of the text is in it, or succeeds. *)
Inductive written :=
| NotWritten
| Truncated (text : string)
| Written.

(** The file system as the service meets it: where a path under the
    reports directory leads, and how the write of a text under a path at
    a time ends. *)
Class FileSystem := {
  place_of : string -> place;
  write_result : Z -> string -> string -> written
}.

Record Disk := {
  children : Dir;
  elsewhere : Dir
}.

Inductive generate_response :=
| ReportExists (month : string)
| ReportGenerated (csv_path json_path : string) (summary : Summary)
| ReportFailed (e : pyexn).

(** [purge_old_monthly_reports()], on the listing of the reports
    directory. *)
Definition purge_old_monthly_reports (now : Z) (fs : Dir) : Dir :=
  let cutoff := (now - REPORT_RETENTION_DAYS * microseconds_per_day)%Z in
  let stale :=
    omap (fun '(name, f) =>
            if negb (ends_with ".csv" name || ends_with ".json" name) then None
            else if (mtime f <? cutoff)%Z then Some name else None)
         (map_to_list fs) in
  delete_all stale fs.

(** The disk after [purge_old_monthly_reports()]. *)
Definition purged (now : Z) (d : Disk) : Disk :=
  {| children := purge_old_monthly_reports now (children d);
     elsewhere := elsewhere d |}.

(** The file at the place. *)
Definition file_at (d : Disk) (pl : place) : option File :=
  match pl with
  | Child name => children d !! name
  | Elsewhere path => elsewhere d !! path
  end.

Definition put_at (d : Disk) (pl : place) (f : File) : Disk :=
  match pl with
  | Child name => {| children := <[name := f]> (children d); elsewhere := elsewhere d |}
  | Elsewhere path => {| children := children d; elsewhere := <[path := f]> (elsewhere d) |}
  end.

Section Disk.

Context `{FS : FileSystem}.

(** The file under a path, if there is one. *)
Definition disk_lookup (d : Disk) (path : string) : option File :=
  file_at d (place_of path).

(** [try: <write text to path> except Exception: pass] *)
Definition disk_write (now : Z) (path text : string) (d : Disk) : Disk :=
  match write_result now path text with
  | NotWritten => d
  | Truncated part => put_at d (place_of path) {| content := part; mtime := now |}
  | Written => put_at d (place_of path) {| content := text; mtime := now |}
  end.

(** Whether [purge_old_monthly_reports()] removes the file under the
    path: it is listed in the reports directory, its name ends as a report
    file's does, and it was last written before the cutoff. *)
Definition stale (now : Z) (d : Disk) (path : string) : bool :=
  match place_of path with
  | Child name =>
      match children d !! name with
      | Some f =>
          (ends_with ".csv" name || ends_with ".json" name)
          && (mtime f <? now - REPORT_RETENTION_DAYS * microseconds_per_day)%Z
      | None => false
      end
  | Elsewhere _ => false
  end.

(** [monthly_report_exists(month)] *)
Definition monthly_report_exists (month : string) (d : Disk) : bool :=
  bool_decide (is_Some (disk_lookup d (month +:+ ".csv")))
  && bool_decide (is_Some (disk_lookup d (month +:+ ".json"))).

End Disk.

Section Reports.

Context `{Lib : PyLib} `{Clock : TimeText} `{Ser : Serializer} `{FS : FileSystem}.

(** [series.value_counts(dropna=False).to_dict()], keyed by the text of
    the values. *)
Definition value_counts (cells : list pyval) : gmap string nat :=
  foldr (fun v m => <[py_str v := S (default 0%nat (m !! py_str v))]> m) ∅ cells.

(** [flagged["resolved"] = flagged["transaction_id"].astype(str).isin(keys)] *)
Definition with_resolved (keys : gmap string ResolvedMeta) (df : DataFrame) : DataFrame :=
  if bool_decide ("transaction_id" ∈ columns df)
  then {| columns := (columns df ++ ["resolved"])%list;
          rows := map (fun r =>
                         <["resolved" :=
                             VBool (bool_decide
                                      (is_Some (keys !! py_str (cell r "transaction_id"))))]> r)
                      (rows df) |}
  else {| columns := (columns df ++ ["resolved"])%list;
          rows := map (fun r => <["resolved" := VBool false]> r) (rows df) |}.

Definition counts_of (df : DataFrame) (name : string) : gmap string nat :=
  match column df name with
  | Ok cells => value_counts cells
  | Raise _ => ∅
  end.

(** [generate_monthly_report(month)]: a write that fails is passed over. *)
Definition generate_monthly_report (now : Z) (month : option string) (st : Store)
    (d : Disk) : res (generate_response * Disk) :=
  match df_scored st with
  | None => Raise RuntimeError
  | Some df =>
      let month :=
        match month with
        | Some m => if str_truthy m then m else month_key now
        | None => month_key now
        end in
      fl ← flagged df;
      let fl := with_resolved (resolved_alerts st) fl in
      let csv_path := month +:+ ".csv" in
      let d := disk_write now csv_path (to_csv fl) d in
      let total := Z.of_nat (length (rows fl)) in
      let resolved_count :=
        Z.of_nat (length (filter (fun r => is_one (cell r "resolved") = true) (rows fl))) in
      let summary :=
        {| summary_month := month;
           generated_at := isoformat now +:+ "Z";
           total_flagged := total;
           resolved := resolved_count;
           unresolved := (total - resolved_count)%Z;
           by_regulator := counts_of fl "regulator";
           by_category := counts_of fl "risk_category" |} in
      let json_path := month +:+ ".json" in
      let d := disk_write now json_path (json_dump summary) d in
      mret (ReportGenerated csv_path json_path summary, d)
  end.

(** [reports_generate(month)]: the response and the disk afterwards. *)
Definition reports_generate (now : Z) (month : option string) (st : Store) (d : Disk)
    : generate_response * Disk :=
  let d := purged now d in
  let month := default (month_key now) month in
  if monthly_report_exists month d then (ReportExists month, d)
  else
    match generate_monthly_report now (Some month) st d with
    | Ok out => out
    | Raise e => (ReportFailed e, d)
    end.

End Reports.

(** *** A small clock, serializer and store to run the operations on *)

(** Times are written as decimal counts of microseconds; a text that
    ends in an offset of zero reads as a time with an offset. *)
Definition count_clock : TimeText := {|
  isoformat := string_of_Z;
  fromisoformat := fun s =>
    if ends_with "+00:00" s then Some Aware
    else option_map (fun i => Naive (Z.of_int i)) (NilZero.int_of_string s);
  month_key := fun t => string_of_Z (t / (31 * microseconds_per_day))
|}.

(** A reports directory without sub-directories: a path with a separator
    leads elsewhere, and only files of the directory itself can be
    written. *)
Definition flat_disk : FileSystem := {|
  place_of := fun p => if contains "/" p then Elsewhere p else Child p;
  write_result := fun _ p _ => if contains "/" p then NotWritten else Written
|}.

Definition plain_serializer : Serializer := {|
  to_csv := fun df => join "," (columns df);
  json_dump := fun s => summary_month s
|}.

Definition scored_row (id : string) (suspicious : Z) : Row :=
  {[ "transaction_id" := VStr id; "is_suspicious" := VInt suspicious ]}.

Definition scored_sample : DataFrame :=
  {| columns := ["transaction_id"; "is_suspicious"];
     rows := [scored_row "T1" 1; scored_row "T2" 0] |}.

Definition store_sample : Store :=
  {| df_raw := None; df_scored := Some scored_sample; agent := None;
     resolved_alerts := ∅ |}.

Definition undated_meta : ResolvedMeta := {| note := ""; resolved_at := "yesterday" |}.

(** A store that holds one resolution whose timestamp is not a time. *)
Definition store_undated : Store :=
  {| df_raw := None; df_scored := Some scored_sample; agent := None;
     resolved_alerts := {[ "T1" := undated_meta ]} |}.

(** A store that also holds a resolution stamped with an offset. *)
Definition offset_meta : ResolvedMeta := {| note := ""; resolved_at := "5+00:00" |}.

Definition store_offset : Store :=
  {| df_raw := None; df_scored := Some scored_sample; agent := None;
     resolved_alerts := {[ "T1" := undated_meta; "T2" := offset_meta ]} |}.

Definition days (n : Z) : Z := (n * microseconds_per_day)%Z.

Definition file (text : string) (at_time : Z) : File :=
  {| content := text; mtime := at_time |}.

(** A report pair written long ago. *)
Definition old_reports : Disk :=
  {| children :=
       {[ "2020-01.csv" := file "old extract" 0; "2020-01.json" := file "old summary" 0 ]};
     elsewhere := ∅ |}.

(** A report pair written a day ago. *)
Definition fresh_reports : Disk :=
  {| children :=
       {[ "2020-01.csv" := file "extract" (days 399);
          "2020-01.json" := file "summary" (days 399) ]};
     elsewhere := ∅ |}.

(** A report pair written long ago under a month name that leads out of
    the reports directory. *)
Definition outside_reports : Disk :=
  {| children := ∅;
     elsewhere :=
       {[ "../x.csv" := file "old extract" 0; "../x.json" := file "old summary" 0 ]} |}.

Definition no_reports : Disk := {| children := ∅; elsewhere := ∅ |}.

(** ** Loading the batch and querying the flags *)

Definition result_columns : list string :=
  ["transaction_id"; "is_suspicious"; "risk_category"; "suspicious_detection_count";
   "high_risk_detected"; "reasons"].

(** One dictionary of [results] as a row of [pd.DataFrame(results)]. *)
Definition result_row (r : DetectionResult) : Row :=
  <["transaction_id" := transaction_id r]>
    (<["is_suspicious" := VInt (is_suspicious r)]>
       (<["risk_category" := VStr (risk_category r)]>
          (<["suspicious_detection_count" := VInt (suspicious_detection_count r)]>
             (<["high_risk_detected" := VInt (high_risk_detected r)]>
                (<["reasons" := VStr (reasons r)]> ∅))))).

(** [pd.DataFrame(results)]: no columns when there are no results. *)
Definition results_frame (results : list DetectionResult) : DataFrame :=
  {| columns := match results with [] => [] | _ => result_columns end;
     rows := map result_row results |}.

Definition float_of_key (v : pyval) : option pyfloat :=
  match v with
  | VBool b => Some (Ffin (Q_of_bool b))
  | VInt z => Some (Ffin (inject_Z z))
  | VNum x => Some x
  | _ => None
  end.

(** Two join keys match when they are equal values; nulls match nulls. *)
Definition key_eq (a b : pyval) : bool :=
  if negb (notna a) then negb (notna b)
  else
    match a, b with
    | VStr s, VStr t => str_eqb s t
    | _, _ =>
        match float_of_key a, float_of_key b with
        | Some (Ffin x), Some (Ffin y) => Qeq_bool x y
        | Some (Finf n), Some (Finf m) => Bool.eqb n m
        | _, _ => false
        end
    end.

(** The name a column gets in a merge: a column the other frame has too,
    the key apart, takes the suffix. *)
Definition suffixed (others : list string) (key suffix k : string) : string :=
  if bool_decide (k <> key /\ k ∈ others) then k +:+ suffix else k.

Definition rename_row (f : string -> string) (r : Row) : Row :=
  list_to_map (map (fun kv => (f kv.1, kv.2)) (map_to_list r)).

(** [left.merge(right, on=key, how="left")] *)
Definition merge_left (left right : DataFrame) (key : string) : res DataFrame :=
  if bool_decide (key ∈ columns left) && bool_decide (key ∈ columns right) then
    let fx := suffixed (columns right) key "_x" in
    let fy := suffixed (columns left) key "_y" in
    Ok {| columns :=
            (map fx (columns left)
             ++ map fy (filter (fun c => c <> key) (columns right)))%list;
          rows :=
            concat
              (map (fun l =>
                      match filter (fun r => key_eq (cell l key) (cell r key) = true)
                                   (rows right) with
                      | [] => [rename_row fx l]
                      | matched =>
                          map (fun r => rename_row fx l ∪ rename_row fy (delete key r))
                              matched
                      end)
                   (rows left)) |}
  else Raise KeyError.

(** [if col not in df.columns: df[col] = None] *)
Definition ensure_column (df : DataFrame) (col : string) : DataFrame :=
  if bool_decide (col ∈ columns df) then df
  else {| columns := (columns df ++ [col])%list;
          rows := map (fun r => <[col := VNone]> r) (rows df) |}.

Definition expected_columns : list string :=
  ["is_suspicious"; "risk_category"; "suspicious_detection_count"; "high_risk_detected";
   "reasons"].

Record FlagQuery := {
  q_customer_id : option string;
  q_customer_ids : option string;
  q_regulator : option string;
  q_booking_jurisdiction : option string;
  q_transaction_id : option string;
  q_resolved : option bool
}.

Inductive flags_response :=
| FlagsNotLoaded
| FlagsRecords (records : list Row)
| FlagsFailed (e : pyexn).

(** A query parameter that is given and not empty. *)
Definition given (o : option string) : option string :=
  match o with
  | Some s => if str_truthy s then Some s else None
  | None => None
  end.

Definition flag_columns : list string :=
  ["transaction_id"; "amount"; "currency"; "regulator"; "booking_jurisdiction";
   "customer_id"; "customer_risk_rating"; "risk_category"; "suspicious_detection_count";
   "reasons"; "booking_datetime"].

(** The text of the id of a row, as the store compares it. *)
Definition id_cell (r : Row) : pyval := cell r "transaction_id".

(** Every row of the frame carries the id of one of the given rows, and
    the frame has the id column. *)
Definition stems_from (ls : list Row) (df : DataFrame) : Prop :=
  "transaction_id" ∈ columns df
  /\ forall r, r ∈ rows df -> exists l, l ∈ ls /\ id_cell r = id_cell l.

Section Service.

Context `{Lib : PyLib} `{Clock : TimeText}.

(** [load_and_score()]; [read_csv] is what [pd.read_csv(CSV_PATH)] comes
    to: the frame read, or the error it raises ([FileNotFoundError],
    [EmptyDataError], [ParserError]), which is passed on. *)
Definition load_and_score (read_csv : res DataFrame) (st : Store) : res Store :=
  csv ← read_csv;
  let df_raw := {| columns := columns csv; rows := take 100 (rows csv) |} in
  let agent := init 95 in
  '(agent, results) ← process_dataframe agent df_raw;
  let results_df := results_frame results in
  df_scored ← merge_left df_raw results_df "transaction_id";
  let df_scored := foldl ensure_column df_scored expected_columns in
  mret {| df_raw := Some df_raw; df_scored := Some df_scored; agent := Some agent;
          resolved_alerts := resolved_alerts st |}.

(** [[x.strip() for x in customer_ids.split(",") if x.strip()]] *)
Definition id_list (customer_ids : string) : list string :=
  filter (fun x => str_truthy x = true) (map strip (split_on "," customer_ids)).

(** One record of [to_dict(orient="records")] over the present columns,
    with its resolved flag. *)
Definition flag_record (resolved : gmap string ResolvedMeta) (present : list string)
    (r : Row) : Row :=
  let record : Row := list_to_map (map (fun c => (c, cell r c)) present) in
  let tid := py_str (get record "transaction_id") in
  <["resolved" := VBool (bool_decide (is_Some (resolved !! tid)))]> record.

(** [get_flags(...)]: the response and the store afterwards. *)
Definition get_flags (now : Z) (q : FlagQuery) (st : Store) : flags_response * Store :=
  match df_scored st with
  | None => (FlagsNotLoaded, st)
  | Some scored =>
      let st := purge_old_resolved_alerts now st in
      let resolved := resolved_alerts st in
      let body : res (list Row) :=
        df ← flagged scored;
        df ← match given (q_transaction_id q) with
             | Some t => select df "transaction_id" (fun v => str_eqb (py_str v) t)
             | None => mret df
             end;
        df ← match given (q_customer_id q) with
             | Some c => select df "customer_id" (fun v => str_eqb (py_str v) c)
             | None => mret df
             end;
        df ← match given (q_customer_ids q) with
             | Some cs =>
                 let ids := id_list cs in
                 if (0 <? length ids)%nat
                 then select df "customer_id" (fun v => bool_decide (py_str v ∈ ids))
                 else mret df
             | None => mret df
             end;
        df ← match given (q_regulator q) with
             | Some x =>
                 select df "regulator" (fun v => str_eqb (lower (py_str v)) (lower x))
             | None => mret df
             end;
        df ← match given (q_booking_jurisdiction q) with
             | Some x =>
                 select df "booking_jurisdiction"
                   (fun v => str_eqb (lower (py_str v)) (lower x))
             | None => mret df
             end;
        df ← match q_resolved q with
             | Some true =>
                 select df "transaction_id"
                   (fun v => bool_decide (is_Some (resolved !! py_str v)))
             | Some false =>
                 select df "transaction_id"
                   (fun v => negb (bool_decide (is_Some (resolved !! py_str v))))
             | None => mret df
             end;
        let present_cols := filter (fun c => c ∈ columns df) flag_columns in
        mret (map (flag_record resolved present_cols) (take 500 (rows df))) in
      match body with
      | Ok records => (FlagsRecords records, st)
      | Raise e => (FlagsFailed e, st)
      end
  end.

End Service.

Definition customer_row (id : Z) (pep : bool) : Row :=
  {[ "transaction_id" := VInt id; "customer_is_pep" := VBool pep ]}.

(** A file of 101 rows: the first is a politically exposed customer, the
    last one carries the same id as the first. *)
Definition long_file : DataFrame :=
  {| columns := ["transaction_id"; "customer_is_pep"];
     rows := (customer_row 1 true
              :: map (fun n => customer_row (Z.of_nat n) false) (seq 2 99)
              ++ [customer_row 1 false])%list |}.

(** A file of 101 rows whose last row carries an id of its own. *)
Definition fresh_file : DataFrame :=
  {| columns := ["transaction_id"; "customer_is_pep"];
     rows := (customer_row 1 true
              :: map (fun n => customer_row (Z.of_nat n) false) (seq 2 99)
              ++ [customer_row 999 true])%list |}.

Definition empty_store : Store :=
  {| df_raw := None; df_scored := None; agent := None; resolved_alerts := ∅ |}.

Definition any_query : FlagQuery :=
  {| q_customer_id := None; q_customer_ids := None; q_regulator := None;
     q_booking_jurisdiction := None; q_transaction_id := None; q_resolved := None |}.

(** ** Further operations of the service *)

(** Truth value of a cell, as [x or y] tests it. *)
Definition truthy (v : pyval) : bool :=
  match v with
  | VNone => false
  | VBool b => b
  | VInt z => negb (z =? 0)%Z
  | VNum x => float_truthy x
  | VStr s => str_truthy s
  end.

(** [v or d] *)
Definition py_or (v d : pyval) : pyval := if truthy v then v else d.

(** [row.get(k, d)] on a row of [df.iterrows()]: the cell when the frame
    has the column, the default otherwise. *)
Definition series_get (df : DataFrame) (r : Row) (k : string) (d : pyval) : pyval :=
  if bool_decide (k ∈ columns df) then cell r k else d.

Record Task := {
  task_transaction_id : pyval;
  task_risk_category : pyval;
  actions : list string;
  task_customer_id : pyval;
  task_regulator : pyval
}.

Inductive tasks_response :=
| TasksNotLoaded
| Tasks (tasks : list Task)
| TasksFailed (e : pyexn).

Inductive export_response :=
| ExportNotLoaded
| ExportCsv (text : string)
| ExportFailed (e : pyexn).

Inductive decide_response :=
| DecisionRejected (detail : string)
| DecisionNotFound (detail : string)
| DecisionUpdated (id decision : string).

Inductive download_response :=
| DownloadMissing (detail : string)
| DownloadCsv (text : string)
| DownloadJson (text : string)
| DownloadFailed.

(** [v.get("id") == id] for a text [id] *)
Definition has_id (id : string) (v : Row) : bool :=
  match v !! "id" with
  | Some (VStr s) => str_eqb s id
  | _ => false
  end.

(** The loop of [doc_validation_decide] that finds the first entry with
    the id, and the three assignments to the entry found; the entry is
    the very dictionary the list holds, so the list is updated in place. *)
Fixpoint update_first (id : string) (upd : Row -> Row) (docs : list Row)
    : option (list Row) :=
  match docs with
  | [] => None
  | v :: rest =>
      if has_id id v then Some (upd v :: rest)
      else option_map (cons v) (update_first id upd rest)
  end.

(** The number of cells a table of counts accounts for. *)
Definition total_of (counts : gmap string nat) : nat :=
  map_fold (fun _ n acc => (n + acc)%nat) 0%nat counts.

(** The month a report is written for: the month asked for, the current
    month when none or an empty one is given. *)
Definition report_month `{TimeText} (now : Z) (month : option string) : string :=
  match month with
  | Some m => if str_truthy m then m else month_key now
  | None => month_key now
  end.

(** [health()]: the number of rows it reports. *)
Definition health (st : Store) : nat :=
  match df_scored st with
  | None => 0
  | Some df => length (rows df)
  end.

Section Download.

Context `{FS : FileSystem}.

(** [reports_download(month, format)]; the data of a summary is
    returned as the text it is read from, [json_ok] tells whether
    [json.load] accepts the text. *)
Definition reports_download (json_ok : string -> bool) (month format : string) (d : Disk)
    : download_response :=
  if str_eqb format "csv" then
    match disk_lookup d (month +:+ ".csv") with
    | None => DownloadMissing "Report CSV not found"
    | Some f => DownloadCsv (content f)
    end
  else
    match disk_lookup d (month +:+ ".json") with
    | None => DownloadMissing "Report JSON not found"
    | Some f => if json_ok (content f) then DownloadJson (content f) else DownloadFailed
    end.

End Download.

Section ServiceMore.

Context `{Lib : PyLib} `{Clock : TimeText} `{Ser : Serializer} `{FS : FileSystem}.

(** The actions [remediation_tasks] recommends for one flagged row. *)
Definition recommended_actions (df : DataFrame) (row : Row) : list string :=
  let reasons := py_str (py_or (series_get df row "reasons" VNone) (VStr "")) in
  let recommended : list string := [] in
  let recommended :=
    if contains "EDD" reasons
       || str_eqb (upper (py_str (series_get df row "edd_required" (VStr "")))) "TRUE"
    then (recommended ++ ["Perform Enhanced Due Diligence (EDD)"])%list
    else recommended in
  let recommended :=
    if contains "sanctions" (lower reasons)
    then (recommended ++ ["Run sanctions screening and clear false positives"])%list
    else recommended in
  let recommended :=
    if contains "SOW" reasons
       || str_eqb (upper (py_str (series_get df row "sow_documented" (VStr "")))) "FALSE"
    then (recommended ++ ["Obtain Source of Wealth documentation"])%list
    else recommended in
  let recommended :=
    if contains "high amount" (lower reasons)
    then (recommended ++ ["Validate unusual amount with client and justification"])%list
    else recommended in
  match recommended with
  | [] => ["Review case details and document outcome"]
  | _ => recommended
  end.

(** [remediation_tasks()] *)
Definition remediation_tasks (st : Store) : tasks_response :=
  match df_scored st with
  | None => TasksNotLoaded
  | Some scored =>
      match flagged scored with
      | Raise e => TasksFailed e
      | Ok fl =>
          Tasks
            (take 500
               (map (fun row =>
                       {| task_transaction_id := series_get fl row "transaction_id" VNone;
                          task_risk_category := series_get fl row "risk_category" VNone;
                          actions := recommended_actions fl row;
                          task_customer_id := series_get fl row "customer_id" VNone;
                          task_regulator := series_get fl row "regulator" VNone |})
                    (rows fl)))
      end
  end.

(** The rows [export_fraud_csv] writes out: the resolution filter falls
    back to all flagged rows when it fails. *)
Definition export_rows (keys : gmap string ResolvedMeta) (resolved : option bool)
    (fl : DataFrame) : DataFrame :=
  match
    match resolved with
    | None | Some false =>
        select fl "transaction_id"
          (fun v => negb (bool_decide (is_Some (keys !! py_str v))))
    | Some true =>
        select fl "transaction_id" (fun v => bool_decide (is_Some (keys !! py_str v)))
    end
  with
  | Ok df => df
  | Raise _ => fl
  end.

(** [export_fraud_csv(resolved)]: the response and the store afterwards. *)
Definition export_fraud_csv (now : Z) (resolved : option bool) (st : Store)
    : export_response * Store :=
  match df_scored st with
  | None => (ExportNotLoaded, st)
  | Some scored =>
      let st := purge_old_resolved_alerts now st in
      match flagged scored with
      | Raise e => (ExportFailed e, st)
      | Ok fl => (ExportCsv (to_csv (export_rows (resolved_alerts st) resolved fl)), st)
      end
  end.

(** [doc_validation_decide(id, decision, note)]: the response and the
    list of validations afterwards. *)
Definition doc_validation_decide (now : Z) (id decision : string) (note : option string)
    (docs : list Row) : decide_response * list Row :=
  if negb (bool_decide (decision ∈ ["accept"; "reject"]))
  then (DecisionRejected "Decision must be 'accept' or 'reject'", docs)
  else
    match
      update_first id
        (fun found =>
           <["decided_at" := VStr (isoformat now +:+ "Z")]>
             (<["decision_note" := VStr (default "" note)]>
                (<["decision" := VStr decision]> found)))
        docs
    with
    | None => (DecisionNotFound "Validation entry not found", docs)
    | Some docs' => (DecisionUpdated id decision, docs')
    end.

(** One pass of the loop of [report_scheduler()]: the failures of the
    generation are swallowed. *)
Definition report_scheduler_pass (now : Z) (st : Store) (d : Disk) : Store * Disk :=
  let d := purged now d in
  let st := purge_old_resolved_alerts now st in
  let current_month := month_key now in
  if negb (monthly_report_exists current_month d) then
    match generate_monthly_report now (Some current_month) st d with
    | Ok (_, d') => (st, d')
    | Raise _ => (st, d)
    end
  else (st, d).

(** [report_scheduler()], for the passes made at the given readings of
    the clock. *)
Definition report_scheduler (ticks : list Z) (st : Store) (d : Disk) : Store * Disk :=
  foldl (fun s now => report_scheduler_pass now s.1 s.2) (st, d) ticks.

(** [startup_event()], as far as the batch and the store go. *)
Definition startup_event (now : Z) (read_csv : res DataFrame) (st : Store) : res Store :=
  st ← load_and_score read_csv st;
  mret (purge_old_resolved_alerts now st).

End ServiceMore.

(** *** Samples *)

Definition large_low_profile_row : Row :=
  {[ "transaction_id" := VStr "A"; "amount" := VInt 5000000;
     "client_risk_profile" := VStr "low" ]}.

Definition zero_threshold_agent : AMLDetectionAgent :=
  {| high_amount_threshold_percentile := 95; high_amount_threshold := Some (Ffin 0) |}.

Definition three_amounts : DataFrame :=
  {| columns := ["amount"];
     rows := [ {[ "amount" := VInt 10 ]}; {[ "amount" := VInt 30 ]};
               {[ "amount" := VInt 20 ]} ] |}.

Definition pending_doc (id : string) : Row :=
  {[ "id" := VStr id; "filename" := VStr "passport.pdf"; "decision" := VStr "pending";
     "decision_note" := VStr "" ]}.

Definition two_docs : list Row := [pending_doc "d1"; pending_doc "d2"].

(** A file of three rows with ids of their own. *)
Definition short_file : DataFrame :=
  {| columns := ["transaction_id"; "customer_is_pep"];
     rows := [customer_row 1 true; customer_row 2 false; customer_row 3 true] |}.
(** * Properties *)

(** ** The check functions run every rule *)

Section Rules.

Context `{Lib : PyLib}.

(** [float] raises nothing but what the amount rules catch. *)
Lemma py_float_caught (v : pyval) :
  match py_float v with
  | Ok _ => True
  | Raise e => e = ValueError ∨ e = TypeError
  end.
Proof.
  destruct v as [| b | z | x | s]; simpl; auto.
  destruct (py_float_str s); auto.
Qed.

Lemma check_high_risk_variables_rules (self : AMLDetectionAgent) (row : Row) :
  check_high_risk_variables self row
  = Ok (any_high_risk self row, high_risk_reasons self row).
Proof.
  unfold check_high_risk_variables, any_high_risk, high_risk_reasons,
    low_profile_high_amount, amount_text, amount_of,
    hr_pep, hr_domiciliary_no_edd, hr_edd_gap, hr_no_sow, hr_not_assessed,
    hr_mismatch, hr_cash_id.
  pose proof (py_float_caught (get_d row "amount" (VInt 0))) as Hc.
  set (c1 := notna (get row "customer_is_pep")
             && str_eqb (upper (py_str (get row "customer_is_pep"))) "TRUE").
  set (c2 := str_eqb (field_lower row "customer_type") "domiciliary_company").
  set (c3 := str_eqb (field_upper row "edd_performed") "TRUE").
  set (c4 := str_eqb (field_upper row "edd_required") "TRUE").
  set (c5 := str_eqb (field_upper row "sow_documented") "FALSE").
  set (c6 := str_eqb (field_upper row "suitability_assessed") "FALSE").
  set (c7 := str_eqb (field_upper row "suitability_assessed") "TRUE").
  set (c8 := str_eqb (field_lower row "suitability_result") "mismatch").
  set (c9 := str_eqb (field_upper row "cash_id_verified") "FALSE").
  set (lo := str_eqb (field_lower row "client_risk_profile") "low").
  set (na := notna (get row "amount")).
  set (fa := py_float (get_d row "amount" (VInt 0))) in *.
  set (r1 := "Customer is a Politically Exposed Person (PEP)").
  set (r2 := "Domiciliary company without Enhanced Due Diligence (EDD)").
  set (r3 := "EDD required but not performed").
  set (r4 := "Source of Wealth (SOW) not documented").
  set (r6 := "Suitability not assessed").
  set (r7 := "Suitability assessment shows mismatch").
  set (r8 := "Cash ID not verified").
  clearbody c1 c2 c3 c4 c5 c6 c7 c8 c9 lo na fa r1 r2 r3 r4 r6 r7 r8.
  destruct na; [destruct fa as [a | e] |].
  - unfold mbind, res_bind. cbv beta iota.
    set (ab := lo && threshold_truthy self && above_threshold self a).
    set (r5 := _ +:+ fmt_amount a +:+ _). clearbody ab r5.
    destruct c1, c2, c3, c4, c5, ab, c6, c7, c8, c9; reflexivity.
  - set (r5 := _ +:+ _ +:+ _). clearbody r5.
    destruct Hc as [-> | ->];
      destruct c1, c2, c3, c4, c5, c6, c7, c8, c9; reflexivity.
  - set (r5 := _ +:+ _ +:+ _). clearbody r5.
    destruct c1, c2, c3, c4, c5, c6, c7, c8, c9; reflexivity.
Qed.

Lemma regulator_rule_block (reg : string) (dom edd sow : bool) (risk : string)
    (st : Z * list string) (m f h : string) :
  (if bool_decide (reg ∈ aml_rules) then
     if str_eqb reg "MAS" then
       if dom then if negb edd then tally st m else st else st
     else if str_eqb reg "FINMA" then
       if bool_decide (risk ∈ ["high"; "medium"]) then
         if negb edd then tally st f else st
       else st
     else if str_eqb reg "HKMA/SFC" then
       if sow then tally st h else st
     else st
   else st)
  = ((st.1
      + Z_of_bool (str_eqb reg "MAS" && dom && negb edd)
      + Z_of_bool (str_eqb reg "FINMA" && bool_decide (risk ∈ ["high"; "medium"])
                   && negb edd)
      + Z_of_bool (str_eqb reg "HKMA/SFC" && sow))%Z,
     (st.2
      ++ say (str_eqb reg "MAS" && dom && negb edd) m
      ++ say (str_eqb reg "FINMA" && bool_decide (risk ∈ ["high"; "medium"])
              && negb edd) f
      ++ say (str_eqb reg "HKMA/SFC" && sow) h)%list).
Proof.
  destruct st as [n l]. unfold str_eqb.
  destruct (decide (reg = "MAS")) as [-> | Hm].
  { destruct dom, edd; cbn; rewrite ?app_nil_r, ?Z.add_0_r; reflexivity. }
  destruct (decide (reg = "FINMA")) as [-> | Hf].
  { destruct (bool_decide (risk ∈ ["high"; "medium"])), edd; cbn;
      rewrite ?app_nil_r, ?Z.add_0_r; reflexivity. }
  destruct (decide (reg = "HKMA/SFC")) as [-> | Hh].
  { destruct sow; cbn; rewrite ?app_nil_r, ?Z.add_0_r; reflexivity. }
  rewrite (bool_decide_eq_false_2 _ Hm), (bool_decide_eq_false_2 _ Hf), (bool_decide_eq_false_2 _ Hh).
  cbn. rewrite ?app_nil_r, ?Z.add_0_r.
  destruct (bool_decide (reg ∈ aml_rules)); reflexivity.
Qed.

Lemma check_suspicious_detection_variables_rules (self : AMLDetectionAgent) (row : Row) :
  check_suspicious_detection_variables self row
  = Ok (suspicious_count self row, suspicious_reasons self row).
Proof.
  unfold check_suspicious_detection_variables.
  cbv zeta. rewrite regulator_rule_block.
  unfold suspicious_count, suspicious_reasons, low_profile_high_amount, amount_text,
    amount_of, sd_mas, sd_finma, sd_hkma, sd_domiciliary, sd_risk_rating, sd_sanctions,
    regulator_of.
  pose proof (py_float_caught (get_d row "amount" (VInt 0))) as Hc.
  set (m := str_eqb (strip _) "MAS" && _ && _).
  set (f := str_eqb (strip _) "FINMA" && _ && _).
  set (h := str_eqb (strip _) "HKMA/SFC" && _).
  set (c2 := str_eqb (field_lower row "customer_type") "domiciliary_company").
  set (c4 := bool_decide (field_lower row "customer_risk_rating" ∈ ["medium"; "high"])).
  set (c5 := str_eqb (field_lower row "sanctions_screening") "potential").
  set (lo := str_eqb (field_lower row "client_risk_profile") "low").
  set (na := notna (get row "amount")).
  set (tt := threshold_truthy self).
  set (fa := py_float (get_d row "amount" (VInt 0))) in *.
  set (r1 := "MAS: Domiciliary company without EDD (AML violation)").
  set (r2 := "FINMA: High/Medium risk customer without EDD (AML violation)").
  set (r3 := "HKMA/SFC: Missing SOW documentation (AML violation)").
  set (r5 := "Customer type is domiciliary company").
  set (r6 := "Customer risk rating is " +:+ _).
  set (r7 := "Sanctions screening shows potential match").
  clearbody m f h c2 c4 c5 lo na tt fa r1 r2 r3 r5 r6 r7.
  destruct na; [destruct fa as [a | e] |]; cbn [andb].
  - destruct tt; unfold mbind, res_bind; cbv beta iota.
    + set (ab := above_threshold self a). set (r4 := _ +:+ fmt_amount a +:+ _).
      clearbody ab r4. rewrite !andb_true_r.
      destruct m, f, h, lo, ab, c2, c4, c5; reflexivity.
    + set (r4 := _ +:+ fmt_amount a +:+ _). clearbody r4.
      rewrite !andb_false_r.
      destruct m, f, h, lo, c2, c4, c5; reflexivity.
  - set (r4 := _ +:+ _ +:+ _). clearbody r4.
    destruct Hc as [-> | ->]; destruct tt, m, f, h, c2, c4, c5; reflexivity.
  - set (r4 := _ +:+ _ +:+ _). clearbody r4.
    destruct m, f, h, c2, c4, c5; reflexivity.
Qed.

End Rules.

(** ** Letter case *)

Lemma upper_lower_ascii (c : ascii) : upper_ascii (lower_ascii c) = upper_ascii c.
Proof. destruct c as [[] [] [] [] [] [] [] []]; reflexivity. Qed.

Lemma lower_upper_ascii (c : ascii) : lower_ascii (upper_ascii c) = lower_ascii c.
Proof. destruct c as [[] [] [] [] [] [] [] []]; reflexivity. Qed.

Lemma upper_lower (s : string) : upper (lower s) = upper s.
Proof.
  induction s as [| c s IH]; [reflexivity |].
  unfold upper, lower in *. simpl. rewrite upper_lower_ascii. f_equal. exact IH.
Qed.

Lemma lower_upper (s : string) : lower (upper s) = lower s.
Proof.
  induction s as [| c s IH]; [reflexivity |].
  unfold upper, lower in *. simpl. rewrite lower_upper_ascii. f_equal. exact IH.
Qed.

(** Comparing the upper-cased text with an upper-case word is comparing
    the lower-cased text with the lower-case word. *)
Lemma upper_eq_iff_lower_eq (s w : string) :
  upper s = upper w <-> lower s = lower w.
Proof.
  split; intros E.
  - rewrite <- (lower_upper s), E. apply lower_upper.
  - rewrite <- (upper_lower s), E. apply upper_lower.
Qed.

Lemma str_eqb_true (a b : string) : str_eqb a b = true <-> a = b.
Proof. unfold str_eqb. apply bool_decide_eq_true. Qed.

Lemma str_eqb_false (a b : string) : str_eqb a b = false <-> a <> b.
Proof. unfold str_eqb. apply bool_decide_eq_false. Qed.

Lemma upper_is_TRUE (s : string) : str_eqb (upper s) "TRUE" = true <-> lower s = "true".
Proof. rewrite str_eqb_true. apply (upper_eq_iff_lower_eq s "true"). Qed.

Lemma upper_is_FALSE (s : string) : str_eqb (upper s) "FALSE" = true <-> lower s = "false".
Proof. rewrite str_eqb_true. apply (upper_eq_iff_lower_eq s "false"). Qed.

(** ** The classification table *)

Lemma classify_risk_high (n : Z) : classify_risk true n = "HIGH PRIORITY RISK".
Proof. reflexivity. Qed.

Lemma classify_risk_table (n : Z) :
  (0 <= n)%Z ->
  classify_risk false n
  = if (n <=? 1)%Z then ""
    else if (n =? 2)%Z then "LOW RISK"
    else if (n <=? 4)%Z then "MEDIUM RISK"
    else "HIGH PRIORITY RISK".
Proof.
  intros Hn. unfold classify_risk.
  destruct (Z.eqb_spec n 0) as [-> | H0]; [reflexivity |].
  destruct (Z.eqb_spec n 1) as [-> | H1]; [reflexivity |].
  destruct (Z.eqb_spec n 2) as [-> | H2]; [reflexivity |].
  destruct (Z.leb_spec n 1); [lia |].
  destruct (Z.leb_spec 3 n); [| lia].
  destruct (Z.leb_spec n 4); [reflexivity |].
  destruct (Z.leb_spec 5 n); [reflexivity | lia].
Qed.

Section Evaluator.

Context `{Lib : PyLib}.

Lemma Z_of_bool_range (b : bool) : (0 <= Z_of_bool b <= 1)%Z.
Proof. destruct b; simpl; lia. Qed.

Lemma suspicious_count_nonneg (self : AMLDetectionAgent) (row : Row) :
  (0 <= suspicious_count self row)%Z.
Proof.
  unfold suspicious_count.
  pose proof (Z_of_bool_range (sd_mas row)).
  pose proof (Z_of_bool_range (sd_finma row)).
  pose proof (Z_of_bool_range (sd_hkma row)).
  pose proof (Z_of_bool_range (low_profile_high_amount self row)).
  pose proof (Z_of_bool_range (sd_domiciliary row)).
  pose proof (Z_of_bool_range (sd_risk_rating row)).
  pose proof (Z_of_bool_range (sd_sanctions row)).
  lia.
Qed.

(** The evaluator returns a result for every row: what the loop body of
    [process_dataframe] computes, in closed form. *)
Lemma score_row_rules (self : AMLDetectionAgent) (row : Row) :
  score_row self row
  = Ok {| transaction_id := get_d row "transaction_id" (VStr "");
          is_suspicious :=
            if str_truthy (classify_risk (any_high_risk self row) (suspicious_count self row))
            then 1 else 0;
          risk_category :=
            classify_risk (any_high_risk self row) (suspicious_count self row);
          suspicious_detection_count := suspicious_count self row;
          high_risk_detected := if any_high_risk self row then 1 else 0;
          reasons :=
            match (high_risk_reasons self row ++ suspicious_reasons self row)%list with
            | [] => "No suspicious indicators"
            | _ => join "; " (high_risk_reasons self row ++ suspicious_reasons self row)
            end |}.
Proof.
  unfold score_row.
  rewrite check_high_risk_variables_rules, check_suspicious_detection_variables_rules.
  reflexivity.
Qed.

(** With no high-risk rule matching, at most three suspicious indicators
    can match: the MAS and the Hong Kong variant of the regulator rule need
    what a high-risk rule needs, and a domiciliary company must have had
    its due diligence, which rules the FINMA variant out. *)
Lemma quiet_row_count (self : AMLDetectionAgent) (row : Row) :
  any_high_risk self row = false -> (suspicious_count self row <= 3)%Z.
Proof.
  unfold any_high_risk, suspicious_count, hr_domiciliary_no_edd, hr_no_sow, sd_mas,
    sd_finma, sd_hkma, sd_domiciliary.
  set (d := str_eqb (field_lower row "customer_type") "domiciliary_company").
  set (e := str_eqb (field_upper row "edd_performed") "TRUE").
  set (s := str_eqb (field_upper row "sow_documented") "FALSE").
  clearbody d e s.
  destruct (hr_pep row), (hr_edd_gap row), (low_profile_high_amount self row),
    (hr_not_assessed row), (hr_mismatch row), (hr_cash_id row), d, e, s;
    cbn [orb andb negb]; try discriminate; intros _;
    destruct (str_eqb (regulator_of row) "MAS"), (str_eqb (regulator_of row) "FINMA"),
      (str_eqb (regulator_of row) "HKMA/SFC"), (bool_decide _), (sd_risk_rating row),
      (sd_sanctions row); cbn [andb negb Z_of_bool]; lia.
Qed.

(** C1. When no high-risk rule fired, the category follows the count of
    suspicious indicators: 0 or 1 gives no category, 2 gives LOW RISK, 3 or
    4 gives MEDIUM RISK, 5 or more gives HIGH PRIORITY RISK; and the row
    is suspicious exactly when it has a category. The table is that of
    [classify_risk], stated for every count; a row on which no high-risk
    rule fired has a count of three at most. *)
Theorem classification_by_count (self : AMLDetectionAgent) (row : Row)
    (reasons : list string) :
  check_high_risk_variables self row = Ok (false, reasons) ->
  (exists r indicators,
     score_row self row = Ok r
     /\ check_suspicious_detection_variables self row
        = Ok (suspicious_detection_count r, indicators)
     /\ high_risk_detected r = 0%Z
     /\ (0 <= suspicious_detection_count r <= 3)%Z
     /\ risk_category r = classify_risk false (suspicious_detection_count r)
     /\ (suspicious_detection_count r = 0%Z \/ suspicious_detection_count r = 1%Z ->
         risk_category r = "")
     /\ (suspicious_detection_count r = 2%Z -> risk_category r = "LOW RISK")
     /\ (suspicious_detection_count r = 3%Z \/ suspicious_detection_count r = 4%Z ->
         risk_category r = "MEDIUM RISK")
     /\ ((5 <= suspicious_detection_count r)%Z -> risk_category r = "HIGH PRIORITY RISK")
     /\ (is_suspicious r = 1%Z <-> risk_category r <> "")
     /\ (is_suspicious r = 0%Z <-> risk_category r = ""))
  /\ (forall n : Z,
        (n = 0%Z \/ n = 1%Z -> classify_risk false n = "")
        /\ (n = 2%Z -> classify_risk false n = "LOW RISK")
        /\ (n = 3%Z \/ n = 4%Z -> classify_risk false n = "MEDIUM RISK")
        /\ ((5 <= n)%Z -> classify_risk false n = "HIGH PRIORITY RISK")
        /\ ((n < 0)%Z -> classify_risk false n = ""))
  /\ (forall n : Z, classify_risk true n = "HIGH PRIORITY RISK").
Proof.
  intros Hhr.
  rewrite check_high_risk_variables_rules in Hhr.
  injection Hhr as Hany _.
  split; [| split].
  - eexists; exists (suspicious_reasons self row).
    split; [apply score_row_rules |].
    split; [apply check_suspicious_detection_variables_rules |].
    cbn [high_risk_detected suspicious_detection_count risk_category is_suspicious].
    rewrite Hany.
    pose proof (suspicious_count_nonneg self row) as Hn.
    pose proof (quiet_row_count self row Hany) as H3.
    split; [reflexivity |]. split; [lia |]. split; [reflexivity |].
    rewrite (classify_risk_table _ Hn).
    set (n := suspicious_count self row) in *. clearbody n.
    repeat split; try intros [-> | ->]; try intros ->; try reflexivity.
    all: repeat match goal with
           | |- context [(?a <=? ?b)%Z] => destruct (Z.leb_spec a b)
           | |- context [(?a =? ?b)%Z] => destruct (Z.eqb_spec a b)
           end; cbn; try lia; try congruence; try (intros; discriminate).
  - intros n.
    repeat split; try intros [-> | ->]; try intros ->; try reflexivity;
      intros Hn; unfold classify_risk;
      repeat match goal with
        | |- context [(?a <=? ?b)%Z] => destruct (Z.leb_spec a b)
        | |- context [(?a =? ?b)%Z] => destruct (Z.eqb_spec a b)
        end; cbn; try lia; reflexivity.
  - reflexivity.
Qed.

(** C2. A customer flagged as politically exposed is high risk and gets
    HIGH PRIORITY RISK, whatever else the row holds. *)
Theorem pep_is_high_priority (self : AMLDetectionAgent) (row : Row) (v : pyval) :
  row !! "customer_is_pep" = Some v ->
  says_true v ->
  exists r reasons,
    score_row self row = Ok r
    /\ check_high_risk_variables self row
       = Ok (true, "Customer is a Politically Exposed Person (PEP)" :: reasons)
    /\ high_risk_detected r = 1%Z
    /\ risk_category r = "HIGH PRIORITY RISK"
    /\ is_suspicious r = 1%Z.
Proof.
  intros Hv Htrue.
  assert (Hpep : hr_pep row = true).
  { unfold hr_pep, get. rewrite Hv. cbn [default].
    destruct Htrue as [-> | (s & -> & Hs)]; [reflexivity |].
    cbn [notna py_str andb]. apply upper_is_TRUE, Hs. }
  assert (Hany : any_high_risk self row = true).
  { unfold any_high_risk. rewrite Hpep. reflexivity. }
  eexists; eexists.
  split; [apply score_row_rules |].
  split.
  { rewrite check_high_risk_variables_rules, Hany.
    unfold high_risk_reasons. rewrite Hpep. reflexivity. }
  cbn [high_risk_detected risk_category is_suspicious].
  rewrite Hany. repeat split; reflexivity.
Qed.

(** *** Missing and malformed fields *)

Lemma missing_get (row : Row) (k : string) :
  missing row k -> notna (get row k) = false.
Proof. unfold get. intros [-> | [-> | ->]]; reflexivity. Qed.

Lemma missing_upper (row : Row) (k : string) :
  missing row k ->
  field_upper row k = "" \/ field_upper row k = "NONE" \/ field_upper row k = "NAN".
Proof.
  unfold field_upper, get_d. intros [-> | [-> | ->]]; cbn; auto.
Qed.

Lemma missing_lower (row : Row) (k : string) :
  missing row k ->
  field_lower row k = "" \/ field_lower row k = "none" \/ field_lower row k = "nan".
Proof.
  unfold field_lower, get_d. intros [-> | [-> | ->]]; cbn; auto.
Qed.

Lemma missing_regulator (row : Row) :
  missing row "regulator" ->
  regulator_of row = "" \/ regulator_of row = "None" \/ regulator_of row = "nan".
Proof.
  unfold regulator_of, get_d. intros [-> | [-> | ->]]; cbn; auto.
Qed.

Lemma malformed_amount_only (row : Row) (k : string) :
  k ∉ flag_fields -> k <> "amount" -> malformed row k -> False.
Proof.
  intros Hf Ha [[Hin _] | [-> _]]; [exact (Hf Hin) | exact (Ha eq_refl)].
Qed.

(** An unusable flag reads neither as TRUE nor as FALSE. *)
Lemma unusable_flag (row : Row) (k : string) :
  k ∈ flag_fields -> unusable row k ->
  str_eqb (field_upper row k) "TRUE" = false
  /\ str_eqb (field_upper row k) "FALSE" = false.
Proof.
  intros Hk [Hm | [(_ & v & Hv & _ & Ht & Hf) | (-> & _)]].
  - destruct (missing_upper row k Hm) as [-> | [-> | ->]]; split; reflexivity.
  - unfold field_upper, get_d. rewrite Hv. simpl.
    split; apply str_eqb_false; intros E.
    + apply Ht. apply upper_is_TRUE. apply str_eqb_true. exact E.
    + apply Hf. apply upper_is_FALSE. apply str_eqb_true. exact E.
  - exfalso. revert Hk. vm_compute. intros Hk.
    repeat (apply elem_of_cons in Hk as [Hk | Hk]; [discriminate Hk |]).
    apply elem_of_nil in Hk. exact Hk.
Qed.

(** A missing field does not read as any non-empty word other than the
    texts of the nulls. *)
Lemma missing_word (row : Row) (k w : string) :
  w <> "" -> w <> "none" -> w <> "nan" ->
  missing row k -> str_eqb (field_lower row k) w = false.
Proof.
  intros H1 H2 H3 Hm. apply str_eqb_false.
  destruct (missing_lower row k Hm) as [-> | [-> | ->]]; congruence.
Qed.

Lemma unusable_amount (self : AMLDetectionAgent) (row : Row) :
  unusable row "amount" -> low_profile_high_amount self row = false.
Proof.
  unfold low_profile_high_amount, amount_of.
  intros [Hm | [(Hin & _) | (_ & v & e & Hv & He)]].
  - rewrite (missing_get _ _ Hm). reflexivity.
  - exfalso. revert Hin. vm_compute. intros Hk.
    repeat (apply elem_of_cons in Hk as [Hk | Hk]; [discriminate Hk |]).
    apply elem_of_nil in Hk. exact Hk.
  - unfold get_d. rewrite Hv. simpl. rewrite He.
    destruct (notna (get row "amount")); reflexivity.
Qed.

Lemma missing_profile (self : AMLDetectionAgent) (row : Row) :
  missing row "client_risk_profile" -> low_profile_high_amount self row = false.
Proof.
  intros Hm. unfold low_profile_high_amount.
  destruct (amount_of row); [| reflexivity].
  rewrite (missing_word row "client_risk_profile" "low") by (congruence || exact Hm).
  reflexivity.
Qed.

(** A field that holds neither a flag nor the amount can only be
    unusable by being missing. *)
Lemma unusable_word (row : Row) (k : string) :
  bool_decide (k ∈ flag_fields) = false -> k <> "amount" ->
  unusable row k -> missing row k.
Proof.
  intros Hf Ha [Hm | Hmal]; [exact Hm |].
  exfalso. apply (malformed_amount_only row k); [| exact Ha | exact Hmal].
  apply (proj1 (bool_decide_eq_false _)). exact Hf.
Qed.

Lemma unusable_regulator (row : Row) (w : string) :
  w <> "" -> w <> "None" -> w <> "nan" ->
  unusable row "regulator" -> str_eqb (regulator_of row) w = false.
Proof.
  intros H1 H2 H3 Hu. apply str_eqb_false.
  apply unusable_word in Hu; [| reflexivity | discriminate].
  destruct (missing_regulator row Hu) as [-> | [-> | ->]]; congruence.
Qed.

Lemma unusable_lower (row : Row) (k w : string) :
  bool_decide (k ∈ flag_fields) = false -> k <> "amount" ->
  w <> "" -> w <> "none" -> w <> "nan" ->
  unusable row k -> str_eqb (field_lower row k) w = false.
Proof.
  intros Hf Ha H1 H2 H3 Hu. apply missing_word; try assumption.
  apply unusable_word; assumption.
Qed.

Lemma unusable_rating (row : Row) (l : list string) :
  bool_decide ("" ∈ l) = false -> bool_decide ("none" ∈ l) = false ->
  bool_decide ("nan" ∈ l) = false ->
  unusable row "customer_risk_rating" ->
  bool_decide (field_lower row "customer_risk_rating" ∈ l) = false.
Proof.
  intros H1 H2 H3 Hu.
  apply unusable_word in Hu; [| reflexivity | discriminate].
  destruct (missing_lower row _ Hu) as [-> | [-> | ->]]; assumption.
Qed.

Lemma unusable_pep (row : Row) :
  unusable row "customer_is_pep" -> hr_pep row = false.
Proof.
  intros Hu. unfold hr_pep.
  destruct Hu as [Hm | [(_ & v & Hv & _ & Ht & _) | (E & _)]]; [| | discriminate E].
  - rewrite (missing_get _ _ Hm). reflexivity.
  - unfold get. rewrite Hv. simpl.
    apply andb_false_intro2. apply str_eqb_false. intros E.
    apply Ht. apply upper_is_TRUE. apply str_eqb_true. exact E.
Qed.

(** C3. The evaluator returns a result for every row and raises nothing.
    A field that is missing or malformed keeps every rule that reads it
    from matching, with one exception: [edd_performed], whose absence is
    read as "due diligence not performed", so that the four rules about a
    due diligence gap (domiciliary company without due diligence, due
    diligence required but not performed, and the MAS and FINMA variants
    of the regulator rule) then depend on their other fields alone. A
    malformed flag is one of plain ASCII text. *)
Theorem evaluator_total_unusable_fields (self : AMLDetectionAgent) (row : Row) :
  (exists r, score_row self row = Ok r)
  /\ check_high_risk_variables self row
     = Ok (any_high_risk self row, high_risk_reasons self row)
  /\ check_suspicious_detection_variables self row
     = Ok (suspicious_count self row, suspicious_reasons self row)
  /\ (forall r k,
        k ∈ reads r -> k <> "edd_performed" -> unusable row k ->
        matches self row r = false)
  /\ (unusable row "edd_performed" ->
      hr_domiciliary_no_edd row = sd_domiciliary row
      /\ hr_edd_gap row = str_eqb (field_upper row "edd_required") "TRUE"
      /\ sd_mas row = str_eqb (regulator_of row) "MAS" && sd_domiciliary row
      /\ sd_finma row
         = str_eqb (regulator_of row) "FINMA"
           && bool_decide (field_lower row "customer_risk_rating" ∈ ["high"; "medium"])).
Proof.
  split; [eexists; apply score_row_rules |].
  split; [apply check_high_risk_variables_rules |].
  split; [apply check_suspicious_detection_variables_rules |].
  split.
  - intros r k Hk Hne Hu.
    destruct r; cbn [reads] in Hk;
      repeat (apply elem_of_cons in Hk as [-> | Hk]);
      try (apply elem_of_nil in Hk; contradiction);
      try (exfalso; apply Hne; reflexivity);
      cbn [matches];
      try (apply unusable_amount; exact Hu);
      try (apply missing_profile; apply unusable_word;
           [reflexivity | discriminate | exact Hu]).
    + apply unusable_pep, Hu.
    + unfold hr_domiciliary_no_edd.
      rewrite unusable_lower by (reflexivity || discriminate || exact Hu). reflexivity.
    + unfold hr_edd_gap.
      destruct (unusable_flag row "edd_required") as [-> _];
        [apply (bool_decide_unpack _); exact I | exact Hu | reflexivity].
    + unfold hr_no_sow.
      destruct (unusable_flag row "sow_documented") as [_ ->];
        [apply (bool_decide_unpack _); exact I | exact Hu | reflexivity].
    + unfold hr_not_assessed.
      destruct (unusable_flag row "suitability_assessed") as [_ ->];
        [apply (bool_decide_unpack _); exact I | exact Hu | reflexivity].
    + unfold hr_mismatch.
      destruct (unusable_flag row "suitability_assessed") as [-> _];
        [apply (bool_decide_unpack _); exact I | exact Hu | reflexivity].
    + unfold hr_mismatch.
      rewrite (unusable_lower row "suitability_result")
        by (reflexivity || discriminate || exact Hu).
      apply andb_false_r.
    + unfold hr_cash_id.
      destruct (unusable_flag row "cash_id_verified") as [_ ->];
        [apply (bool_decide_unpack _); exact I | exact Hu | reflexivity].
    + unfold sd_mas.
      rewrite unusable_regulator by (discriminate || exact Hu). reflexivity.
    + unfold sd_mas.
      rewrite (unusable_lower row "customer_type")
        by (reflexivity || discriminate || exact Hu).
      rewrite andb_false_r. reflexivity.
    + unfold sd_finma.
      rewrite unusable_regulator by (discriminate || exact Hu). reflexivity.
    + unfold sd_finma.
      rewrite unusable_rating by (reflexivity || exact Hu).
      rewrite andb_false_r. reflexivity.
    + unfold sd_hkma.
      rewrite unusable_regulator by (discriminate || exact Hu). reflexivity.
    + unfold sd_hkma.
      destruct (unusable_flag row "sow_documented") as [_ ->];
        [apply (bool_decide_unpack _); exact I | exact Hu | apply andb_false_r].
    + unfold sd_domiciliary.
      apply unusable_lower; (reflexivity || discriminate || exact Hu).
    + unfold sd_risk_rating.
      apply unusable_rating; (reflexivity || exact Hu).
    + unfold sd_sanctions.
      apply unusable_lower; (reflexivity || discriminate || exact Hu).
  - intros Hu.
    destruct (unusable_flag row "edd_performed") as [E _];
      [apply (bool_decide_unpack _); exact I | exact Hu |].
    unfold hr_domiciliary_no_edd, hr_edd_gap, sd_mas, sd_finma, sd_domiciliary.
    rewrite E. cbn [negb]. rewrite !andb_true_r. repeat split; reflexivity.
Qed.

End Evaluator.

(** C1, on a row with two suspicious indicators and no high-risk rule. *)
Lemma classification_by_count_witness :
  check_high_risk_variables (Lib := whole_lib) default_agent row_two_indicators
  = Ok (false, [])
  /\ exists r indicators,
      score_row (Lib := whole_lib) default_agent row_two_indicators = Ok r
      /\ check_suspicious_detection_variables (Lib := whole_lib) default_agent
           row_two_indicators
         = Ok (suspicious_detection_count r, indicators)
      /\ high_risk_detected r = 0%Z
      /\ (0 <= suspicious_detection_count r <= 3)%Z
      /\ risk_category r = classify_risk false (suspicious_detection_count r).
Proof.
  split; [reflexivity |].
  destruct (proj1 (classification_by_count (Lib := whole_lib) default_agent
                     row_two_indicators [] eq_refl))
    as (r & ind & H1 & H2 & H3 & H4 & H5 & _).
  exists r, ind. repeat split; assumption || apply H4.
Defined.

(** C2, on a row whose PEP flag is the text "True". *)
Lemma pep_is_high_priority_witness :
  row_pep !! "customer_is_pep" = Some (VStr "True")
  /\ says_true (VStr "True")
  /\ exists r reasons,
      score_row (Lib := whole_lib) default_agent row_pep = Ok r
      /\ check_high_risk_variables (Lib := whole_lib) default_agent row_pep
         = Ok (true, "Customer is a Politically Exposed Person (PEP)" :: reasons)
      /\ high_risk_detected r = 1%Z
      /\ risk_category r = "HIGH PRIORITY RISK"
      /\ is_suspicious r = 1%Z.
Proof.
  assert (H1 : row_pep !! "customer_is_pep" = Some (VStr "True")) by reflexivity.
  assert (H2 : says_true (VStr "True")).
  { right. exists "True". split; reflexivity. }
  split; [exact H1 |]. split; [exact H2 |].
  exact (pep_is_high_priority (Lib := whole_lib) default_agent row_pep _ H1 H2).
Defined.

(** C3 as stated fails on [edd_performed]: on a domiciliary company whose
    row has no such field, the rule that reads the field matches. *)
Lemma missing_edd_performed_matches :
  missing row_shell_company "edd_performed"
  /\ "edd_performed" ∈ reads HR_domiciliary_no_edd
  /\ matches (Lib := whole_lib) default_agent row_shell_company HR_domiciliary_no_edd
     = true
  /\ check_high_risk_variables (Lib := whole_lib) default_agent row_shell_company
     = Ok (true, ["Domiciliary company without Enhanced Due Diligence (EDD)"]).
Proof.
  split; [left; reflexivity |].
  split; [apply (bool_decide_unpack _); exact I |].
  split; reflexivity.
Qed.

(** ** The threshold calibrator *)

Section Calibrator.

Context `{Lib : PyLib}.

(** Coercing the column and dropping the nulls keeps exactly the cells
    that read as numbers. *)
Lemma dropna_coerce (col : list pyval) :
  dropna (map to_numeric_coerce col) = omap numeric_value col.
Proof.
  unfold dropna.
  induction col as [| v col IH]; [reflexivity |].
  cbn [map omap]. rewrite filter_cons, IH.
  destruct v as [| b | z | [| n | q] | s]; cbn; try reflexivity.
  destruct (pd_numeric_str s) as [[| n | q] |]; reflexivity.
Qed.

(** The calibrator in closed form: it never raises, and falls back to
    the default whenever the percentile cannot be taken. *)
Lemma calculate_high_amount_threshold_spec (self : AMLDetectionAgent) (df : DataFrame) :
  calculate_high_amount_threshold self df
  = set_threshold self
      match numeric_amounts df with
      | [] => default_threshold
      | a =>
          match np_percentile a (high_amount_threshold_percentile self) with
          | Ok t => t
          | Raise _ => default_threshold
          end
      end.
Proof.
  unfold calculate_high_amount_threshold, numeric_amounts, amount_cells, column.
  destruct (bool_decide ("amount" ∈ columns df)); [| reflexivity].
  cbn [mbind res_bind]. rewrite dropna_coerce.
  destruct (omap numeric_value _) as [| x a]; [reflexivity |].
  cbn [length Nat.ltb Nat.leb].
  destruct (np_percentile (x :: a) (high_amount_threshold_percentile self));
    reflexivity.
Qed.

Lemma calculate_high_amount_threshold_percentile (self : AMLDetectionAgent)
    (df : DataFrame) (t : pyfloat) :
  numeric_amounts df <> [] ->
  np_percentile (numeric_amounts df) (high_amount_threshold_percentile self) = Ok t ->
  calculate_high_amount_threshold self df = set_threshold self t.
Proof.
  intros Hne Ht. rewrite calculate_high_amount_threshold_spec.
  destruct (numeric_amounts df); [congruence |]. rewrite Ht. reflexivity.
Qed.

Lemma np_percentile_in_range (a : list pyfloat) (p : Q) :
  (0 <= p)%Q -> (p <= 100)%Q -> exists t, np_percentile a p = Ok t.
Proof.
  intros H0 H1. unfold np_percentile.
  apply Qle_bool_iff in H0, H1. rewrite H0, H1. cbn [andb].
  destruct (all_finite a); eexists; reflexivity.
Qed.

Lemma score_rows_total (self : AMLDetectionAgent) (rs : list Row) :
  exists results,
    score_rows self rs = Ok results
    /\ Forall2 (fun row r => score_row self row = Ok r) rs results.
Proof.
  induction rs as [| row rs (results & E & F)].
  - exists []. split; [reflexivity | constructor].
  - eexists (_ :: results). cbn [score_rows].
    rewrite score_row_rules, E. cbn [mbind res_bind mret res_ret].
    split; [reflexivity |].
    constructor; [apply score_row_rules | exact F].
Qed.

(** C4. The calibrated threshold is the P-th percentile of the amounts
    that read as numbers, or 1,000,000 when there is none; it is set once,
    before the rows are scored, and every row of the pass is scored by the
    agent that holds that one threshold. *)
Theorem threshold_calibration (self : AMLDetectionAgent) (df : DataFrame) :
  (0 <= high_amount_threshold_percentile self)%Q ->
  (high_amount_threshold_percentile self <= 100)%Q ->
  let self' := calculate_high_amount_threshold self df in
  (numeric_amounts df = [] -> high_amount_threshold self' = Some (Ffin 1000000))
  /\ (numeric_amounts df <> [] ->
      exists t,
        np_percentile (numeric_amounts df) (high_amount_threshold_percentile self) = Ok t
        /\ high_amount_threshold self' = Some t)
  /\ high_amount_threshold_percentile self' = high_amount_threshold_percentile self
  /\ exists results,
       process_dataframe self df = Ok (self', results)
       /\ Forall2 (fun row r => score_row self' row = Ok r) (rows df) results.
Proof.
  intros H0 H1 self'. subst self'.
  rewrite calculate_high_amount_threshold_spec.
  split; [intros ->; reflexivity |].
  split.
  { intros Hne.
    destruct (np_percentile_in_range (numeric_amounts df) _ H0 H1) as [t Ht].
    exists t. split; [exact Ht |].
    destruct (numeric_amounts df); [congruence |]. rewrite Ht. reflexivity. }
  split; [reflexivity |].
  unfold process_dataframe. rewrite calculate_high_amount_threshold_spec.
  destruct (score_rows_total
              (set_threshold self
                 match numeric_amounts df with
                 | [] => default_threshold
                 | a =>
                     match np_percentile a (high_amount_threshold_percentile self) with
                     | Ok t => t
                     | Raise _ => default_threshold
                     end
                 end) (rows df)) as (results & E & F).
  exists results. rewrite E. split; [reflexivity | exact F].
Qed.

End Calibrator.

(** C4, on the batch of six with the default percentile. *)
Lemma threshold_calibration_witness :
  (0 <= high_amount_threshold_percentile default_agent)%Q
  /\ (high_amount_threshold_percentile default_agent <= 100)%Q
  /\ (exists t,
        high_amount_threshold
          (calculate_high_amount_threshold (Lib := whole_lib) default_agent batch_of_six)
        = Some (Ffin t)
        /\ (t == 4575)%Q)
  /\ exists results,
       process_dataframe (Lib := whole_lib) default_agent batch_of_six
       = Ok (calculate_high_amount_threshold (Lib := whole_lib) default_agent
               batch_of_six, results)
       /\ Forall2
            (fun row r =>
               score_row (Lib := whole_lib)
                 (calculate_high_amount_threshold (Lib := whole_lib) default_agent
                    batch_of_six) row = Ok r)
            (rows batch_of_six) results.
Proof.
  assert (H0 : (0 <= high_amount_threshold_percentile default_agent)%Q)
    by (vm_compute; discriminate).
  assert (H1 : (high_amount_threshold_percentile default_agent <= 100)%Q)
    by (vm_compute; discriminate).
  split; [exact H0 |]. split; [exact H1 |].
  split; [eexists; split; vm_compute; reflexivity |].
  exact (proj2 (proj2 (proj2
    (threshold_calibration (Lib := whole_lib) default_agent batch_of_six H0 H1)))).
Defined.

(** ** Sorting and the percentile of six values *)

Lemma insert_sorted_perm (x : Q) (l : list Q) : insert_sorted x l ≡ₚ x :: l.
Proof.
  induction l as [| y l IH]; [reflexivity |].
  cbn [insert_sorted]. destruct (Qle_bool x y); [reflexivity |].
  rewrite IH. apply perm_swap.
Qed.

Lemma sort_Q_perm (l : list Q) : sort_Q l ≡ₚ l.
Proof.
  induction l as [| x l IH]; [reflexivity |].
  unfold sort_Q in *. cbn [foldr]. rewrite insert_sorted_perm, IH. reflexivity.
Qed.

Lemma insert_sorted_sorted (x : Q) (l : list Q) :
  StronglySorted Qle l -> StronglySorted Qle (insert_sorted x l).
Proof.
  induction l as [| y l IH]; intros Hs; cbn [insert_sorted].
  - repeat constructor.
  - apply StronglySorted_inv in Hs as [Hl Hy].
    destruct (Qle_bool x y) eqn:E.
    + apply Qle_bool_iff in E. constructor; [constructor; assumption |].
      constructor; [exact E |].
      eapply Forall_impl; [exact Hy |].
      intros z Hz. cbn. eapply Qle_trans; eassumption.
    + assert (Hyx : (y <= x)%Q).
      { apply Qlt_le_weak, Qnot_le_lt. intros H. apply Qle_bool_iff in H. congruence. }
      constructor; [apply IH, Hl |].
      rewrite insert_sorted_perm. constructor; assumption.
Qed.

Lemma sort_Q_sorted (l : list Q) : StronglySorted Qle (sort_Q l).
Proof.
  induction l as [| x l IH]; [constructor |].
  unfold sort_Q in *. cbn [foldr]. apply insert_sorted_sorted, IH.
Qed.

(** Among six values of which one lies strictly above the five others,
    none of them negative, the 95th percentile lies strictly between the
    five and the one, and is positive. *)
Lemma percentile_of_six (x : Q) (others l : list Q) :
  l ≡ₚ x :: others ->
  length others = 5%nat ->
  Forall (fun o => (0 <= o)%Q /\ (o < x)%Q) others ->
  (0 < linear_percentile l 95)%Q
  /\ (linear_percentile l 95 < x)%Q
  /\ Forall (fun o => (o < linear_percentile l 95)%Q) others.
Proof.
  intros Hp Hlen Ho.
  unfold linear_percentile.
  pose proof (sort_Q_sorted l) as Hs.
  assert (Hps : sort_Q l ≡ₚ x :: others) by (rewrite sort_Q_perm; exact Hp).
  assert (Hl : length (sort_Q l) = 6%nat).
  { rewrite Hps. cbn [length]. rewrite Hlen. reflexivity. }
  destruct (sort_Q l) as [| s0 [| s1 [| s2 [| s3 [| s4 [| s5 [| ? ?]]]]]]];
    try discriminate Hl.
  clear Hl. cbv zeta. cbn [length].
  change (Z.to_nat (Qfloor ((inject_Z (Z.of_nat 6) - 1) * 95 / 100))) with 4%nat.
  cbn [nth Nat.min Nat.add Nat.sub].
  set (g := ((inject_Z (Z.of_nat 6) - 1) * 95 / 100
             - inject_Z (Qfloor ((inject_Z (Z.of_nat 6) - 1) * 95 / 100)))%Q).
  assert (Hg : (g == 3 # 4)%Q) by reflexivity.
  clearbody g.
  (* the order of the sorted values *)
  apply StronglySorted_inv in Hs as [Hs H0].
  apply StronglySorted_inv in Hs as [Hs H1].
  apply StronglySorted_inv in Hs as [Hs H2].
  apply StronglySorted_inv in Hs as [Hs H3].
  apply StronglySorted_inv in Hs as [_ H4].
  assert (H05 : (s0 <= s4)%Q /\ (s0 <= s5)%Q).
  { rewrite !Forall_cons in H0. tauto. }
  assert (H15 : (s1 <= s4)%Q /\ (s1 <= s5)%Q).
  { rewrite !Forall_cons in H1. tauto. }
  assert (H25 : (s2 <= s4)%Q /\ (s2 <= s5)%Q).
  { rewrite !Forall_cons in H2. tauto. }
  assert (H35 : (s3 <= s4)%Q /\ (s3 <= s5)%Q).
  { rewrite !Forall_cons in H3. tauto. }
  assert (H45 : (s4 <= s5)%Q).
  { rewrite !Forall_cons in H4. tauto. }
  clear H0 H1 H2 H3 H4.
  rewrite Forall_forall in Ho.
  (* the greatest value is the outlier *)
  assert (Hin : forall z, z ∈ [s0; s1; s2; s3; s4; s5] -> (z <= s5)%Q).
  { intros z Hz. rewrite !elem_of_cons, elem_of_nil in Hz.
    destruct Hz as [-> | [-> | [-> | [-> | [-> | [-> | []]]]]]];
      try tauto; apply Qle_refl. }
  assert (Hx5 : s5 = x).
  { assert (H5 : s5 ∈ x :: others).
    { rewrite <- Hps. rewrite !elem_of_cons. tauto. }
    apply elem_of_cons in H5 as [E | H5]; [exact E |].
    exfalso. destruct (Ho _ H5) as [_ Hlt].
    assert (Hx : x ∈ [s0; s1; s2; s3; s4; s5]).
    { rewrite Hps. apply elem_of_cons. left. reflexivity. }
    apply Hin in Hx. lra. }
  subst s5.
  (* the five others are the five smallest *)
  assert (Hrest : [s0; s1; s2; s3; s4] ≡ₚ others).
  { apply (Permutation_cons_inv (a := x)).
    rewrite <- Hps.
    change [s0; s1; s2; s3; s4; x] with ([s0; s1; s2; s3; s4] ++ [x])%list.
    rewrite <- Permutation_cons_append. reflexivity. }
  assert (H4o : (0 <= s4)%Q /\ (s4 < x)%Q).
  { apply Ho. rewrite <- Hrest. rewrite !elem_of_cons. tauto. }
  assert (Hle : forall o, o ∈ others -> (o <= s4)%Q).
  { intros o Hoin. rewrite <- Hrest in Hoin.
    rewrite !elem_of_cons, elem_of_nil in Hoin.
    destruct Hoin as [-> | [-> | [-> | [-> | [-> | []]]]]];
      try tauto; apply Qle_refl. }
  destruct H4o as [H40 H4x].
  assert (Hlo : (s4 < s4 + g * (x - s4))%Q).
  { rewrite Hg. lra. }
  assert (Hhi : (s4 + g * (x - s4) < x)%Q).
  { rewrite Hg. lra. }
  split; [lra |]. split; [exact Hhi |].
  apply Forall_forall. intros o Hoin. specialize (Hle o Hoin). lra.
Qed.

(** ** One outlier among six *)

Lemma Forall2_Forall_r {A B} (P : A -> B -> Prop) (R : B -> Prop)
    (l : list A) (k : list B) :
  Forall2 P l k -> Forall (fun a => forall b, P a b -> R b) l -> Forall R k.
Proof.
  induction 1 as [| a b l k Hab _ IH]; intros Hl; [constructor |].
  apply Forall_cons in Hl as [Ha Hl].
  constructor; [apply (Ha b Hab) | apply IH, Hl].
Qed.

Lemma Forall_exists_Forall2 {A B} (P : A -> B -> Prop) (R : B -> Prop) (l : list A) :
  Forall (fun a => exists b, P a b /\ R b) l ->
  exists k, Forall2 P l k /\ Forall R k.
Proof.
  induction 1 as [| a l (b & Hab & Hb) _ (k & Hk & HR)].
  - exists []. split; constructor.
  - exists (b :: k). split; constructor; assumption.
Qed.

Lemma all_finite_map (qs : list Q) : all_finite (map Ffin qs) = Some qs.
Proof.
  induction qs as [| q qs IH]; [reflexivity |].
  cbn [map all_finite]. rewrite IH. reflexivity.
Qed.

Section Outlier.

Context `{Lib : PyLib}.

Lemma has_amount_amount_of (row : Row) (a : Q) :
  has_amount row a -> amount_of row = Some (Ffin a).
Proof.
  unfold amount_of, get, get_d.
  intros [-> | (z & -> & ->)]; reflexivity.
Qed.

Lemma has_amount_numeric (row : Row) (a : Q) :
  has_amount row a ->
  numeric_value (default (VNum Fnan) (row !! "amount")) = Some (Ffin a).
Proof. intros [-> | (z & -> & ->)]; reflexivity. Qed.

Lemma numeric_amounts_rows (rs : list Row) (amts : list Q) :
  Forall2 has_amount rs amts ->
  omap numeric_value (map (fun r => default (VNum Fnan) (r !! "amount")) rs)
  = map Ffin amts.
Proof.
  induction 1 as [| row a rs amts Ha _ IH]; [reflexivity |].
  change (omap numeric_value (map (fun r => default (VNum Fnan) (r !! "amount")) (row :: rs)))
    with (match numeric_value (default (VNum Fnan) (row !! "amount")) with
          | Some y =>
              y :: omap numeric_value
                     (map (fun r => default (VNum Fnan) (r !! "amount")) rs)
          | None =>
              omap numeric_value (map (fun r => default (VNum Fnan) (r !! "amount")) rs)
          end).
  rewrite (has_amount_numeric row a Ha), IH. reflexivity.
Qed.

Lemma text_not_true (row : Row) (k : string) :
  field_text row k <> "true" -> str_eqb (field_upper row k) "TRUE" = false.
Proof.
  intros Hne. apply str_eqb_false. intros E. apply Hne.
  apply upper_is_TRUE. apply str_eqb_true. exact E.
Qed.

Lemma text_not_false (row : Row) (k : string) :
  field_text row k <> "false" -> str_eqb (field_upper row k) "FALSE" = false.
Proof.
  intros Hne. apply str_eqb_false. intros E. apply Hne.
  apply upper_is_FALSE. apply str_eqb_true. exact E.
Qed.

Lemma text_not_word (row : Row) (k w : string) :
  field_text row k <> w -> str_eqb (field_lower row k) w = false.
Proof. intros Hne. apply str_eqb_false. exact Hne. Qed.

Lemma text_not_pep (row : Row) :
  field_text row "customer_is_pep" <> "true" -> hr_pep row = false.
Proof.
  unfold field_text, hr_pep, get, get_d. intros Hne.
  destruct (row !! "customer_is_pep") as [v |]; [| reflexivity].
  cbn in *. apply andb_false_intro2. apply str_eqb_false. intros E. apply Hne.
  apply upper_is_TRUE. apply str_eqb_true. exact E.
Qed.

(** A row without flag anomalies matches no rule but, possibly, the
    amount rules. *)
Lemma unremarkable_quiet (self : AMLDetectionAgent) (row : Row) :
  unremarkable row ->
  low_profile_high_amount self row = false ->
  any_high_risk self row = false /\ suspicious_count self row = 0%Z.
Proof.
  intros (Hpep & Hdom & Hedd & Hsow & Hsa & Hsr & Hcash & Hmed & Hhigh & Hsan) Hamt.
  unfold any_high_risk, suspicious_count.
  rewrite Hamt, (text_not_pep row Hpep).
  unfold hr_domiciliary_no_edd, hr_edd_gap, hr_no_sow, hr_not_assessed, hr_mismatch,
    hr_cash_id, sd_mas, sd_finma, sd_hkma, sd_domiciliary, sd_risk_rating, sd_sanctions.
  rewrite (text_not_word row "customer_type" _ Hdom).
  rewrite (text_not_true row "edd_required" Hedd).
  rewrite (text_not_false row "sow_documented" Hsow).
  rewrite (text_not_false row "suitability_assessed" Hsa).
  rewrite (text_not_word row "suitability_result" _ Hsr).
  rewrite (text_not_false row "cash_id_verified" Hcash).
  rewrite (text_not_word row "sanctions_screening" _ Hsan).
  assert (Hr1 : bool_decide (field_lower row "customer_risk_rating" ∈ ["high"; "medium"])
                = false).
  { apply bool_decide_eq_false. rewrite !elem_of_cons, elem_of_nil.
    intros [E | [E | []]]; [apply Hhigh | apply Hmed]; exact E. }
  assert (Hr2 : bool_decide (field_lower row "customer_risk_rating" ∈ ["medium"; "high"])
                = false).
  { apply bool_decide_eq_false. rewrite !elem_of_cons, elem_of_nil.
    intros [E | [E | []]]; [apply Hmed | apply Hhigh]; exact E. }
  rewrite Hr1, Hr2. rewrite !andb_false_r. cbn. split; reflexivity.
Qed.

(** C9. In a batch of six rows where one amount lies above the five
    others, the outlier has a low risk profile and the five others have
    non-negative amounts and no flag anomaly: the outlier's amount exceeds
    the calibrated 95th percentile, so its category is HIGH PRIORITY RISK
    (at least LOW), and none of the five others is suspicious. *)
Theorem outlier_among_six (self : AMLDetectionAgent) (df : DataFrame)
    (before after : list Row) (outlier : Row) (x : Q) :
  high_amount_threshold_percentile self = default_percentile ->
  "amount" ∈ columns df ->
  rows df = (before ++ outlier :: after)%list ->
  length (before ++ after)%list = 5%nat ->
  has_amount outlier x ->
  field_text outlier "client_risk_profile" = "low" ->
  Forall (fun row =>
            unremarkable row
            /\ exists a, has_amount row a /\ (0 <= a)%Q /\ (a < x)%Q)
         (before ++ after)%list ->
  exists self' t r_before r_outlier r_after,
    process_dataframe self df = Ok (self', (r_before ++ r_outlier :: r_after)%list)
    /\ length r_before = length before
    /\ length r_after = length after
    /\ high_amount_threshold self' = Some (Ffin t)
    /\ (t < x)%Q
    /\ transaction_id r_outlier = get_d outlier "transaction_id" (VStr "")
    /\ risk_category r_outlier = "HIGH PRIORITY RISK"
    /\ (1 <= category_rank (risk_category r_outlier))%Z
    /\ is_suspicious r_outlier = 1%Z
    /\ Forall (fun r => is_suspicious r = 0%Z /\ risk_category r = "")
         (r_before ++ r_after)%list.
Proof.
  intros HP Hcol Hrows Hlen Hx Hlow Hothers.
  (* the amounts of the five others *)
  apply Forall_app in Hothers as [Hb Ha].
  assert (Hsplit : forall l,
             Forall (fun row =>
                       unremarkable row
                       /\ exists a, has_amount row a /\ (0 <= a)%Q /\ (a < x)%Q) l ->
             exists amts, Forall2 has_amount l amts
                          /\ Forall (fun a => (0 <= a)%Q /\ (a < x)%Q) amts).
  { intros l Hl. apply Forall_exists_Forall2.
    eapply Forall_impl; [exact Hl |]. cbn. intros row (_ & a & H1 & H2). eauto. }
  destruct (Hsplit _ Hb) as (ab & Hab & Hab').
  destruct (Hsplit _ Ha) as (aa & Haa & Haa'). clear Hsplit.
  assert (Hall : Forall2 has_amount (rows df) (ab ++ x :: aa)%list).
  { rewrite Hrows. apply Forall2_app; [exact Hab |]. constructor; assumption. }
  (* the threshold *)
  assert (Hnum : numeric_amounts df = map Ffin (ab ++ x :: aa)%list).
  { unfold numeric_amounts, amount_cells.
    rewrite (bool_decide_eq_true_2 _ Hcol). apply numeric_amounts_rows, Hall. }
  assert (Hlen' : length (ab ++ aa)%list = 5%nat).
  { rewrite length_app in *. rewrite <- (Forall2_length _ _ _ Hab),
      <- (Forall2_length _ _ _ Haa). exact Hlen. }
  destruct (percentile_of_six x (ab ++ aa)%list (ab ++ x :: aa)%list)
    as (Ht0 & Htx & Hto).
  { symmetry. apply Permutation_middle. }
  { exact Hlen'. }
  { apply Forall_app. split; assumption. }
  set (t := linear_percentile (ab ++ x :: aa)%list 95) in *.
  assert (Hself : calculate_high_amount_threshold self df = set_threshold self (Ffin t)).
  { apply calculate_high_amount_threshold_percentile.
    - rewrite Hnum. destruct ab; discriminate.
    - rewrite Hnum, HP. unfold np_percentile. rewrite all_finite_map. reflexivity. }
  (* scoring *)
  destruct (score_rows_total (set_threshold self (Ffin t)) (rows df))
    as (results & E & F).
  rewrite Hrows in F.
  apply Forall2_app_inv_l in F as (r_before & rest & Fb & Fr & ->).
  apply Forall2_cons_inv_l in Fr as (r_outlier & r_after & Fo & Fa & ->).
  exists (set_threshold self (Ffin t)), t, r_before, r_outlier, r_after.
  split.
  { unfold process_dataframe. rewrite Hself, E. reflexivity. }
  split; [symmetry; exact (Forall2_length _ _ _ Fb) |].
  split; [symmetry; exact (Forall2_length _ _ _ Fa) |].
  split; [reflexivity |]. split; [exact Htx |].
  (* the outlier *)
  assert (Hhit : low_profile_high_amount (set_threshold self (Ffin t)) outlier = true).
  { unfold low_profile_high_amount. rewrite (has_amount_amount_of _ _ Hx).
    change (field_lower outlier "client_risk_profile")
      with (field_text outlier "client_risk_profile").
    rewrite Hlow. cbn.
    assert (E0 : Qeq_bool t 0 = false).
    { destruct (Qeq_bool t 0) eqn:Eq; [| reflexivity].
      apply Qeq_bool_iff in Eq. lra. }
    assert (E1 : Qle_bool x t = false).
    { destruct (Qle_bool x t) eqn:Eq; [| reflexivity].
      apply Qle_bool_iff in Eq. lra. }
    rewrite E0, E1. reflexivity. }
  rewrite score_row_rules in Fo. injection Fo as <-.
  cbn [transaction_id risk_category is_suspicious].
  assert (Hany : any_high_risk (set_threshold self (Ffin t)) outlier = true).
  { unfold any_high_risk. rewrite Hhit. rewrite !orb_true_r. reflexivity. }
  rewrite Hany, classify_risk_high.
  split; [reflexivity |]. split; [reflexivity |].
  split; [vm_compute; discriminate |].
  split; [reflexivity |].
  (* the five others *)
  apply Forall_app in Hto as [Htb Hta].
  assert (Hquiet : forall l amts,
             Forall2 has_amount l amts ->
             Forall (fun a => (a < t)%Q) amts ->
             Forall (fun row =>
                       unremarkable row
                       /\ exists a, has_amount row a /\ (0 <= a)%Q /\ (a < x)%Q) l ->
             Forall (fun row => forall r,
                       score_row (set_threshold self (Ffin t)) row = Ok r ->
                       is_suspicious r = 0%Z /\ risk_category r = "") l).
  { induction 1 as [| row a l amts Hra _ IH]; intros Hlt Hl; [constructor |].
    apply Forall_cons in Hlt as [Hat Hlt]. apply Forall_cons in Hl as [[Hun _] Hl].
    constructor; [| apply IH; assumption].
    intros r Hr.
    assert (Hamt : low_profile_high_amount (set_threshold self (Ffin t)) row = false).
    { unfold low_profile_high_amount. rewrite (has_amount_amount_of _ _ Hra).
      cbn.
      assert (E1 : Qle_bool a t = true) by (apply Qle_bool_iff; lra).
      rewrite E1. rewrite !andb_false_r. reflexivity. }
    destruct (unremarkable_quiet _ row Hun Hamt) as [H1 H2].
    rewrite score_row_rules in Hr. injection Hr as <-.
    cbn [is_suspicious risk_category]. rewrite H1, H2. split; reflexivity. }
  apply Forall_app. split.
  - eapply Forall2_Forall_r; [exact Fb |]. apply (Hquiet _ ab); assumption.
  - eapply Forall2_Forall_r; [exact Fa |]. apply (Hquiet _ aa); assumption.
Qed.

End Outlier.

Lemma plain_row_ordinary (id : string) (z : Z) :
  (0 <= z < 6000)%Z ->
  unremarkable (Lib := whole_lib) (plain_row id z)
  /\ exists a, has_amount (plain_row id z) a /\ (0 <= a)%Q /\ (a < 6000)%Q.
Proof.
  intros Hz. split.
  - unfold unremarkable. repeat split; vm_compute; discriminate.
  - exists (inject_Z z). split; [right; exists z; split; reflexivity |].
    unfold Qle, Qlt, inject_Z. cbn. lia.
Qed.

(** C9, on the batch of six whole-number amounts. *)
Lemma outlier_among_six_witness :
  high_amount_threshold_percentile default_agent = default_percentile
  /\ "amount" ∈ columns batch_of_six
  /\ rows batch_of_six = (six_before ++ outlier_row :: six_after)%list
  /\ length (six_before ++ six_after)%list = 5%nat
  /\ has_amount outlier_row 6000
  /\ field_text (Lib := whole_lib) outlier_row "client_risk_profile" = "low"
  /\ Forall (fun row =>
               unremarkable (Lib := whole_lib) row
               /\ exists a, has_amount row a /\ (0 <= a)%Q /\ (a < 6000)%Q)
        (six_before ++ six_after)%list
  /\ exists self' t r_before r_outlier r_after,
       process_dataframe (Lib := whole_lib) default_agent batch_of_six
       = Ok (self', (r_before ++ r_outlier :: r_after)%list)
       /\ length r_before = length six_before
       /\ length r_after = length six_after
       /\ high_amount_threshold self' = Some (Ffin t)
       /\ (t < 6000)%Q
       /\ transaction_id r_outlier = get_d outlier_row "transaction_id" (VStr "")
       /\ risk_category r_outlier = "HIGH PRIORITY RISK"
       /\ (1 <= category_rank (risk_category r_outlier))%Z
       /\ is_suspicious r_outlier = 1%Z
       /\ Forall (fun r => is_suspicious r = 0%Z /\ risk_category r = "")
            (r_before ++ r_after)%list.
Proof.
  assert (H1 : high_amount_threshold_percentile default_agent = default_percentile)
    by reflexivity.
  assert (H2 : "amount" ∈ columns batch_of_six)
    by (apply (bool_decide_unpack _); exact I).
  assert (H3 : rows batch_of_six = (six_before ++ outlier_row :: six_after)%list)
    by reflexivity.
  assert (H4 : length (six_before ++ six_after)%list = 5%nat) by reflexivity.
  assert (H5 : has_amount outlier_row 6000)
    by (right; exists 6000%Z; split; reflexivity).
  assert (H6 : field_text (Lib := whole_lib) outlier_row "client_risk_profile" = "low")
    by reflexivity.
  assert (H7 : Forall (fun row =>
                         unremarkable (Lib := whole_lib) row
                         /\ exists a, has_amount row a /\ (0 <= a)%Q /\ (a < 6000)%Q)
                  (six_before ++ six_after)%list).
  { repeat constructor; apply plain_row_ordinary; lia. }
  repeat (split; [assumption |]).
  exact (outlier_among_six (Lib := whole_lib) default_agent batch_of_six
           six_before six_after outlier_row 6000 H1 H2 H3 H4 H5 H6 H7).
Defined.

(** ** The alert store *)

Lemma delete_all_lookup {V} (ks : list string) (m : gmap string V) (k : string) :
  delete_all ks m !! k = if bool_decide (k ∈ ks) then None else m !! k.
Proof.
  unfold delete_all. revert m.
  induction ks as [| k' ks IH]; intros m; cbn [foldl].
  - reflexivity.
  - rewrite IH. destruct (decide (k = k')) as [-> | Hne].
    + rewrite (bool_decide_eq_true_2 (k' ∈ k' :: ks)) by (apply elem_of_cons; auto).
      rewrite lookup_delete_eq. destruct (bool_decide (k' ∈ ks)); reflexivity.
    + rewrite lookup_delete_ne by congruence.
      destruct (decide (k ∈ ks)) as [Hin | Hnin].
      * rewrite !bool_decide_eq_true_2; [reflexivity | | exact Hin].
        apply elem_of_cons. auto.
      * rewrite !bool_decide_eq_false_2; [reflexivity | | exact Hnin].
        rewrite elem_of_cons. tauto.
Qed.

Lemma remove_char_append_Z (s : string) : remove_char "Z" (s +:+ "Z") = remove_char "Z" s.
Proof.
  induction s as [| a s IH]; [reflexivity |].
  change (String a s +:+ "Z") with (String a (s +:+ "Z")).
  cbn [remove_char]. rewrite IH. reflexivity.
Qed.

Section StoreFacts.

Context `{Lib : PyLib} `{Clock : TimeText}.

(** The first loop of the sweep raises exactly when some timestamp
    carries an offset; otherwise it marks the expired entries. *)
Lemma sweep_spec (cutoff : Z) (entries : list (string * ResolvedMeta)) :
  sweep cutoff entries
  = if existsb (fun e => aware e.2) entries then Raise TypeError
    else Ok (omap (fun '(tid, meta) => if expired cutoff meta then Some tid else None)
               entries).
Proof.
  induction entries as [| [tid meta] rest IH]; [reflexivity |].
  cbn [sweep existsb snd]. rewrite IH.
  change (omap ?f ((tid, meta) :: rest))
    with (match f (tid, meta) with Some y => y :: omap f rest | None => omap f rest end).
  unfold sweep_entry, aware, expired. cbv zeta.
  destruct (fromisoformat (remove_char "Z" (resolved_at meta))) as [[dt |] |];
    cbn [mbind res_bind orb].
  - destruct (existsb _ rest); [reflexivity |].
    cbn [mbind res_bind mret res_ret]. destruct (dt <? cutoff)%Z; reflexivity.
  - reflexivity.
  - destruct (existsb _ rest); reflexivity.
Qed.

Lemma abandons_true (m : gmap string ResolvedMeta) :
  abandons m = true <-> exists k meta, m !! k = Some meta /\ aware meta = true.
Proof.
  unfold abandons. rewrite existsb_exists. split.
  - intros ([k meta] & Hin & Ha). exists k, meta.
    split; [apply elem_of_map_to_list, list_elem_of_In, Hin | exact Ha].
  - intros (k & meta & Hm & Ha). exists (k, meta).
    split; [apply list_elem_of_In, elem_of_map_to_list, Hm | exact Ha].
Qed.

Lemma abandons_false (m : gmap string ResolvedMeta) :
  abandons m = false <-> forall k meta, m !! k = Some meta -> aware meta = false.
Proof.
  split.
  - intros H k meta Hm. destruct (aware meta) eqn:Ha; [| reflexivity].
    rewrite <- H. symmetry. apply abandons_true. eauto.
  - intros H. destruct (abandons m) eqn:E; [| reflexivity].
    apply abandons_true in E as (k & meta & Hm & Ha).
    rewrite (H k meta Hm) in Ha. discriminate.
Qed.

(** One sweep, entry by entry: abandoned, it keeps every entry; completed,
    it keeps the entries that are not expired. *)
Lemma purge_lookup (now : Z) (st : Store) (tid : string) :
  resolved_alerts (purge_old_resolved_alerts now st) !! tid
  = if abandons (resolved_alerts st) then resolved_alerts st !! tid
    else
      match resolved_alerts st !! tid with
      | Some meta =>
          if expired (now - RETENTION_DAYS * microseconds_per_day) meta
          then None else Some meta
      | None => None
      end.
Proof.
  unfold purge_old_resolved_alerts. cbv zeta. rewrite sweep_spec.
  fold (abandons (resolved_alerts st)).
  destruct (abandons (resolved_alerts st)); [reflexivity |].
  cbn [resolved_alerts set_resolved].
  rewrite delete_all_lookup.
  set (cutoff := (now - RETENTION_DAYS * microseconds_per_day)%Z).
  destruct (resolved_alerts st !! tid) as [meta |] eqn:E.
  - destruct (expired cutoff meta) eqn:X.
    + rewrite bool_decide_eq_true_2; [reflexivity |].
      apply list_elem_of_omap. exists (tid, meta).
      split; [apply elem_of_map_to_list; exact E | rewrite X; reflexivity].
    + rewrite bool_decide_eq_false_2; [reflexivity |].
      intros Hin. apply list_elem_of_omap in Hin as ([k m] & Hkm & Hf).
      apply elem_of_map_to_list in Hkm.
      destruct (expired cutoff m) eqn:Xm; [| discriminate].
      injection Hf as ->. rewrite E in Hkm. injection Hkm as ->. congruence.
  - destruct (bool_decide _); reflexivity.
Qed.

(** A sweep changes the resolutions only. *)
Lemma purge_as_set_resolved (now : Z) (st : Store) :
  purge_old_resolved_alerts now st
  = set_resolved st (resolved_alerts (purge_old_resolved_alerts now st)).
Proof.
  unfold purge_old_resolved_alerts. cbv zeta.
  destruct (sweep _ _); [reflexivity |]. destruct st; reflexivity.
Qed.

Lemma purge_keeps_frame (now : Z) (st : Store) :
  df_scored (purge_old_resolved_alerts now st) = df_scored st.
Proof. rewrite purge_as_set_resolved. reflexivity. Qed.

(** A sweep is abandoned when a timestamp carries an offset. *)
Lemma purge_abandoned (now : Z) (st : Store) :
  abandons (resolved_alerts st) = true -> purge_old_resolved_alerts now st = st.
Proof.
  intros H. unfold purge_old_resolved_alerts. cbv zeta. rewrite sweep_spec.
  fold (abandons (resolved_alerts st)). rewrite H. reflexivity.
Qed.

(** The sweep depends on the resolutions only. *)
Lemma purge_same_resolutions (now : Z) (st st' : Store) :
  resolved_alerts st = resolved_alerts st' ->
  resolved_alerts (purge_old_resolved_alerts now st)
  = resolved_alerts (purge_old_resolved_alerts now st').
Proof.
  intros H. apply map_eq. intros tid. rewrite !purge_lookup, H. reflexivity.
Qed.

(** The test [resolve_alert] makes is the test for an alert of the batch. *)
Lemma resolve_test (df : DataFrame) (tid : string) :
  match
    (fl ← flagged df;
     ids ← column fl "transaction_id";
     mret (existsb (fun v => str_eqb (py_str v) tid) ids))
  with
  | Ok b => b
  | Raise _ => false
  end = true
  <-> is_alert df tid.
Proof.
  unfold flagged, select, column, is_alert.
  destruct (decide ("is_suspicious" ∈ columns df)) as [H1 | H1].
  2: { rewrite (bool_decide_eq_false_2 _ H1). cbn. split; [discriminate | tauto]. }
  rewrite (bool_decide_eq_true_2 _ H1). cbn [mbind res_bind columns rows].
  destruct (decide ("transaction_id" ∈ columns df)) as [H2 | H2].
  2: { rewrite (bool_decide_eq_false_2 _ H2). cbn. split; [discriminate | tauto]. }
  rewrite (bool_decide_eq_true_2 _ H2). cbn [mbind res_bind mret res_ret].
  rewrite existsb_exists. split.
  - intros (v & Hv & Hs). apply str_eqb_true in Hs.
    apply in_map_iff in Hv as (r & <- & Hr).
    apply list_elem_of_In, list_elem_of_filter in Hr as [Hone Hr].
    split; [exact H1 |]. split; [exact H2 |]. exists r. auto.
  - intros (_ & _ & r & Hr & Hone & Hs).
    exists (cell r "transaction_id"). split; [| apply str_eqb_true; exact Hs].
    apply in_map_iff. exists r. split; [reflexivity |].
    apply list_elem_of_In, list_elem_of_filter. auto.
Qed.

(** Resolving an id that names an alert records the resolution. *)
Lemma resolve_alert_found (now : Z) (tid : string) (note : option string) (st : Store)
    (df : DataFrame) :
  df_scored st = Some df -> is_alert df tid ->
  resolve_alert now tid note st
  = (Resolved tid,
     set_resolved st (<[tid := resolution now note]> (resolved_alerts st))).
Proof.
  intros H0 Ha. unfold resolve_alert. rewrite H0.
  apply resolve_test in Ha. cbv zeta. rewrite Ha. reflexivity.
Qed.

(** Resolving an id that names no alert changes nothing. *)
Lemma resolve_alert_missing (now : Z) (tid : string) (note : option string) (st : Store)
    (df : DataFrame) :
  df_scored st = Some df -> ~ is_alert df tid ->
  resolve_alert now tid note st
  = (NotFound ("Alert for transaction " +:+ tid +:+ " not found or not suspicious"), st).
Proof.
  intros Hdf Hn. unfold resolve_alert. rewrite Hdf. cbv zeta.
  destruct (match _ with Ok b => b | Raise _ => false end) eqn:E; [| reflexivity].
  exfalso. apply Hn. apply resolve_test. exact E.
Qed.

(** C5. With a batch loaded, resolving fails with NotFound exactly when
    the id names no suspicious row of the batch, and then changes nothing;
    otherwise it succeeds and records the note and the time under the id.
    Resolving the id again succeeds and replaces the entry: the last write
    wins and the map does not grow. *)
Theorem resolve_alert_spec (now : Z) (tid : string) (note : option string)
    (st : Store) (df : DataFrame) :
  df_scored st = Some df ->
  ((exists detail, (resolve_alert now tid note st).1 = NotFound detail)
   <-> ~ is_alert df tid)
  /\ (~ is_alert df tid -> (resolve_alert now tid note st).2 = st)
  /\ (is_alert df tid ->
      (resolve_alert now tid note st).1 = Resolved tid
      /\ df_scored (resolve_alert now tid note st).2 = Some df
      /\ resolved_alerts (resolve_alert now tid note st).2 !! tid
         = Some (resolution now note)
      /\ (forall tid', tid' <> tid ->
            resolved_alerts (resolve_alert now tid note st).2 !! tid'
            = resolved_alerts st !! tid')
      /\ (is_Some (resolved_alerts st !! tid) ->
          size (resolved_alerts (resolve_alert now tid note st).2)
          = size (resolved_alerts st))
      /\ (forall now' note',
            (resolve_alert now' tid note' (resolve_alert now tid note st).2).1
            = Resolved tid
            /\ resolved_alerts
                 (resolve_alert now' tid note' (resolve_alert now tid note st).2).2
                 !! tid
               = Some (resolution now' note')
            /\ size (resolved_alerts
                       (resolve_alert now' tid note' (resolve_alert now tid note st).2).2)
               = size (resolved_alerts (resolve_alert now tid note st).2))).
Proof.
  intros Hdf.
  assert (Hyes : forall now0 note0 st0,
             df_scored st0 = Some df -> is_alert df tid ->
             resolve_alert now0 tid note0 st0
             = (Resolved tid,
                set_resolved st0
                  (<[tid := resolution now0 note0]> (resolved_alerts st0)))).
  { intros now0 note0 st0 H0 Ha. unfold resolve_alert. rewrite H0.
    apply resolve_test in Ha. cbv zeta. rewrite Ha. reflexivity. }
  assert (Hno : ~ is_alert df tid ->
                resolve_alert now tid note st
                = (NotFound ("Alert for transaction " +:+ tid
                               +:+ " not found or not suspicious"), st)).
  { intros Hn. unfold resolve_alert. rewrite Hdf. cbv zeta.
    destruct (match _ with Ok b => b | Raise _ => false end) eqn:E; [| reflexivity].
    exfalso. apply Hn. apply resolve_test. exact E. }
  split; [| split].
  - split.
    + intros [detail Hd] Ha. rewrite (Hyes _ _ _ Hdf Ha) in Hd. discriminate.
    + intros Hn. rewrite (Hno Hn). eexists. reflexivity.
  - intros Hn. rewrite (Hno Hn). reflexivity.
  - intros Ha. rewrite (Hyes _ _ _ Hdf Ha). cbn [fst snd].
    split; [reflexivity |]. split; [exact Hdf |].
    cbn [resolved_alerts set_resolved].
    split; [apply lookup_insert_eq |].
    split; [intros tid' Hne; apply lookup_insert_ne; congruence |].
    split; [intros Hs; apply map_size_insert_Some; exact Hs |].
    intros now' note'.
    rewrite (Hyes now' note'
               (set_resolved st (<[tid := resolution now note]> (resolved_alerts st)))
               Hdf Ha).
    cbn [fst snd resolved_alerts set_resolved].
    split; [reflexivity |]. split; [apply lookup_insert_eq |].
    apply map_size_insert_Some. rewrite lookup_insert_eq. eauto.
Qed.

(** An entry written by [resolve_alert] at time [t] outlives a sweep
    exactly when the sweep's cutoff is not after [t]; its timestamp carries
    no offset. *)
Lemma expired_resolution (cutoff t : Z) (note : option string) :
  iso_lawful -> expired cutoff (resolution t note) = (t <? cutoff)%Z.
Proof.
  intros [Hz Hiso]. unfold expired, resolution. cbn [resolved_at].
  rewrite remove_char_append_Z, Hz, Hiso. reflexivity.
Qed.

Lemma aware_resolution (t : Z) (note : option string) :
  iso_lawful -> aware (resolution t note) = false.
Proof.
  intros [Hz Hiso]. unfold aware, resolution. cbn [resolved_at].
  rewrite remove_char_append_Z, Hz, Hiso. reflexivity.
Qed.

(** Resolving keeps the store free of timestamps with an offset. *)
Lemma resolve_alert_keeps_naive (now : Z) (tid : string) (note : option string)
    (st : Store) :
  iso_lawful ->
  (forall k meta, resolved_alerts st !! k = Some meta -> aware meta = false) ->
  forall k meta,
    resolved_alerts (resolve_alert now tid note st).2 !! k = Some meta ->
    aware meta = false.
Proof.
  intros Hlaw Hst k meta. unfold resolve_alert.
  destruct (df_scored st); [| apply Hst].
  cbv zeta. destruct (negb _); [apply Hst |].
  cbn [snd resolved_alerts set_resolved].
  destruct (decide (k = tid)) as [-> | Hne].
  - rewrite lookup_insert_eq. intros [= <-].
    exact (aware_resolution now note Hlaw).
  - rewrite lookup_insert_ne by congruence. apply Hst.
Qed.

(** C6. A resolution made at time [T] is still there after a sweep 29
    days later and is gone after a sweep 31 days later, whether or not the
    earlier sweep ran. The listing sweeps the store before it answers:
    asked 29 days after [T] it shows the resolution, asked 31 days after
    [T] it does not, and the store it leaves no longer holds it. In
    general a sweep keeps the entry exactly when it is not older than 30
    days. The store is one whose timestamps carry no offset, as every
    store is that [resolve_alert] alone has written to; the store stays
    so. *)
Theorem resolve_then_purge (T : Z) (tid : string) (note : option string)
    (st : Store) (df : DataFrame) :
  iso_lawful ->
  df_scored st = Some df ->
  is_alert df tid ->
  (forall k meta, resolved_alerts st !! k = Some meta -> aware meta = false) ->
  let st1 := (resolve_alert T tid note st).2 in
  resolved_alerts (purge_old_resolved_alerts (T + 29 * microseconds_per_day) st1) !! tid
  = Some (resolution T note)
  /\ resolved_alerts (purge_old_resolved_alerts (T + 31 * microseconds_per_day) st1)
       !! tid = None
  /\ resolved_alerts
       (purge_old_resolved_alerts (T + 31 * microseconds_per_day)
          (purge_old_resolved_alerts (T + 29 * microseconds_per_day) st1)) !! tid
     = None
  /\ ((tid, resolution T note)
      ∈ (list_resolved_alerts (T + 29 * microseconds_per_day) st1).1)
  /\ resolved_alerts (list_resolved_alerts (T + 29 * microseconds_per_day) st1).2 !! tid
     = Some (resolution T note)
  /\ (tid ∉ (list_resolved_alerts (T + 31 * microseconds_per_day) st1).1.*1)
  /\ resolved_alerts (list_resolved_alerts (T + 31 * microseconds_per_day) st1).2 !! tid
     = None
  /\ (forall now,
        tid ∉ (list_resolved_alerts now
                 (list_resolved_alerts (T + 31 * microseconds_per_day) st1).2).1.*1)
  /\ (forall now,
        tid ∉ (list_resolved_alerts now
                 (purge_old_resolved_alerts (T + 31 * microseconds_per_day) st1)).1.*1)
  /\ (forall now,
        resolved_alerts (purge_old_resolved_alerts now st1) !! tid
        = if (T <? now - RETENTION_DAYS * microseconds_per_day)%Z
          then None else Some (resolution T note))
  /\ (forall now meta,
        (tid, meta) ∈ (list_resolved_alerts now st1).1
        <-> meta = resolution T note
            /\ (now - RETENTION_DAYS * microseconds_per_day <= T)%Z)
  /\ (forall k meta, resolved_alerts st1 !! k = Some meta -> aware meta = false).
Proof.
  intros Hlaw Hdf Ha Hnaive st1.
  assert (Hlook : resolved_alerts st1 !! tid = Some (resolution T note)).
  { unfold st1. rewrite (resolve_alert_found T tid note st df Hdf Ha).
    apply lookup_insert_eq. }
  assert (Hn1 : forall k meta, resolved_alerts st1 !! k = Some meta -> aware meta = false)
    by exact (resolve_alert_keeps_naive T tid note st Hlaw Hnaive).
  assert (Hab : abandons (resolved_alerts st1) = false) by (apply abandons_false, Hn1).
  assert (Hgen : forall now,
             resolved_alerts (purge_old_resolved_alerts now st1) !! tid
             = if (T <? now - RETENTION_DAYS * microseconds_per_day)%Z
               then None else Some (resolution T note)).
  { intros now. rewrite purge_lookup, Hab, Hlook, (expired_resolution _ _ _ Hlaw).
    reflexivity. }
  assert (Hswept : forall now,
             abandons (resolved_alerts (purge_old_resolved_alerts now st1)) = false).
  { intros now. apply abandons_false. intros k meta.
    rewrite purge_lookup, Hab.
    destruct (resolved_alerts st1 !! k) as [m |] eqn:E; [| discriminate].
    destruct (expired _ m); [discriminate |]. intros [= <-]. exact (Hn1 k m E). }
  assert (H29 : (T <? T + 29 * microseconds_per_day
                       - RETENTION_DAYS * microseconds_per_day)%Z = false).
  { apply Z.ltb_ge. unfold RETENTION_DAYS, microseconds_per_day. lia. }
  assert (H31 : (T <? T + 31 * microseconds_per_day
                       - RETENTION_DAYS * microseconds_per_day)%Z = true).
  { apply Z.ltb_lt. unfold RETENTION_DAYS, microseconds_per_day. lia. }
  assert (Hgone : forall now,
             tid ∉ (list_resolved_alerts now
                      (purge_old_resolved_alerts (T + 31 * microseconds_per_day) st1)).1.*1).
  { intros now Hin. unfold list_resolved_alerts in Hin. cbn [fst] in Hin.
    apply list_elem_of_fmap in Hin as ([k m] & -> & Hkm).
    apply elem_of_map_to_list in Hkm. cbn [fst] in Hkm.
    rewrite purge_lookup, Hswept, Hgen, H31 in Hkm. discriminate. }
  unfold list_resolved_alerts. cbn [fst snd].
  split; [rewrite Hgen, H29; reflexivity |].
  split; [rewrite Hgen, H31; reflexivity |].
  split.
  { rewrite purge_lookup, Hswept, Hgen, H29, (expired_resolution _ _ _ Hlaw), H31.
    reflexivity. }
  split; [apply elem_of_map_to_list; rewrite Hgen, H29; reflexivity |].
  split; [rewrite Hgen, H29; reflexivity |].
  split.
  { intros Hin. apply list_elem_of_fmap in Hin as ([k m] & -> & Hkm).
    apply elem_of_map_to_list in Hkm. cbn [fst] in Hkm.
    rewrite Hgen, H31 in Hkm. discriminate. }
  split; [rewrite Hgen, H31; reflexivity |].
  split; [exact Hgone |]. split; [exact Hgone |].
  split; [exact Hgen |].
  split; [| exact Hn1].
  intros now meta. rewrite elem_of_map_to_list, Hgen.
  destruct (Z.ltb_spec T (now - RETENTION_DAYS * microseconds_per_day)).
  - split; [discriminate | lia].
  - split; [intros [= <-]; split; [reflexivity | lia] | intros [-> _]; reflexivity].
Qed.

(** C7. A sweep that completes removes an entry exactly when its
    timestamp does not read as a time or reads as a time before the
    cutoff; an entry whose timestamp reads as a time at or after the cutoff
    is kept as it is. A sweep does nothing in one case only: when some
    timestamp of the store reads as a time with an offset, comparing it
    with the cutoff raises, the sweep is abandoned and the store stays as
    it is, the undated and the old entries included. A sweep touches
    nothing else in the store. *)
Theorem purge_removes_undated_and_old (now : Z) (st : Store) (tid : string) :
  let cutoff := (now - RETENTION_DAYS * microseconds_per_day)%Z in
  let st' := purge_old_resolved_alerts now st in
  ((forall k meta,
      resolved_alerts st !! k = Some meta ->
      fromisoformat (remove_char "Z" (resolved_at meta)) <> Some Aware) ->
   (forall meta,
      resolved_alerts st' !! tid = Some meta
      <-> resolved_alerts st !! tid = Some meta
          /\ exists dt,
               fromisoformat (remove_char "Z" (resolved_at meta)) = Some (Naive dt)
               /\ (cutoff <= dt)%Z)
   /\ (forall meta,
         resolved_alerts st !! tid = Some meta ->
         fromisoformat (remove_char "Z" (resolved_at meta)) = None ->
         resolved_alerts st' !! tid = None)
   /\ (forall meta dt,
         resolved_alerts st !! tid = Some meta ->
         fromisoformat (remove_char "Z" (resolved_at meta)) = Some (Naive dt) ->
         (dt < cutoff)%Z ->
         resolved_alerts st' !! tid = None))
  /\ ((exists k meta,
         resolved_alerts st !! k = Some meta
         /\ fromisoformat (remove_char "Z" (resolved_at meta)) = Some Aware) ->
      st' = st)
  /\ df_scored st' = df_scored st
  /\ df_raw st' = df_raw st
  /\ agent st' = agent st.
Proof.
  intros cutoff st'. subst st'.
  split; [| split].
  - intros Hnaive.
    assert (Hab : abandons (resolved_alerts st) = false).
    { apply abandons_false. intros k meta Hm. specialize (Hnaive k meta Hm).
      unfold aware. destruct (fromisoformat _) as [[dt |] |]; congruence. }
    split; [| split].
    + intros meta. rewrite purge_lookup, Hab. fold cutoff. unfold expired.
      destruct (resolved_alerts st !! tid) as [m |] eqn:Em;
        [| split; [discriminate | tauto]].
      pose proof (Hnaive tid m Em) as Hm.
      destruct (fromisoformat (remove_char "Z" (resolved_at m))) as [[dt |] |] eqn:E;
        [| congruence |].
      * destruct (Z.ltb_spec dt cutoff) as [Hlt | Hge].
        -- split; [discriminate |].
           intros (Hm' & dt' & Hdt & Hle). injection Hm' as <-.
           rewrite E in Hdt. injection Hdt as <-. lia.
        -- split.
           ++ intros H. injection H as <-. split; [reflexivity |]. eauto.
           ++ intros [H _]. exact H.
      * split; [discriminate |].
        intros (Hm' & dt' & Hdt & _). injection Hm' as <-. congruence.
    + intros meta Hm Hnone. rewrite purge_lookup, Hab, Hm. unfold expired.
      rewrite Hnone. reflexivity.
    + intros meta dt Hm Hdt Hlt. rewrite purge_lookup, Hab, Hm. unfold expired.
      rewrite Hdt. fold cutoff. apply Z.ltb_lt in Hlt. rewrite Hlt. reflexivity.
  - intros (k & meta & Hm & Hp). apply purge_abandoned, abandons_true.
    exists k, meta. split; [exact Hm |]. unfold aware. rewrite Hp. reflexivity.
  - rewrite (purge_as_set_resolved now st). repeat split.
Qed.

End StoreFacts.

(** *** The decimal clock is lawful *)

Lemma string_of_uint_no_Z (d : Decimal.uint) :
  remove_char "Z" (NilEmpty.string_of_uint d) = NilEmpty.string_of_uint d.
Proof.
  induction d as [| d IH | d IH | d IH | d IH | d IH | d IH | d IH | d IH | d IH | d IH];
    cbn [NilEmpty.string_of_uint remove_char]; try reflexivity;
    rewrite IH; reflexivity.
Qed.

Lemma string_of_Z_no_Z (t : Z) : remove_char "Z" (string_of_Z t) = string_of_Z t.
Proof.
  unfold string_of_Z, NilZero.string_of_int, NilZero.string_of_uint.
  destruct (Z.to_int t) as [d | d]; destruct d; cbn [remove_char Ascii.eqb];
    try reflexivity;
    match goal with
    | |- context [NilEmpty.string_of_uint ?d] =>
        pose proof (string_of_uint_no_Z d) as H; cbn in H |- *;
        try (injection H as H); rewrite ?H; reflexivity
    end.
Qed.

Lemma string_of_uint_no_offset (d : Decimal.uint) :
  ends_with "+00:00" (NilEmpty.string_of_uint d) = false.
Proof.
  induction d as [| d IH | d IH | d IH | d IH | d IH | d IH | d IH | d IH | d IH | d IH];
    cbn [NilEmpty.string_of_uint ends_with]; try reflexivity;
    rewrite IH; reflexivity.
Qed.

Lemma string_of_Z_no_offset (t : Z) : ends_with "+00:00" (string_of_Z t) = false.
Proof.
  unfold string_of_Z, NilZero.string_of_int, NilZero.string_of_uint.
  destruct (Z.to_int t) as [d | d]; destruct d; cbn [ends_with];
    try reflexivity;
    match goal with
    | |- context [NilEmpty.string_of_uint ?d] =>
        pose proof (string_of_uint_no_offset d) as H; cbn in H |- *;
        rewrite ?H; reflexivity
    end.
Qed.

Lemma count_clock_lawful : iso_lawful (H := count_clock).
Proof.
  split; [exact string_of_Z_no_Z |].
  intros t. cbn [isoformat fromisoformat count_clock].
  rewrite string_of_Z_no_offset. unfold string_of_Z.
  rewrite NilZero.isi.
  - cbn [option_map]. rewrite DecimalZ.of_to. reflexivity.
  - destruct t as [| p | p]; cbn; try discriminate.
    intros [= E]. exact (DecimalPos.Unsigned.to_uint_nonnil p E).
  - destruct t as [| p | p]; cbn; try discriminate.
    intros [= E]. exact (DecimalPos.Unsigned.to_uint_nonnil p E).
Qed.

Lemma store_sample_naive (k : string) (meta : ResolvedMeta) :
  resolved_alerts store_sample !! k = Some meta ->
  aware (Clock := count_clock) meta = false.
Proof. cbn [resolved_alerts store_sample]. rewrite lookup_empty. discriminate. Qed.

Lemma T1_is_alert : is_alert (Lib := whole_lib) scored_sample "T1".
Proof.
  split; [apply (bool_decide_unpack _); exact I |].
  split; [apply (bool_decide_unpack _); exact I |].
  exists (scored_row "T1" 1).
  split; [apply elem_of_cons; left; reflexivity |].
  split; reflexivity.
Qed.

(** C5, on the sample store: "T1" is an alert of the batch. *)
Lemma resolve_alert_spec_witness :
  df_scored store_sample = Some scored_sample
  /\ (resolve_alert (Lib := whole_lib) (Clock := count_clock) 5 "T1" (Some "checked")
        store_sample).1 = Resolved "T1"
  /\ resolved_alerts
       (resolve_alert (Lib := whole_lib) (Clock := count_clock) 5 "T1" (Some "checked")
          store_sample).2 !! "T1"
     = Some (resolution (Clock := count_clock) 5 (Some "checked")).
Proof.
  assert (H : df_scored store_sample = Some scored_sample) by reflexivity.
  split; [exact H |].
  destruct (resolve_alert_spec (Lib := whole_lib) (Clock := count_clock)
              5 "T1" (Some "checked") store_sample scored_sample H)
    as (_ & _ & Hres).
  destruct (Hres T1_is_alert) as (H1 & _ & H2 & _).
  split; [exact H1 | exact H2].
Defined.

(** C6, on the sample store with the decimal clock. *)
Lemma resolve_then_purge_witness :
  iso_lawful (H := count_clock)
  /\ df_scored store_sample = Some scored_sample
  /\ is_alert (Lib := whole_lib) scored_sample "T1"
  /\ (forall k meta, resolved_alerts store_sample !! k = Some meta ->
        aware (Clock := count_clock) meta = false)
  /\ resolved_alerts
       (purge_old_resolved_alerts (Clock := count_clock) (5 + 29 * microseconds_per_day)
          (resolve_alert (Lib := whole_lib) (Clock := count_clock) 5 "T1" None
             store_sample).2) !! "T1"
     = Some (resolution (Clock := count_clock) 5 None)
  /\ resolved_alerts
       (purge_old_resolved_alerts (Clock := count_clock) (5 + 31 * microseconds_per_day)
          (resolve_alert (Lib := whole_lib) (Clock := count_clock) 5 "T1" None
             store_sample).2) !! "T1"
     = None.
Proof.
  assert (H : df_scored store_sample = Some scored_sample) by reflexivity.
  split; [exact count_clock_lawful |]. split; [exact H |].
  split; [exact T1_is_alert |]. split; [exact store_sample_naive |].
  destruct (resolve_then_purge (Lib := whole_lib) (Clock := count_clock)
              5 "T1" None store_sample scored_sample count_clock_lawful H T1_is_alert
              store_sample_naive)
    as (H1 & H2 & _).
  split; [exact H1 | exact H2].
Defined.

(** C7 as stated fails: an entry whose timestamp does not read as a time
    is removed by the sweep. *)
Lemma undated_entry_is_purged :
  resolved_alerts store_undated !! "T1" = Some undated_meta
  /\ fromisoformat (TimeText := count_clock) (remove_char "Z" (resolved_at undated_meta))
     = None
  /\ resolved_alerts (purge_old_resolved_alerts (Clock := count_clock) 5 store_undated)
       !! "T1" = None.
Proof. repeat split; reflexivity. Qed.

(** The sweep that does nothing: beside a timestamp with an offset the
    undated entry stays. *)
Lemma offset_entry_abandons_sweep :
  fromisoformat (TimeText := count_clock) (remove_char "Z" (resolved_at offset_meta))
  = Some Aware
  /\ purge_old_resolved_alerts (Clock := count_clock) 5 store_offset = store_offset
  /\ resolved_alerts (purge_old_resolved_alerts (Clock := count_clock) 5 store_offset)
       !! "T1" = Some undated_meta.
Proof. repeat split; reflexivity. Qed.

(** ** Monthly reports *)

(** The purge of the report directory, file by file. *)
Lemma purge_reports_lookup (now : Z) (fs : Dir) (name : string) :
  purge_old_monthly_reports now fs !! name
  = match fs !! name with
    | Some f =>
        if (ends_with ".csv" name || ends_with ".json" name)
           && (mtime f <? now - REPORT_RETENTION_DAYS * microseconds_per_day)%Z
        then None else Some f
    | None => None
    end.
Proof.
  unfold purge_old_monthly_reports. rewrite delete_all_lookup.
  set (cutoff := (now - REPORT_RETENTION_DAYS * microseconds_per_day)%Z).
  destruct (fs !! name) as [f |] eqn:E.
  - destruct ((ends_with ".csv" name || ends_with ".json" name)
              && (mtime f <? cutoff)%Z) eqn:X.
    + rewrite bool_decide_eq_true_2; [reflexivity |].
      apply list_elem_of_omap. exists (name, f).
      split; [apply elem_of_map_to_list; exact E |].
      apply andb_true_iff in X as [X1 X2]. rewrite X1, X2. reflexivity.
    + rewrite bool_decide_eq_false_2; [reflexivity |].
      intros Hin. apply list_elem_of_omap in Hin as ([k g] & Hkg & Hf).
      apply elem_of_map_to_list in Hkg.
      destruct (ends_with ".csv" k || ends_with ".json" k) eqn:X1;
        cbn [negb] in Hf; [| discriminate].
      destruct (mtime g <? cutoff)%Z eqn:X2; [| discriminate].
      injection Hf as ->. rewrite E in Hkg. injection Hkg as ->.
      rewrite X1, X2 in X. discriminate.
  - destruct (bool_decide _); reflexivity.
Qed.

Lemma csv_json_differ (m : string) : m +:+ ".csv" <> m +:+ ".json".
Proof.
  induction m as [| a m IH]; [discriminate |].
  intros H. apply IH. injection H as H. exact H.
Qed.

Lemma total_of_insert (m : gmap string nat) (k : string) (n : nat) :
  m !! k = None -> total_of (<[k := n]> m) = (n + total_of m)%nat.
Proof.
  intros H. unfold total_of. apply map_fold_insert_L; [| exact H].
  intros. lia.
Qed.

Lemma file_at_put_at_eq (d : Disk) (pl : place) (f : File) :
  file_at (put_at d pl f) pl = Some f.
Proof. destruct pl; cbn; apply lookup_insert_eq. Qed.

Lemma file_at_put_at_ne (d : Disk) (pl pl' : place) (f : File) :
  pl <> pl' -> file_at (put_at d pl f) pl' = file_at d pl'.
Proof.
  intros H. destruct pl, pl'; cbn; try reflexivity;
    apply lookup_insert_ne; congruence.
Qed.

Lemma place_eq_dec (pl pl' : place) : {pl = pl'} + {pl <> pl'}.
Proof. decide equality; apply string_dec. Qed.

Section ReportFacts.

Context `{Lib : PyLib} `{Clock : TimeText} `{Ser : Serializer} `{FS : FileSystem}.

(** The purge of the reports directory, path by path. *)
Lemma purged_lookup (now : Z) (d : Disk) (path : string) :
  disk_lookup (purged now d) path
  = if stale now d path then None else disk_lookup d path.
Proof.
  unfold disk_lookup, stale, purged, file_at. cbn [children elsewhere].
  destruct (place_of path) as [name | p]; [| reflexivity].
  rewrite purge_reports_lookup.
  destruct (children d !! name) as [f |]; [| reflexivity].
  destruct (_ && _); reflexivity.
Qed.

Lemma purged_not_stale (now : Z) (d : Disk) (path : string) :
  stale now (purged now d) path = false.
Proof.
  unfold stale, purged. cbn [children].
  destruct (place_of path) as [name | p]; [| reflexivity].
  rewrite purge_reports_lookup.
  destruct (children d !! name) as [f |]; [| reflexivity].
  destruct ((ends_with ".csv" name || ends_with ".json" name)
            && (mtime f <? now - REPORT_RETENTION_DAYS * microseconds_per_day)%Z) eqn:E;
    [reflexivity | exact E].
Qed.

(** A write that is passed over leaves the file as it was; a write that
    got as far as the file leaves a file dated now. *)
Lemma disk_write_lookup_same (now : Z) (path path' text : string) (d : Disk) :
  place_of path' = place_of path ->
  disk_lookup (disk_write now path text d) path'
  = match write_result now path text with
    | NotWritten => disk_lookup d path'
    | Truncated part => Some {| content := part; mtime := now |}
    | Written => Some {| content := text; mtime := now |}
    end.
Proof.
  intros H. unfold disk_lookup, disk_write. rewrite H.
  destruct (write_result now path text); [reflexivity | |]; apply file_at_put_at_eq.
Qed.

Lemma disk_write_lookup_other (now : Z) (path path' text : string) (d : Disk) :
  place_of path' <> place_of path ->
  disk_lookup (disk_write now path text d) path' = disk_lookup d path'.
Proof.
  intros H. unfold disk_lookup, disk_write.
  destruct (write_result now path text); [reflexivity | |];
    apply file_at_put_at_ne; congruence.
Qed.

Lemma disk_write_lookup_cases (now : Z) (path path' text : string) (d : Disk) :
  disk_lookup (disk_write now path text d) path' = disk_lookup d path'
  \/ exists part,
       disk_lookup (disk_write now path text d) path'
       = Some {| content := part; mtime := now |}.
Proof.
  destruct (place_eq_dec (place_of path') (place_of path)) as [E | N].
  - rewrite (disk_write_lookup_same _ _ _ _ _ E).
    destruct (write_result now path text); eauto.
  - left. apply disk_write_lookup_other, N.
Qed.

(** The counts of a column account for each of its cells once. *)
Lemma value_counts_total (cells : list pyval) :
  total_of (value_counts cells) = length cells.
Proof.
  induction cells as [| v cells IH]; [apply map_fold_empty |].
  cbn [value_counts foldr length]. fold (value_counts cells).
  set (m := value_counts cells) in *. set (k := py_str v).
  destruct (m !! k) as [n |] eqn:E; cbn [default from_option]; unfold id.
  - pose proof (total_of_insert (delete k m) k n (lookup_delete_eq m k)) as H1.
    rewrite (insert_delete_id m k n E) in H1.
    pose proof (total_of_insert (delete k m) k (S n) (lookup_delete_eq m k)) as H2.
    rewrite insert_delete_eq in H2. lia.
  - rewrite total_of_insert by exact E. lia.
Qed.

Lemma with_resolved_columns (keys : gmap string ResolvedMeta) (df : DataFrame) :
  columns (with_resolved keys df) = (columns df ++ ["resolved"])%list.
Proof. unfold with_resolved. destruct (bool_decide _); reflexivity. Qed.

Lemma with_resolved_length (keys : gmap string ResolvedMeta) (df : DataFrame) :
  length (rows (with_resolved keys df)) = length (rows df).
Proof.
  unfold with_resolved. destruct (bool_decide _); cbn [rows]; apply length_map.
Qed.

Lemma counts_of_total (df : DataFrame) (name : string) :
  total_of (counts_of df name)
  = if bool_decide (name ∈ columns df) then length (rows df) else 0%nat.
Proof.
  unfold counts_of, column. destruct (bool_decide (name ∈ columns df)).
  - rewrite value_counts_total. apply length_map.
  - apply map_fold_empty.
Qed.

(** What a generation that returns has done. *)
Lemma generate_monthly_report_inv (now : Z) (month : option string) (st : Store)
    (d : Disk) (out : generate_response) (d' : Disk) :
  generate_monthly_report now month st d = Ok (out, d') ->
  exists df fl summary,
    df_scored st = Some df
    /\ flagged df = Ok fl
    /\ out = ReportGenerated (report_month now month +:+ ".csv")
               (report_month now month +:+ ".json") summary
    /\ d' = disk_write now (report_month now month +:+ ".json") (json_dump summary)
              (disk_write now (report_month now month +:+ ".csv")
                 (to_csv (with_resolved (resolved_alerts st) fl)) d)
    /\ summary_month summary = report_month now month
    /\ generated_at summary = isoformat now +:+ "Z"
    /\ total_flagged summary = Z.of_nat (length (rows fl))
    /\ resolved summary
       = Z.of_nat (length (filter (fun r => is_one (cell r "resolved") = true)
                             (rows (with_resolved (resolved_alerts st) fl))))
    /\ unresolved summary = (total_flagged summary - resolved summary)%Z
    /\ by_regulator summary = counts_of (with_resolved (resolved_alerts st) fl) "regulator"
    /\ by_category summary
       = counts_of (with_resolved (resolved_alerts st) fl) "risk_category".
Proof.
  unfold generate_monthly_report.
  destruct (df_scored st) as [df |]; [| discriminate].
  destruct (flagged df) as [fl | e] eqn:E; cbn [mbind res_bind]; [| discriminate].
  cbv zeta. fold (report_month now month). cbn [mret res_ret].
  intros [= <- <-]. exists df, fl. eexists.
  split; [reflexivity |]. split; [exact E |]. split; [reflexivity |].
  split; [reflexivity |].
  cbn [summary_month generated_at total_flagged resolved unresolved by_regulator
         by_category].
  rewrite with_resolved_length.
  repeat split.
Qed.

(** A generation returns whenever the batch is loaded and can be
    filtered, whatever becomes of its writes. *)
Lemma generate_monthly_report_returns (now : Z) (month : option string) (st : Store)
    (d : Disk) (df fl : DataFrame) :
  df_scored st = Some df -> flagged df = Ok fl ->
  exists out d', generate_monthly_report now month st d = Ok (out, d').
Proof.
  intros Hdf Hfl. unfold generate_monthly_report. rewrite Hdf, Hfl.
  cbn [mbind res_bind]. cbv zeta. cbn [mret res_ret]. eauto.
Qed.

(** A generation fails before it writes. *)
Lemma generate_monthly_report_fails (now : Z) (month : option string) (st : Store)
    (d : Disk) (e : pyexn) :
  generate_monthly_report now month st d = Raise e ->
  (df_scored st = None /\ e = RuntimeError)
  \/ (exists df, df_scored st = Some df /\ flagged df = Raise e).
Proof.
  unfold generate_monthly_report.
  destruct (df_scored st) as [df |]; [| intros [= <-]; left; split; reflexivity].
  destruct (flagged df) as [fl | e'] eqn:E; cbn [mbind res_bind]; [discriminate |].
  intros [= <-]. right. eauto.
Qed.

(** What a request that generates has done. *)
Lemma reports_generate_inv (now : Z) (month : option string) (st : Store) (d : Disk)
    (p q : string) (s : Summary) :
  (reports_generate now month st d).1 = ReportGenerated p q s ->
  monthly_report_exists (default (month_key now) month) (purged now d) = false
  /\ generate_monthly_report now (Some (default (month_key now) month)) st (purged now d)
     = Ok (ReportGenerated p q s, (reports_generate now month st d).2).
Proof.
  unfold reports_generate. cbv zeta.
  destruct (monthly_report_exists _ _); [discriminate |].
  destruct (generate_monthly_report _ _ _ _) as [[o f] | e]; cbn [fst snd];
    [| discriminate].
  intros ->. split; reflexivity.
Qed.

Lemma stale_old (now : Z) (d : Disk) (path : string) (f : File) :
  disk_lookup d path = Some f -> stale now d path = true ->
  (mtime f < now - REPORT_RETENTION_DAYS * microseconds_per_day)%Z.
Proof.
  unfold disk_lookup, stale, file_at.
  destruct (place_of path) as [name | p]; [| discriminate].
  intros ->. intros H. apply andb_true_iff in H as [_ H]. apply Z.ltb_lt, H.
Qed.

Lemma fresh_not_stale (now : Z) (d : Disk) (path : string) (f : File) :
  disk_lookup d path = Some f ->
  (now - REPORT_RETENTION_DAYS * microseconds_per_day <= mtime f)%Z ->
  stale now d path = false.
Proof.
  unfold disk_lookup, stale, file_at.
  destruct (place_of path) as [name | p]; [| reflexivity].
  intros -> H. apply Z.ltb_ge in H. rewrite H. apply andb_false_r.
Qed.

(** The disk after a request that does not find the pair. *)
Lemma reports_generate_missing (now : Z) (month : option string) (st : Store) (d : Disk) :
  monthly_report_exists (default (month_key now) month) (purged now d) = false ->
  let m := report_month now (Some (default (month_key now) month)) in
  (exists e, reports_generate now month st d = (ReportFailed e, purged now d)
             /\ generate_monthly_report now (Some (default (month_key now) month)) st
                  (purged now d) = Raise e)
  \/ (exists df fl summary,
        df_scored st = Some df /\ flagged df = Ok fl
        /\ reports_generate now month st d
           = (ReportGenerated (m +:+ ".csv") (m +:+ ".json") summary,
              disk_write now (m +:+ ".json") (json_dump summary)
                (disk_write now (m +:+ ".csv")
                   (to_csv (with_resolved (resolved_alerts st) fl)) (purged now d)))).
Proof.
  intros Hex m. unfold reports_generate. cbv zeta. rewrite Hex.
  destruct (generate_monthly_report now (Some (default (month_key now) month)) st
              (purged now d)) as [[o d'] | e] eqn:Hg.
  - right. destruct (generate_monthly_report_inv _ _ _ _ _ _ Hg)
      as (df & fl & s & Hdf & Hfl & -> & -> & _).
    exists df, fl, s. split; [exact Hdf |]. split; [exact Hfl |]. reflexivity.
  - left. exists e. split; reflexivity.
Qed.

(** C8. A request to generate the report of a month whose two artifacts
    exist answers "exists", leaves both files as they are and writes
    nothing, provided the purge that the request starts with removes
    neither file; the purge removes the files listed in the reports
    directory that are named as report files and were last written more
    than 365 days ago. A pair that the month name leads to outside the
    reports directory is not listed there, so it is answered "exists"
    however old it is. When the purge removes a file of the pair, the
    request does not answer "exists" and the old file is gone: the request
    fails when the batch is not loaded, and otherwise generates the report
    anew, writing each artifact where its write succeeds. Whenever a
    request does generate, the pair did not exist for that month once the
    stale files had been purged. [stale] tells which files the purge
    removes. *)
Theorem reports_generate_existing (now : Z) (month : string) (st : Store) (d : Disk)
    (f_csv f_json : File) :
  disk_lookup d (month +:+ ".csv") = Some f_csv ->
  disk_lookup d (month +:+ ".json") = Some f_json ->
  let out := reports_generate now (Some month) st d in
  (stale now d (month +:+ ".csv") = false ->
   stale now d (month +:+ ".json") = false ->
   out.1 = ReportExists month
   /\ disk_lookup out.2 (month +:+ ".csv") = Some f_csv
   /\ disk_lookup out.2 (month +:+ ".json") = Some f_json
   /\ out.2 = purged now d)
  /\ ((now - REPORT_RETENTION_DAYS * microseconds_per_day <= mtime f_csv)%Z ->
      (now - REPORT_RETENTION_DAYS * microseconds_per_day <= mtime f_json)%Z ->
      stale now d (month +:+ ".csv") = false /\ stale now d (month +:+ ".json") = false)
  /\ ((exists p q,
         place_of (month +:+ ".csv") = Elsewhere p
         /\ place_of (month +:+ ".json") = Elsewhere q) ->
      out = (ReportExists month, purged now d)
      /\ disk_lookup out.2 (month +:+ ".csv") = Some f_csv
      /\ disk_lookup out.2 (month +:+ ".json") = Some f_json)
  /\ (stale now d (month +:+ ".csv") = true \/ stale now d (month +:+ ".json") = true ->
      monthly_report_exists month (purged now d) = false
      /\ (forall m, out.1 <> ReportExists m)
      /\ (stale now d (month +:+ ".csv") = true ->
          (mtime f_csv < now)%Z
          /\ forall f, disk_lookup out.2 (month +:+ ".csv") = Some f -> mtime f = now)
      /\ (stale now d (month +:+ ".json") = true ->
          (mtime f_json < now)%Z
          /\ forall f, disk_lookup out.2 (month +:+ ".json") = Some f -> mtime f = now)
      /\ (df_scored st = None -> out = (ReportFailed RuntimeError, purged now d))
      /\ (forall df fl,
            df_scored st = Some df -> flagged df = Ok fl ->
            let csv_path := report_month now (Some month) +:+ ".csv" in
            let json_path := report_month now (Some month) +:+ ".json" in
            exists summary,
              out.1 = ReportGenerated csv_path json_path summary
              /\ (write_result now json_path (json_dump summary) = Written ->
                  disk_lookup out.2 json_path
                  = Some {| content := json_dump summary; mtime := now |})
              /\ (write_result now csv_path (to_csv (with_resolved (resolved_alerts st) fl))
                  = Written ->
                  place_of csv_path <> place_of json_path ->
                  disk_lookup out.2 csv_path
                  = Some {| content := to_csv (with_resolved (resolved_alerts st) fl);
                            mtime := now |})))
  /\ (forall now' month' st' d' csv_path json_path summary,
        (reports_generate now' (Some month') st' d').1
        = ReportGenerated csv_path json_path summary ->
        monthly_report_exists month' (purged now' d') = false)
  /\ (forall path,
        disk_lookup (purged now d) path
        = if stale now d path then None else disk_lookup d path).
Proof.
  intros Hc Hj out.
  assert (Hkeep : stale now d (month +:+ ".csv") = false ->
                  stale now d (month +:+ ".json") = false ->
                  out = (ReportExists month, purged now d)
                  /\ disk_lookup (purged now d) (month +:+ ".csv") = Some f_csv
                  /\ disk_lookup (purged now d) (month +:+ ".json") = Some f_json).
  { intros Sc Sj.
    assert (Pc : disk_lookup (purged now d) (month +:+ ".csv") = Some f_csv)
      by (rewrite purged_lookup, Sc; exact Hc).
    assert (Pj : disk_lookup (purged now d) (month +:+ ".json") = Some f_json)
      by (rewrite purged_lookup, Sj; exact Hj).
    split; [| split; [exact Pc | exact Pj]].
    unfold out, reports_generate.
    change (default (month_key now) (Some month)) with month. cbv zeta.
    unfold monthly_report_exists. rewrite Pc, Pj.
    rewrite !bool_decide_eq_true_2 by eauto. reflexivity. }
  assert (Hgone : stale now d (month +:+ ".csv") = true
                  \/ stale now d (month +:+ ".json") = true ->
                  monthly_report_exists month (purged now d) = false).
  { intros Hs. unfold monthly_report_exists. rewrite !purged_lookup.
    destruct Hs as [-> | ->].
    - rewrite bool_decide_eq_false_2; [reflexivity |]. intros [x Hx]. discriminate.
    - rewrite (bool_decide_eq_false_2 (is_Some None)), andb_false_r; [reflexivity |].
      intros [x Hx]. discriminate. }
  assert (Hinv : forall now' month' st' d' p q s,
            (reports_generate now' (Some month') st' d').1 = ReportGenerated p q s ->
            monthly_report_exists month' (purged now' d') = false).
  { intros now' month' st' d' p q s H.
    exact (proj1 (reports_generate_inv now' (Some month') st' d' p q s H)). }
  split; [| split; [| split; [| split; [| split]]]].
  - intros Sc Sj. destruct (Hkeep Sc Sj) as (Ho & Pc & Pj).
    rewrite Ho. cbn [fst snd]. repeat split; assumption.
  - intros Mc Mj.
    split; [exact (fresh_not_stale now d _ f_csv Hc Mc)
           | exact (fresh_not_stale now d _ f_json Hj Mj)].
  - intros (p & q & Ep & Eq).
    assert (Sc : stale now d (month +:+ ".csv") = false) by (unfold stale; rewrite Ep; reflexivity).
    assert (Sj : stale now d (month +:+ ".json") = false) by (unfold stale; rewrite Eq; reflexivity).
    destruct (Hkeep Sc Sj) as (Ho & Pc & Pj).
    rewrite Ho. cbn [fst snd]. repeat split; assumption.
  - intros Hs. pose proof (Hgone Hs) as Hex.
    pose proof (reports_generate_missing now (Some month) st d) as Hm.
    change (default (month_key now) (Some month)) with month in Hm.
    specialize (Hm Hex). cbv zeta in Hm. fold out in Hm.
    assert (Hdated : forall path,
              stale now d path = true ->
              forall f, disk_lookup out.2 path = Some f -> mtime f = now).
    { intros path Sp f.
      assert (Hp : disk_lookup (purged now d) path = None)
        by (rewrite purged_lookup, Sp; reflexivity).
      destruct Hm as [(e & -> & _) | (df & fl & s & _ & _ & ->)]; cbn [snd].
      - rewrite Hp. discriminate.
      - match goal with
        | |- disk_lookup (disk_write now ?jp ?tj (disk_write now ?cp ?tc _)) _ = _ -> _ =>
            destruct (disk_write_lookup_cases now jp path tj
                        (disk_write now cp tc (purged now d))) as [-> | [part ->]];
            [destruct (disk_write_lookup_cases now cp path tc (purged now d))
               as [-> | [part ->]] |]
        end.
        + rewrite Hp. discriminate.
        + intros [= <-]. reflexivity.
        + intros [= <-]. reflexivity. }
    assert (Hlt : forall path f,
              disk_lookup d path = Some f -> stale now d path = true -> (mtime f < now)%Z).
    { intros path f Hf Sp. pose proof (stale_old now d path f Hf Sp) as H.
      unfold REPORT_RETENTION_DAYS, microseconds_per_day in H. lia. }
    split; [exact Hex |].
    split.
    { intros m. destruct Hm as [(e & -> & _) | (df & fl & s & _ & _ & ->)];
        cbn [fst]; discriminate. }
    split; [intros Sc; split; [exact (Hlt _ _ Hc Sc) | exact (Hdated _ Sc)] |].
    split; [intros Sj; split; [exact (Hlt _ _ Hj Sj) | exact (Hdated _ Sj)] |].
    split.
    { intros Hnone. destruct Hm as [(e & -> & Hg) | (df & fl & s & Hdf & _)];
        [| congruence].
      apply generate_monthly_report_fails in Hg as [[_ ->] | (df & Hdf & _)];
        [reflexivity | congruence]. }
    intros df fl Hdf Hfl. cbv zeta.
    destruct Hm as [(e & _ & Hg) | (df' & fl' & s & Hdf' & Hfl' & ->)].
    { exfalso. apply generate_monthly_report_fails in Hg as [[Hn _] | (df' & Hdf' & Hr)];
        congruence. }
    assert (df' = df) by congruence. subst df'.
    assert (fl' = fl) by congruence. subst fl'.
    exists s. cbn [fst snd]. split; [reflexivity |].
    split.
    + intros Hw. rewrite disk_write_lookup_same by reflexivity. rewrite Hw. reflexivity.
    + intros Hw Hne. rewrite disk_write_lookup_other by exact Hne.
      rewrite disk_write_lookup_same by reflexivity. rewrite Hw. reflexivity.
  - exact Hinv.
  - intros path. apply purged_lookup.
Qed.

End ReportFacts.

(** C8, on a pair of artifacts written a day before the request. *)
Lemma reports_generate_existing_witness :
  disk_lookup (FS := flat_disk) fresh_reports ("2020-01" +:+ ".csv")
  = Some (file "extract" (days 399))
  /\ disk_lookup (FS := flat_disk) fresh_reports ("2020-01" +:+ ".json")
     = Some (file "summary" (days 399))
  /\ stale (FS := flat_disk) (days 400) fresh_reports ("2020-01" +:+ ".csv") = false
  /\ stale (FS := flat_disk) (days 400) fresh_reports ("2020-01" +:+ ".json") = false
  /\ (reports_generate (Lib := whole_lib) (Clock := count_clock) (Ser := plain_serializer)
        (FS := flat_disk) (days 400) (Some "2020-01") store_sample fresh_reports).1
     = ReportExists "2020-01"
  /\ disk_lookup (FS := flat_disk)
       (reports_generate (Lib := whole_lib) (Clock := count_clock)
          (Ser := plain_serializer) (FS := flat_disk) (days 400) (Some "2020-01")
          store_sample fresh_reports).2 ("2020-01" +:+ ".csv")
     = Some (file "extract" (days 399)).
Proof.
  assert (H1 : disk_lookup (FS := flat_disk) fresh_reports ("2020-01" +:+ ".csv")
               = Some (file "extract" (days 399))) by reflexivity.
  assert (H2 : disk_lookup (FS := flat_disk) fresh_reports ("2020-01" +:+ ".json")
               = Some (file "summary" (days 399))) by reflexivity.
  assert (S1 : stale (FS := flat_disk) (days 400) fresh_reports ("2020-01" +:+ ".csv")
               = false) by reflexivity.
  assert (S2 : stale (FS := flat_disk) (days 400) fresh_reports ("2020-01" +:+ ".json")
               = false) by reflexivity.
  split; [exact H1 |]. split; [exact H2 |]. split; [exact S1 |]. split; [exact S2 |].
  destruct (reports_generate_existing (Lib := whole_lib) (Clock := count_clock)
              (Ser := plain_serializer) (FS := flat_disk) (days 400) "2020-01"
              store_sample fresh_reports _ _ H1 H2) as (R & _).
  destruct (R S1 S2) as (R1 & R2 & _).
  split; [exact R1 | exact R2].
Defined.

(** C8 as stated fails: a pair of artifacts older than the retention
    horizon exists, yet the request purges and regenerates it. *)
Lemma stale_report_is_regenerated :
  monthly_report_exists (FS := flat_disk) "2020-01" old_reports = true
  /\ (exists summary,
        (reports_generate (Lib := whole_lib) (Clock := count_clock)
           (Ser := plain_serializer) (FS := flat_disk) (days 400) (Some "2020-01")
           store_sample old_reports).1
        = ReportGenerated "2020-01.csv" "2020-01.json" summary)
  /\ disk_lookup (FS := flat_disk) old_reports "2020-01.csv" = Some (file "old extract" 0)
  /\ disk_lookup (FS := flat_disk)
       (reports_generate (Lib := whole_lib) (Clock := count_clock)
          (Ser := plain_serializer) (FS := flat_disk) (days 400) (Some "2020-01")
          store_sample old_reports).2 "2020-01.csv"
     = Some (file "transaction_id,is_suspicious,resolved" (days 400)).
Proof.
  split; [reflexivity |].
  split; [eexists; vm_compute; reflexivity |].
  split; reflexivity.
Qed.

(** A pair as old, reached through a month name that leads out of the
    reports directory, is not purged: the request answers "exists". *)
Lemma outside_report_is_kept :
  disk_lookup (FS := flat_disk) outside_reports ("../x" +:+ ".csv")
  = Some (file "old extract" 0)
  /\ reports_generate (Lib := whole_lib) (Clock := count_clock)
       (Ser := plain_serializer) (FS := flat_disk) (days 400) (Some "../x")
       store_sample outside_reports
     = (ReportExists "../x", outside_reports).
Proof. split; reflexivity. Qed.

(** ** Only the first hundred rows are served *)

Lemma suffix_x_not_id (k : string) : k +:+ "_x" <> "transaction_id".
Proof.
  intros H.
  repeat (destruct k as [| ? k]; cbn in H;
          [discriminate H | first [discriminate H | injection H as _ H]]).
Qed.

Lemma suffix_y_not_id (k : string) : k +:+ "_y" <> "transaction_id".
Proof.
  intros H.
  repeat (destruct k as [| ? k]; cbn in H;
          [discriminate H | first [discriminate H | injection H as _ H]]).
Qed.

Lemma suffixed_key (others : list string) (suffix : string) :
  suffixed others "transaction_id" suffix "transaction_id" = "transaction_id".
Proof.
  unfold suffixed. rewrite bool_decide_eq_false_2; [reflexivity | tauto].
Qed.

Lemma suffixed_x_other (others : list string) (k : string) :
  k <> "transaction_id" -> suffixed others "transaction_id" "_x" k <> "transaction_id".
Proof.
  intros Hk. unfold suffixed. destruct (bool_decide _); [apply suffix_x_not_id | exact Hk].
Qed.

Lemma suffixed_y_other (others : list string) (k : string) :
  k <> "transaction_id" -> suffixed others "transaction_id" "_y" k <> "transaction_id".
Proof.
  intros Hk. unfold suffixed. destruct (bool_decide _); [apply suffix_y_not_id | exact Hk].
Qed.

(** Renaming the columns of a row keeps the cell under a name that is
    left alone and that no other name is sent to. *)
Lemma rename_row_lookup (f : string -> string) (m : Row) (key : string) :
  f key = key -> (forall k, k <> key -> f k <> key) ->
  rename_row f m !! key = m !! key.
Proof.
  intros Hkey Hother. unfold rename_row.
  destruct (list_to_map _ !! key) as [v |] eqn:E.
  - apply elem_of_list_to_map_2 in E.
    apply list_elem_of_In, in_map_iff in E as ([k w] & Hkw & Hin).
    cbn [fst snd] in Hkw. injection Hkw as Hk ->.
    apply list_elem_of_In, elem_of_map_to_list in Hin.
    destruct (decide (k = key)) as [-> | Hne]; [symmetry; exact Hin |].
    exfalso. exact (Hother k Hne Hk).
  - apply not_elem_of_list_to_map_2 in E.
    destruct (m !! key) as [v |] eqn:Em; [| reflexivity].
    exfalso. apply E. apply list_elem_of_fmap.
    exists (key, v). split; [reflexivity |].
    apply list_elem_of_In, in_map_iff. exists (key, v).
    split; [cbn; rewrite Hkey; reflexivity |].
    apply list_elem_of_In, elem_of_map_to_list. exact Em.
Qed.

Lemma cells_lookup (g : string -> pyval) (cs : list string) (k : string) :
  k ∈ cs -> (list_to_map (map (fun c => (c, g c)) cs) : Row) !! k = Some (g k).
Proof.
  induction cs as [| c cs IH]; intros Hk; [apply elem_of_nil in Hk; contradiction |].
  cbn [map list_to_map foldr]. destruct (decide (c = k)) as [-> | Hne].
  - apply lookup_insert_eq.
  - rewrite lookup_insert_ne by exact Hne. apply IH.
    apply elem_of_cons in Hk as [-> | Hk]; [contradiction | exact Hk].
Qed.

Lemma merge_left_stems (left right df : DataFrame) :
  merge_left left right "transaction_id" = Ok df -> stems_from (rows left) df.
Proof.
  unfold merge_left.
  destruct (bool_decide ("transaction_id" ∈ columns left)) eqn:Hl; [| discriminate].
  destruct (bool_decide ("transaction_id" ∈ columns right)); [| discriminate].
  cbn [andb]. intros [= <-]. apply bool_decide_eq_true in Hl.
  split; cbn [columns rows].
  - apply elem_of_app. left. apply list_elem_of_In, in_map_iff.
    exists "transaction_id". split; [apply suffixed_key | apply list_elem_of_In, Hl].
  - intros r Hr. apply list_elem_of_In, in_concat in Hr as (group & Hg & Hr).
    apply in_map_iff in Hg as (l & <- & Hlin).
    exists l. split; [apply list_elem_of_In, Hlin |].
    assert (Hx : rename_row (suffixed (columns right) "transaction_id" "_x") l
                 !! "transaction_id" = l !! "transaction_id").
    { apply rename_row_lookup; [apply suffixed_key | apply suffixed_x_other]. }
    assert (Hu : forall r' : Row,
               (rename_row (suffixed (columns right) "transaction_id" "_x") l
                ∪ rename_row (suffixed (columns left) "transaction_id" "_y")
                    (delete "transaction_id" r')) !! "transaction_id"
               = l !! "transaction_id").
    { intros r'. destruct (l !! "transaction_id") as [v |] eqn:El.
      - apply lookup_union_Some_l. exact Hx.
      - rewrite lookup_union_r by exact Hx.
        rewrite rename_row_lookup;
          [| apply suffixed_key | apply suffixed_y_other].
        apply lookup_delete_eq. }
    unfold id_cell, cell.
    destruct (filter _ (rows right)) as [| m ms].
    + apply list_elem_of_In, list_elem_of_singleton in Hr. subst r.
      rewrite Hx. reflexivity.
    + destruct Hr as [<- | Hr]; [| apply in_map_iff in Hr as (r' & <- & _)];
        rewrite Hu; reflexivity.
Qed.

Lemma ensure_column_stems (ls : list Row) (df : DataFrame) (col : string) :
  col <> "transaction_id" -> stems_from ls df -> stems_from ls (ensure_column df col).
Proof.
  intros Hne [Hc Hr]. unfold ensure_column.
  destruct (bool_decide (col ∈ columns df)); [split; assumption |].
  split; cbn [columns rows].
  - apply elem_of_app. left. exact Hc.
  - intros r Hin. apply list_elem_of_In, in_map_iff in Hin as (r0 & <- & Hin).
    destruct (Hr r0 (proj2 (list_elem_of_In _ _) Hin)) as (l & Hl & E).
    exists l. split; [exact Hl |].
    unfold id_cell, cell in *. rewrite lookup_insert_ne by exact Hne. exact E.
Qed.

Lemma select_stems (ls : list Row) (df df' : DataFrame) (name : string)
    (p : pyval -> bool) :
  select df name p = Ok df' -> stems_from ls df -> stems_from ls df'.
Proof.
  unfold select. destruct (bool_decide (name ∈ columns df)); [| discriminate].
  intros [= <-] [Hc Hr]. split; [exact Hc |].
  cbn [rows]. intros r Hin. apply list_elem_of_filter in Hin as [_ Hin].
  apply Hr, Hin.
Qed.

Lemma step_stems (ls : list Row) (df df' : DataFrame) (A : Type) (o : option A)
    (name : A -> string) (p : A -> pyval -> bool) :
  match o with
  | Some x => select df (name x) (p x)
  | None => mret df
  end = Ok df' ->
  stems_from ls df -> stems_from ls df'.
Proof.
  destruct o as [x |]; [apply select_stems |].
  intros [= <-]. tauto.
Qed.

Section Served.

Context `{Lib : PyLib} `{Clock : TimeText}.

Lemma expected_columns_stems (ls : list Row) (df : DataFrame) :
  stems_from ls df -> stems_from ls (foldl ensure_column df expected_columns).
Proof.
  intros H. unfold expected_columns. cbn [foldl].
  repeat (apply ensure_column_stems; [discriminate |]).
  exact H.
Qed.

(** Loading succeeds on a file that has the id column and a row, and
    every row of the scored frame then stems from the first hundred. *)
Lemma load_and_score_stems (csv : DataFrame) (st0 : Store) :
  "transaction_id" ∈ columns csv ->
  rows csv <> [] ->
  exists st scored results,
    load_and_score (Ok csv) st0 = Ok st
    /\ df_raw st = Some {| columns := columns csv; rows := take 100 (rows csv) |}
    /\ df_scored st = Some scored
    /\ resolved_alerts st = resolved_alerts st0
    /\ process_dataframe (init 95)
         {| columns := columns csv; rows := take 100 (rows csv) |}
       = Ok (calculate_high_amount_threshold (init 95)
               {| columns := columns csv; rows := take 100 (rows csv) |}, results)
    /\ length results = length (take 100 (rows csv))
    /\ stems_from (take 100 (rows csv)) scored.
Proof.
  intros Hcol Hrows.
  set (raw := {| columns := columns csv; rows := take 100 (rows csv) |}).
  destruct (score_rows_total (calculate_high_amount_threshold (init 95) raw) (rows raw))
    as (results & E & F).
  assert (Hp : process_dataframe (init 95) raw
               = Ok (calculate_high_amount_threshold (init 95) raw, results)).
  { unfold process_dataframe. rewrite E. reflexivity. }
  assert (Hres : results <> []).
  { intros ->. apply Forall2_nil_inv_r in F. cbn [rows raw] in F.
    destruct (rows csv); [congruence | discriminate F]. }
  destruct (merge_left raw (results_frame results) "transaction_id") as [df | e] eqn:M.
  - exists {| df_raw := Some raw;
              df_scored := Some (foldl ensure_column df expected_columns);
              agent := Some (calculate_high_amount_threshold (init 95) raw);
              resolved_alerts := resolved_alerts st0 |},
      (foldl ensure_column df expected_columns), results.
    split.
    { unfold load_and_score. cbn [mbind res_bind]. fold raw. rewrite Hp.
      cbn [mbind res_bind].
      rewrite M. reflexivity. }
    split; [reflexivity |]. split; [reflexivity |]. split; [reflexivity |].
    split; [exact Hp |].
    split; [symmetry; exact (Forall2_length _ _ _ F) |].
    apply expected_columns_stems. exact (merge_left_stems _ _ _ M).
  - exfalso. unfold merge_left in M.
    rewrite (bool_decide_eq_true_2 ("transaction_id" ∈ columns raw)) in M by exact Hcol.
    destruct results as [| r results]; [congruence |].
    cbn [results_frame columns andb] in M.
    rewrite (bool_decide_eq_true_2 ("transaction_id" ∈ result_columns)) in M
      by (apply elem_of_cons; left; reflexivity).
    discriminate M.
Qed.

(** No record of a query carries an id that no row of the scored frame's
    sources carries. *)
Lemma get_flags_stems (ls : list Row) (scored : DataFrame) (now : Z) (q : FlagQuery)
    (st : Store) (records : list Row) :
  df_scored st = Some scored ->
  stems_from ls scored ->
  (get_flags now q st).1 = FlagsRecords records ->
  forall rec, rec ∈ records ->
    exists l, l ∈ ls /\ get rec "transaction_id" = id_cell l.
Proof.
  intros Hdf Hst. unfold get_flags. rewrite Hdf. cbv zeta.
  set (resolved := resolved_alerts (purge_old_resolved_alerts now st)).
  clearbody resolved.
  destruct (flagged scored) as [d0 | e0] eqn:E0; cbn [mbind res_bind];
    [| intros; discriminate].
  apply (select_stems ls) in E0; [| exact Hst].
  destruct (match given (q_transaction_id q) with
            | Some t => select d0 "transaction_id" (fun v => str_eqb (py_str v) t)
            | None => mret d0
            end) as [d1 | e1] eqn:E1; cbn [mbind res_bind]; [| intros; discriminate].
  apply (step_stems ls d0 d1 string _ (fun _ => "transaction_id")
           (fun t v => str_eqb (py_str v) t)) in E1; [| exact E0].
  destruct (match given (q_customer_id q) with
            | Some c => select d1 "customer_id" (fun v => str_eqb (py_str v) c)
            | None => mret d1
            end) as [d2 | e2] eqn:E2; cbn [mbind res_bind]; [| intros; discriminate].
  apply (step_stems ls d1 d2 string _ (fun _ => "customer_id")
           (fun c v => str_eqb (py_str v) c)) in E2; [| exact E1].
  destruct (match given (q_customer_ids q) with
            | Some cs =>
                if (0 <? length (id_list cs))%nat
                then select d2 "customer_id"
                       (fun v => bool_decide (py_str v ∈ id_list cs))
                else mret d2
            | None => mret d2
            end) as [d3 | e3] eqn:E3; cbn [mbind res_bind]; [| intros; discriminate].
  assert (H3 : stems_from ls d3).
  { destruct (given (q_customer_ids q)) as [cs |].
    - destruct (0 <? length (id_list cs))%nat.
      + exact (select_stems ls _ _ _ _ E3 E2).
      + injection E3 as <-. exact E2.
    - injection E3 as <-. exact E2. }
  clear E3.
  destruct (match given (q_regulator q) with
            | Some x =>
                select d3 "regulator" (fun v => str_eqb (lower (py_str v)) (lower x))
            | None => mret d3
            end) as [d4 | e4] eqn:E4; cbn [mbind res_bind]; [| intros; discriminate].
  apply (step_stems ls d3 d4 string _ (fun _ => "regulator")
           (fun x v => str_eqb (lower (py_str v)) (lower x))) in E4; [| exact H3].
  destruct (match given (q_booking_jurisdiction q) with
            | Some x =>
                select d4 "booking_jurisdiction"
                  (fun v => str_eqb (lower (py_str v)) (lower x))
            | None => mret d4
            end) as [d5 | e5] eqn:E5; cbn [mbind res_bind]; [| intros; discriminate].
  apply (step_stems ls d4 d5 string _ (fun _ => "booking_jurisdiction")
           (fun x v => str_eqb (lower (py_str v)) (lower x))) in E5; [| exact E4].
  destruct (match q_resolved q with
            | Some true =>
                select d5 "transaction_id"
                  (fun v => bool_decide (is_Some (resolved !! py_str v)))
            | Some false =>
                select d5 "transaction_id"
                  (fun v => negb (bool_decide (is_Some (resolved !! py_str v))))
            | None => mret d5
            end) as [d6 | e6] eqn:E6; cbn [mbind res_bind]; [| intros; discriminate].
  assert (H6 : stems_from ls d6).
  { destruct (q_resolved q) as [[|] |].
    - exact (select_stems ls _ _ _ _ E6 E5).
    - exact (select_stems ls _ _ _ _ E6 E5).
    - injection E6 as <-. exact E5. }
  clear E6. destruct H6 as [Hc Hr].
  cbn [mret res_ret fst]. intros [= <-] rec Hrec.
  apply list_elem_of_In, in_map_iff in Hrec as (r & <- & Hin).
  apply list_elem_of_In, elem_of_take in Hin as (i & Hi & _).
  assert (Hrin : r ∈ rows d6) by (apply list_elem_of_lookup; eauto).
  destruct (Hr r Hrin) as (l & Hl & Hid).
  exists l. split; [exact Hl |].
  unfold flag_record, get. cbv zeta.
  rewrite lookup_insert_ne by discriminate.
  rewrite cells_lookup; [exact Hid |].
  apply list_elem_of_filter. split; [exact Hc |].
  apply elem_of_cons. left. reflexivity.
Qed.

(** C10. The service scores and serves the first hundred rows of the
    file only. A transaction beyond row 100 whose id is not also the id of
    one of the first hundred rows names no alert: resolving its id answers
    NotFound and changes nothing, and no record of any query carries its
    id. *)
Theorem only_first_hundred_served (csv : DataFrame) (st0 : Store) (i : nat) (late : Row) :
  "transaction_id" ∈ columns csv ->
  rows csv !! i = Some late ->
  (100 <= i)%nat ->
  (forall l, l ∈ take 100 (rows csv) -> py_str (id_cell l) <> py_str (id_cell late)) ->
  exists st scored results,
    load_and_score (Ok csv) st0 = Ok st
    /\ df_raw st = Some {| columns := columns csv; rows := take 100 (rows csv) |}
    /\ df_scored st = Some scored
    /\ process_dataframe (init 95)
         {| columns := columns csv; rows := take 100 (rows csv) |}
       = Ok (calculate_high_amount_threshold (init 95)
               {| columns := columns csv; rows := take 100 (rows csv) |}, results)
    /\ length results = 100%nat
    /\ stems_from (take 100 (rows csv)) scored
    /\ ~ is_alert scored (py_str (id_cell late))
    /\ (forall now note st',
          df_scored st' = Some scored ->
          exists detail,
            resolve_alert now (py_str (id_cell late)) note st' = (NotFound detail, st'))
    /\ (forall now q st' records,
          df_scored st' = Some scored ->
          (get_flags now q st').1 = FlagsRecords records ->
          forall rec, rec ∈ records ->
            py_str (get rec "transaction_id") <> py_str (id_cell late)).
Proof.
  intros Hcol Hlate Hi Hfresh.
  assert (Hlen : (100 < length (rows csv))%nat).
  { apply lookup_lt_Some in Hlate. lia. }
  destruct (load_and_score_stems csv st0 Hcol) as (st & scored & results & H).
  { intros E. rewrite E in Hlen. cbn in Hlen. lia. }
  destruct H as (Hload & Hraw & Hsc & _ & Hp & Hn & Hst).
  exists st, scored, results.
  split; [exact Hload |]. split; [exact Hraw |]. split; [exact Hsc |].
  split; [exact Hp |].
  split; [rewrite Hn, length_take; lia |].
  split; [exact Hst |].
  assert (Hnot : ~ is_alert scored (py_str (id_cell late))).
  { intros (_ & _ & r & Hr & _ & Hid).
    destruct Hst as [_ Hrows]. destruct (Hrows r Hr) as (l & Hl & E).
    apply (Hfresh l Hl). unfold id_cell in *. rewrite <- E. exact Hid. }
  split; [exact Hnot |].
  split.
  - intros now note st' Hdf.
    eexists. exact (resolve_alert_missing now _ note st' scored Hdf Hnot).
  - intros now q st' records Hdf Hq rec Hrec.
    destruct (get_flags_stems _ _ now q st' records Hdf Hst Hq rec Hrec)
      as (l & Hl & E).
    rewrite E. apply Hfresh, Hl.
Qed.

End Served.


(** C10, on a file of 101 rows whose last row has an id of its own. *)
Lemma only_first_hundred_served_witness :
  "transaction_id" ∈ columns fresh_file
  /\ rows fresh_file !! 100%nat = Some (customer_row 999 true)
  /\ (100 <= 100)%nat
  /\ (forall l, l ∈ take 100 (rows fresh_file) ->
        py_str (Lib := whole_lib) (id_cell l)
        <> py_str (Lib := whole_lib) (id_cell (customer_row 999 true)))
  /\ exists st scored,
       load_and_score (Lib := whole_lib) (Ok fresh_file) empty_store = Ok st
       /\ df_scored st = Some scored
       /\ ~ is_alert (Lib := whole_lib) scored
            (py_str (Lib := whole_lib) (id_cell (customer_row 999 true))).
Proof.
  assert (H1 : "transaction_id" ∈ columns fresh_file)
    by (apply elem_of_cons; left; reflexivity).
  assert (H2 : rows fresh_file !! 100%nat = Some (customer_row 999 true))
    by reflexivity.
  assert (H3 : (100 <= 100)%nat) by lia.
  assert (H4 : forall l, l ∈ take 100 (rows fresh_file) ->
                 py_str (Lib := whole_lib) (id_cell l)
                 <> py_str (Lib := whole_lib) (id_cell (customer_row 999 true))).
  { apply Forall_forall. apply (bool_decide_unpack _). vm_compute. exact I. }
  split; [exact H1 |]. split; [exact H2 |]. split; [exact H3 |]. split; [exact H4 |].
  destruct (only_first_hundred_served (Lib := whole_lib) (Clock := count_clock)
              fresh_file empty_store 100 (customer_row 999 true) H1 H2 H3 H4)
    as (st & scored & results & Hl & _ & Hs & _ & _ & _ & Hn & _).
  exists st, scored. split; [exact Hl |]. split; [exact Hs | exact Hn].
Defined.

(** C10 as stated fails when ids repeat: the row beyond the hundredth
    carries the id of the first row, and resolving that id succeeds. *)
Lemma repeated_id_is_resolved :
  rows long_file !! 100%nat = Some (customer_row 1 false)
  /\ py_str (Lib := whole_lib) (id_cell (customer_row 1 false)) = "1"
  /\ match load_and_score (Lib := whole_lib) (Ok long_file) empty_store with
     | Ok st =>
         (resolve_alert (Lib := whole_lib) (Clock := count_clock) 5 "1" None st).1
     | Raise _ => DataNotLoaded
     end = Resolved "1".
Proof.
  split; [reflexivity |]. split; [reflexivity |].
  vm_compute. reflexivity.
Qed.

(** * Further properties of the code *)

(** ** The evaluator *)

Lemma say_length (b : bool) (r : string) : length (say b r) = if b then 1%nat else 0%nat.
Proof. destruct b; reflexivity. Qed.

(** The rank of the category, in closed form, for every count. *)
Lemma classify_risk_rank (b : bool) (n : Z) :
  category_rank (classify_risk b n)
  = if b then 3%Z
    else if (n <=? 1)%Z then 0%Z
    else if (n =? 2)%Z then 1%Z
    else if (n <=? 4)%Z then 2%Z
    else 3%Z.
Proof.
  destruct b; [reflexivity |].
  destruct (Z.leb_spec 0 n) as [Hn | Hn].
  - rewrite (classify_risk_table n Hn).
    destruct (n <=? 1)%Z; [reflexivity |].
    destruct (n =? 2)%Z; [reflexivity |].
    destruct (n <=? 4)%Z; reflexivity.
  - unfold classify_risk.
    destruct (Z.eqb_spec n 0); [lia |]. destruct (Z.eqb_spec n 1); [lia |].
    destruct (Z.eqb_spec n 2); [lia |]. destruct (Z.leb_spec 3 n); [lia |].
    destruct (Z.leb_spec 5 n); [lia |]. destruct (Z.leb_spec n 1); [| lia].
    reflexivity.
Qed.

(** X3. More indicators, or a high-risk rule, never lower the category; a
    negative count has no category. *)
Theorem classify_risk_monotone (b b' : bool) (n m : Z) :
  (b = true -> b' = true) ->
  (n <= m)%Z ->
  (category_rank (classify_risk b n) <= category_rank (classify_risk b' m))%Z
  /\ (0 <= category_rank (classify_risk b n) <= 3)%Z
  /\ ((n < 0)%Z -> classify_risk false n = "").
Proof.
  intros Hb Hnm. rewrite !classify_risk_rank.
  split; [| split].
  - destruct b, b'; try (specialize (Hb eq_refl); discriminate);
      repeat match goal with
        | |- context [(?a <=? ?c)%Z] => destruct (Z.leb_spec a c)
        | |- context [(?a =? ?c)%Z] => destruct (Z.eqb_spec a c)
        end; lia.
  - destruct b;
      repeat match goal with
        | |- context [(?a <=? ?c)%Z] => destruct (Z.leb_spec a c)
        | |- context [(?a =? ?c)%Z] => destruct (Z.eqb_spec a c)
        end; lia.
  - intros Hneg. unfold classify_risk.
    destruct (Z.eqb_spec n 0); [lia |]. destruct (Z.eqb_spec n 1); [lia |].
    destruct (Z.eqb_spec n 2); [lia |]. destruct (Z.leb_spec 3 n); [lia |].
    destruct (Z.leb_spec 5 n); [lia |]. reflexivity.
Qed.

Lemma classify_risk_monotone_witness :
  (false = true -> true = true)
  /\ (2 <= 4)%Z
  /\ (category_rank (classify_risk false 2) <= category_rank (classify_risk true 4))%Z.
Proof.
  assert (H1 : false = true -> true = true) by (intros _; reflexivity).
  assert (H2 : (2 <= 4)%Z) by lia.
  split; [exact H1 |]. split; [exact H2 |].
  exact (proj1 (classify_risk_monotone false true 2 4 H1 H2)).
Defined.

Section EvaluatorMore.

Context `{Lib : PyLib}.

(** X1. The high-risk flag is raised exactly when a reason is given, and at
    most eight reasons are given. *)
Theorem high_risk_flag_iff_reason (self : AMLDetectionAgent) (row : Row) :
  exists flag reasons,
    check_high_risk_variables self row = Ok (flag, reasons)
    /\ (flag = true <-> reasons <> [])
    /\ (length reasons <= 8)%nat.
Proof.
  exists (any_high_risk self row), (high_risk_reasons self row).
  split; [apply check_high_risk_variables_rules |].
  unfold any_high_risk, high_risk_reasons.
  set (r5 := "Low risk profile customer with unusually high amount (" +:+ _).
  clearbody r5.
  destruct (hr_pep row), (hr_domiciliary_no_edd row), (hr_edd_gap row), (hr_no_sow row),
    (low_profile_high_amount self row), (hr_not_assessed row), (hr_mismatch row),
    (hr_cash_id row);
    cbn [say app orb length];
    (split; [split; [first [intros _; discriminate | intros; congruence]
                    | intros H; try reflexivity; exfalso; apply H; reflexivity]
            | lia]).
Qed.

(** The regulator rules exclude one another. *)
Lemma regulator_rules_exclusive (row : Row) :
  (Z_of_bool (sd_mas row) + Z_of_bool (sd_finma row) + Z_of_bool (sd_hkma row) <= 1)%Z.
Proof.
  unfold sd_mas, sd_finma, sd_hkma, str_eqb.
  destruct (decide (regulator_of row = "MAS")) as [E | E].
  - rewrite E.
    rewrite (bool_decide_eq_false_2 ("MAS" = "FINMA")) by discriminate.
    rewrite (bool_decide_eq_false_2 ("MAS" = "HKMA/SFC")) by discriminate.
    cbn [andb Z_of_bool].
    match goal with |- (Z_of_bool ?b + 0 + 0 <= 1)%Z => destruct b end; cbn; lia.
  - rewrite (bool_decide_eq_false_2 _ E). cbn [andb Z_of_bool].
    destruct (decide (regulator_of row = "FINMA")) as [F | F].
    + rewrite F.
      rewrite (bool_decide_eq_false_2 ("FINMA" = "HKMA/SFC")) by discriminate.
      cbn [andb Z_of_bool].
      match goal with |- (0 + Z_of_bool ?b + 0 <= 1)%Z => destruct b end; cbn; lia.
    + rewrite (bool_decide_eq_false_2 _ F). cbn [andb Z_of_bool].
      match goal with |- (0 + 0 + Z_of_bool ?b <= 1)%Z => destruct b end; cbn; lia.
Qed.

(** X2. The count of suspicious indicators is the number of reasons given,
    and is at most five: the regulator rule counts once at most. *)
Theorem suspicious_count_is_reasons (self : AMLDetectionAgent) (row : Row) :
  exists count reasons,
    check_suspicious_detection_variables self row = Ok (count, reasons)
    /\ count = Z.of_nat (length reasons)
    /\ (0 <= count <= 5)%Z.
Proof.
  exists (suspicious_count self row), (suspicious_reasons self row).
  split; [apply check_suspicious_detection_variables_rules |].
  pose proof (regulator_rules_exclusive row) as Hx.
  unfold suspicious_count, suspicious_reasons in *.
  rewrite !length_app, !say_length.
  destruct (sd_mas row), (sd_finma row), (sd_hkma row),
    (low_profile_high_amount self row), (sd_domiciliary row), (sd_risk_rating row),
    (sd_sanctions row); cbn [Z_of_bool] in *; split; lia.
Qed.

(** X4. [process_dataframe] returns one result per row, in the order of the
    rows and under the row's id; a result that reports a high-risk rule is
    suspicious and of the highest category, and the suspicious flag is 0
    or 1. *)
Theorem process_dataframe_row_by_row (self : AMLDetectionAgent) (df : DataFrame) :
  exists results,
    process_dataframe self df = Ok (calculate_high_amount_threshold self df, results)
    /\ length results = length (rows df)
    /\ forall i row,
         rows df !! i = Some row ->
         exists r,
           results !! i = Some r
           /\ transaction_id r = get_d row "transaction_id" (VStr "")
           /\ (is_suspicious r = 0%Z \/ is_suspicious r = 1%Z)
           /\ (high_risk_detected r = 1%Z ->
               risk_category r = "HIGH PRIORITY RISK" /\ is_suspicious r = 1%Z).
Proof.
  destruct (score_rows_total (calculate_high_amount_threshold self df) (rows df))
    as (results & E & F).
  exists results. split; [unfold process_dataframe; rewrite E; reflexivity |].
  split; [symmetry; exact (Forall2_length _ _ _ F) |].
  intros i row Hi.
  destruct (Forall2_lookup_l _ _ _ _ _ F Hi) as (r & Hr & Hs).
  exists r. split; [exact Hr |].
  rewrite score_row_rules in Hs. injection Hs as <-.
  cbn [transaction_id is_suspicious high_risk_detected risk_category].
  split; [reflexivity |].
  split.
  - destruct (str_truthy _); auto.
  - destruct (any_high_risk _ row); [| discriminate]. intros _. split; reflexivity.
Qed.

End EvaluatorMore.

(** ** The amount rules and the calibrator *)

Lemma get_delete_amount (row : Row) (k : string) :
  k <> "amount" -> delete "amount" row !! k = row !! k.
Proof. intros H. apply lookup_delete_ne. congruence. Qed.

Section CalibratorMore.

Context `{Lib : PyLib}.

(** X5. With a threshold that is unset or zero the amount rules are switched
    off: the result for a row does not depend on its amount. *)
Theorem no_threshold_no_amount_rule (self : AMLDetectionAgent) (row : Row) :
  (high_amount_threshold self = None
   \/ exists q, high_amount_threshold self = Some (Ffin q) /\ (q == 0)%Q) ->
  score_row self row = score_row self (delete "amount" row)
  /\ low_profile_high_amount self row = false.
Proof.
  intros Ht.
  assert (Hoff : threshold_truthy self = false).
  { unfold threshold_truthy. destruct Ht as [-> | (q & -> & Hq)]; [reflexivity |].
    cbn [float_truthy]. apply Qeq_bool_iff in Hq. rewrite Hq. reflexivity. }
  assert (Hlow : forall r, low_profile_high_amount self r = false).
  { intros r. unfold low_profile_high_amount. rewrite Hoff.
    destruct (amount_of r); [| reflexivity].
    destruct (str_eqb _ "low"); reflexivity. }
  split; [| apply Hlow].
  rewrite !score_row_rules.
  unfold any_high_risk, high_risk_reasons, suspicious_count, suspicious_reasons.
  rewrite !Hlow. cbn [say].
  unfold hr_pep, hr_domiciliary_no_edd, hr_edd_gap, hr_no_sow, hr_not_assessed,
    hr_mismatch, hr_cash_id, sd_mas, sd_finma, sd_hkma, sd_domiciliary, sd_risk_rating,
    sd_sanctions, regulator_of, field_upper, field_lower, get, get_d.
  rewrite !get_delete_amount by discriminate.
  reflexivity.
Qed.

(** X6. A percentile setting outside 0..100 makes the percentile call fail;
    the calibrator then falls back to the default threshold of 1,000,000
    whatever the amounts are. *)
Theorem percentile_out_of_range_falls_back (self : AMLDetectionAgent) (df : DataFrame) :
  (high_amount_threshold_percentile self < 0
   \/ 100 < high_amount_threshold_percentile self)%Q ->
  calculate_high_amount_threshold self df = set_threshold self (Ffin 1000000).
Proof.
  intros Hp. rewrite calculate_high_amount_threshold_spec.
  destruct (numeric_amounts df) as [| x a]; [reflexivity |].
  unfold np_percentile.
  replace (Qle_bool 0 (high_amount_threshold_percentile self)
           && Qle_bool (high_amount_threshold_percentile self) 100) with false;
    [reflexivity |].
  symmetry. apply andb_false_iff.
  destruct Hp as [Hp | Hp]; [left | right];
    (destruct (Qle_bool _ _) eqn:E; [| reflexivity]);
    apply Qle_bool_iff in E; lra.
Qed.

End CalibratorMore.

Lemma no_threshold_no_amount_rule_witness :
  (high_amount_threshold zero_threshold_agent = None
   \/ exists q, high_amount_threshold zero_threshold_agent = Some (Ffin q) /\ (q == 0)%Q)
  /\ score_row (Lib := whole_lib) zero_threshold_agent large_low_profile_row
     = score_row (Lib := whole_lib) zero_threshold_agent
         (delete "amount" large_low_profile_row).
Proof.
  assert (H : high_amount_threshold zero_threshold_agent = None
              \/ exists q, high_amount_threshold zero_threshold_agent = Some (Ffin q)
                           /\ (q == 0)%Q).
  { right. exists 0%Q. split; reflexivity. }
  split; [exact H |].
  exact (proj1 (no_threshold_no_amount_rule (Lib := whole_lib) zero_threshold_agent
                  large_low_profile_row H)).
Defined.

Lemma percentile_out_of_range_falls_back_witness :
  (high_amount_threshold_percentile (init 150) < 0
   \/ 100 < high_amount_threshold_percentile (init 150))%Q
  /\ calculate_high_amount_threshold (Lib := whole_lib) (init 150) three_amounts
     = set_threshold (init 150) (Ffin 1000000).
Proof.
  assert (H : (high_amount_threshold_percentile (init 150) < 0
               \/ 100 < high_amount_threshold_percentile (init 150))%Q).
  { right. reflexivity. }
  split; [exact H |].
  exact (percentile_out_of_range_falls_back (Lib := whole_lib) (init 150) three_amounts H).
Defined.

(** ** Sweeps, listings and queries of the alert store *)

Section StoreMore.

Context `{Lib : PyLib} `{Clock : TimeText}.

Lemma expired_later (c1 c2 : Z) (meta : ResolvedMeta) :
  (c1 <= c2)%Z -> expired c1 meta = true -> expired c2 meta = true.
Proof.
  unfold expired. intros Hc.
  destruct (fromisoformat _) as [[dt |] |]; [| discriminate | reflexivity].
  intros H. apply Z.ltb_lt in H. apply Z.ltb_lt. lia.
Qed.

Lemma expired_false (cutoff : Z) (meta : ResolvedMeta) :
  aware meta = false ->
  expired cutoff meta = false
  <-> exists dt, fromisoformat (remove_char "Z" (resolved_at meta)) = Some (Naive dt)
                 /\ (cutoff <= dt)%Z.
Proof.
  unfold expired, aware. destruct (fromisoformat _) as [[dt |] |]; intros Ha.
  - rewrite Z.ltb_ge. split; [eauto |]. intros (dt' & [= <-] & H). exact H.
  - discriminate.
  - split; [discriminate |]. intros (dt' & H & _). discriminate.
Qed.

Lemma aware_iff (meta : ResolvedMeta) :
  aware meta = true <-> fromisoformat (remove_char "Z" (resolved_at meta)) = Some Aware.
Proof.
  unfold aware. destruct (fromisoformat _) as [[dt |] |]; split; congruence.
Qed.

(** A sweep neither brings nor removes a timestamp with an offset. *)
Lemma abandons_purge (now : Z) (st : Store) :
  abandons (resolved_alerts (purge_old_resolved_alerts now st))
  = abandons (resolved_alerts st).
Proof.
  destruct (abandons (resolved_alerts st)) eqn:E.
  - rewrite (purge_abandoned now st E). exact E.
  - apply abandons_false. intros k meta. rewrite purge_lookup, E.
    destruct (resolved_alerts st !! k) as [m |] eqn:Em; [| discriminate].
    destruct (expired _ m); [discriminate |]. intros [= <-].
    exact (proj1 (abandons_false _) E k m Em).
Qed.

Lemma purge_after_purge (a b : Z) (st : Store) :
  (a <= b)%Z ->
  purge_old_resolved_alerts b (purge_old_resolved_alerts a st)
  = purge_old_resolved_alerts b st.
Proof.
  intros Hab.
  rewrite (purge_as_set_resolved b (purge_old_resolved_alerts a st)).
  rewrite (purge_as_set_resolved b st).
  rewrite (purge_as_set_resolved a st) at 1.
  change (set_resolved (set_resolved st ?n) ?m) with (set_resolved st m).
  f_equal. apply map_eq. intros tid.
  rewrite (purge_lookup b (purge_old_resolved_alerts a st)), abandons_purge.
  rewrite (purge_lookup b st), (purge_lookup a st).
  destruct (abandons (resolved_alerts st)); [reflexivity |].
  destruct (resolved_alerts st !! tid) as [meta |]; [| reflexivity].
  destruct (expired (a - _) meta) eqn:Ea.
  - assert (Hcut : (a - RETENTION_DAYS * microseconds_per_day
                    <= b - RETENTION_DAYS * microseconds_per_day)%Z) by lia.
    rewrite (expired_later _ _ _ Hcut Ea). reflexivity.
  - reflexivity.
Qed.

(** X8. A sweep after an earlier sweep leaves what the later sweep alone
    leaves: sweeping twice at the same time is sweeping once, and a sweep
    never adds or alters an entry. *)
Theorem purge_sweeps_compose (now1 now2 : Z) (st : Store) :
  (now1 <= now2)%Z ->
  purge_old_resolved_alerts now2 (purge_old_resolved_alerts now1 st)
  = purge_old_resolved_alerts now2 st
  /\ purge_old_resolved_alerts now1 (purge_old_resolved_alerts now1 st)
     = purge_old_resolved_alerts now1 st
  /\ resolved_alerts (purge_old_resolved_alerts now1 st) ⊆ resolved_alerts st.
Proof.
  intros Hle.
  split; [apply purge_after_purge, Hle |].
  split; [apply purge_after_purge; lia |].
  apply map_subseteq_spec. intros tid meta. rewrite purge_lookup.
  destruct (abandons (resolved_alerts st)); [tauto |].
  destruct (resolved_alerts st !! tid) as [m |]; [| discriminate].
  destruct (expired _ m); [discriminate | tauto].
Qed.

(** X9. The listing shows each entry of the swept store once and leaves
    the store swept. When no timestamp of the store reads as a time with
    an offset the sweep completes, and the listing shows exactly the
    resolutions whose timestamp reads as a time not older than the
    retention. When some timestamp reads as a time with an offset the
    sweep is abandoned, and the listing shows every entry of the store,
    whatever its age. *)
Theorem list_resolved_alerts_unexpired (now : Z) (st : Store) :
  NoDup (list_resolved_alerts now st).1.*1
  /\ (list_resolved_alerts now st).2 = purge_old_resolved_alerts now st
  /\ (forall tid meta,
        (tid, meta) ∈ (list_resolved_alerts now st).1
        <-> resolved_alerts (purge_old_resolved_alerts now st) !! tid = Some meta)
  /\ ((forall k m,
         resolved_alerts st !! k = Some m ->
         fromisoformat (remove_char "Z" (resolved_at m)) <> Some Aware) ->
      forall tid meta,
        (tid, meta) ∈ (list_resolved_alerts now st).1
        <-> resolved_alerts st !! tid = Some meta
            /\ exists dt,
                 fromisoformat (remove_char "Z" (resolved_at meta)) = Some (Naive dt)
                 /\ (now - RETENTION_DAYS * microseconds_per_day <= dt)%Z)
  /\ ((exists k m,
         resolved_alerts st !! k = Some m
         /\ fromisoformat (remove_char "Z" (resolved_at m)) = Some Aware) ->
      (list_resolved_alerts now st).2 = st
      /\ forall tid meta,
           (tid, meta) ∈ (list_resolved_alerts now st).1
           <-> resolved_alerts st !! tid = Some meta).
Proof.
  unfold list_resolved_alerts. cbn [fst snd].
  split; [apply NoDup_fst_map_to_list |].
  split; [reflexivity |].
  split; [intros tid meta; apply elem_of_map_to_list |].
  split.
  - intros Hnaive.
    assert (Hn : forall k m, resolved_alerts st !! k = Some m -> aware m = false).
    { intros k m Hm. destruct (aware m) eqn:Ea; [| reflexivity].
      apply aware_iff in Ea. exfalso. exact (Hnaive k m Hm Ea). }
    pose proof (proj2 (abandons_false _) Hn) as Hab.
    intros tid meta. rewrite elem_of_map_to_list, purge_lookup, Hab.
    destruct (resolved_alerts st !! tid) as [m |] eqn:Em;
      [| split; [discriminate | intros [H _]; discriminate]].
    pose proof (expired_false (now - RETENTION_DAYS * microseconds_per_day) m
                  (Hn tid m Em)) as Hef.
    destruct (expired _ m) eqn:E.
    + split; [discriminate |]. intros [[= <-] H]. apply Hef in H. discriminate.
    + split.
      * intros [= <-]. split; [reflexivity | apply Hef; reflexivity].
      * intros [H _]. exact H.
  - intros (k & m & Hm & Ha).
    assert (Hab : abandons (resolved_alerts st) = true).
    { apply abandons_true. exists k, m. split; [exact Hm | apply aware_iff, Ha]. }
    rewrite (purge_abandoned now st Hab).
    split; [reflexivity |]. intros tid meta. apply elem_of_map_to_list.
Qed.

Lemma select_inv (df df' : DataFrame) (name : string) (p : pyval -> bool) :
  select df name p = Ok df' ->
  name ∈ columns df
  /\ columns df' = columns df
  /\ forall r, r ∈ rows df' <-> r ∈ rows df /\ p (cell r name) = true.
Proof.
  unfold select. destruct (bool_decide (name ∈ columns df)) eqn:E; [| discriminate].
  intros [= <-]. apply bool_decide_eq_true in E.
  split; [exact E |]. split; [reflexivity |].
  intros r. cbn [rows]. rewrite list_elem_of_filter. tauto.
Qed.

Lemma step_inv (df df' : DataFrame) (o : option string) (name : string)
    (p : string -> pyval -> bool) :
  match o with
  | Some x => select df name (p x)
  | None => mret df
  end = Ok df' ->
  columns df' = columns df
  /\ (forall r, r ∈ rows df' -> r ∈ rows df)
  /\ forall x, o = Some x ->
       name ∈ columns df /\ forall r, r ∈ rows df' -> p x (cell r name) = true.
Proof.
  destruct o as [x |].
  - intros H. apply select_inv in H as (Hn & Hc & Hr).
    split; [exact Hc |]. split; [intros r Hin; apply Hr, Hin |].
    intros x' [= <-]. split; [exact Hn |]. intros r Hin. apply Hr, Hin.
  - intros [= <-]. split; [reflexivity |]. split; [tauto |]. discriminate.
Qed.

Lemma flag_record_resolved (keys : gmap string ResolvedMeta) (present : list string)
    (r : Row) :
  flag_record keys present r !! "resolved"
  = Some (VBool (bool_decide
                   (is_Some (keys !! py_str (get (flag_record keys present r)
                                              "transaction_id"))))).
Proof.
  unfold flag_record. cbv zeta. rewrite lookup_insert_eq.
  unfold get. rewrite lookup_insert_ne by discriminate. reflexivity.
Qed.

Lemma flag_record_get (keys : gmap string ResolvedMeta) (df : DataFrame) (r : Row)
    (c : string) :
  c ∈ flag_columns -> c ∈ columns df ->
  get (flag_record keys (filter (fun c => c ∈ columns df) flag_columns) r) c = cell r c.
Proof.
  intros Hf Hc. unfold flag_record, get. cbv zeta.
  rewrite lookup_insert_ne.
  - rewrite cells_lookup; [reflexivity |]. apply list_elem_of_filter. tauto.
  - intros <-. revert Hf. unfold flag_columns. rewrite !elem_of_cons, elem_of_nil.
    intros H. repeat (destruct H as [H | H]; [discriminate H |]). exact H.
Qed.

(** What a successful query went through: the frame the records are
    taken from holds suspicious rows of the batch that pass each filter
    given. *)
Lemma get_flags_inv (now : Z) (q : FlagQuery) (st : Store) (records : list Row) :
  (get_flags now q st).1 = FlagsRecords records ->
  exists scored df,
    df_scored st = Some scored
    /\ columns df = columns scored
    /\ (forall r, r ∈ rows df ->
          r ∈ rows scored /\ is_one (cell r "is_suspicious") = true)
    /\ (forall t, given (q_transaction_id q) = Some t ->
          "transaction_id" ∈ columns df
          /\ forall r, r ∈ rows df -> py_str (cell r "transaction_id") = t)
    /\ (forall c, given (q_customer_id q) = Some c ->
          "customer_id" ∈ columns df
          /\ forall r, r ∈ rows df -> py_str (cell r "customer_id") = c)
    /\ (forall cs, given (q_customer_ids q) = Some cs -> id_list cs <> [] ->
          "customer_id" ∈ columns df
          /\ forall r, r ∈ rows df -> py_str (cell r "customer_id") ∈ id_list cs)
    /\ (forall x, given (q_regulator q) = Some x ->
          "regulator" ∈ columns df
          /\ forall r, r ∈ rows df -> lower (py_str (cell r "regulator")) = lower x)
    /\ (forall x, given (q_booking_jurisdiction q) = Some x ->
          "booking_jurisdiction" ∈ columns df
          /\ forall r, r ∈ rows df ->
               lower (py_str (cell r "booking_jurisdiction")) = lower x)
    /\ (forall b, q_resolved q = Some b ->
          "transaction_id" ∈ columns df
          /\ forall r, r ∈ rows df ->
               bool_decide
                 (is_Some (resolved_alerts (purge_old_resolved_alerts now st)
                             !! py_str (cell r "transaction_id"))) = b)
    /\ records
       = map (flag_record (resolved_alerts (purge_old_resolved_alerts now st))
                (filter (fun c => c ∈ columns df) flag_columns))
             (take 500 (rows df)).
Proof.
  unfold get_flags. destruct (df_scored st) as [scored |] eqn:Hdf; [| discriminate].
  cbv zeta.
  set (keys := resolved_alerts (purge_old_resolved_alerts now st)).
  clearbody keys.
  destruct (flagged scored) as [d0 | e0] eqn:E0; cbn [mbind res_bind];
    [| intros; discriminate].
  apply select_inv in E0 as (_ & C0 & R0).
  destruct (match given (q_transaction_id q) with
            | Some t => select d0 "transaction_id" (fun v => str_eqb (py_str v) t)
            | None => mret d0
            end) as [d1 | e1] eqn:E1; cbn [mbind res_bind]; [| intros; discriminate].
  apply (step_inv d0 d1 _ "transaction_id" (fun t v => str_eqb (py_str v) t)) in E1
    as (C1 & S1 & F1).
  destruct (match given (q_customer_id q) with
            | Some c => select d1 "customer_id" (fun v => str_eqb (py_str v) c)
            | None => mret d1
            end) as [d2 | e2] eqn:E2; cbn [mbind res_bind]; [| intros; discriminate].
  apply (step_inv d1 d2 _ "customer_id" (fun c v => str_eqb (py_str v) c)) in E2
    as (C2 & S2 & F2).
  destruct (match given (q_customer_ids q) with
            | Some cs =>
                if (0 <? length (id_list cs))%nat
                then select d2 "customer_id"
                       (fun v => bool_decide (py_str v ∈ id_list cs))
                else mret d2
            | None => mret d2
            end) as [d3 | e3] eqn:E3; cbn [mbind res_bind]; [| intros; discriminate].
  assert (H3 : columns d3 = columns d2
               /\ (forall r, r ∈ rows d3 -> r ∈ rows d2)
               /\ forall cs, given (q_customer_ids q) = Some cs -> id_list cs <> [] ->
                    "customer_id" ∈ columns d2
                    /\ forall r, r ∈ rows d3 -> py_str (cell r "customer_id") ∈ id_list cs).
  { destruct (given (q_customer_ids q)) as [cs |].
    - destruct (id_list cs) as [| i ids] eqn:Eids; cbn [length Nat.ltb Nat.leb] in E3.
      + injection E3 as <-. split; [reflexivity |]. split; [tauto |].
        intros cs' [= <-] Hne. congruence.
      + apply select_inv in E3 as (Hn & Hc & Hr).
        split; [exact Hc |]. split; [intros r Hin; apply Hr, Hin |].
        intros cs' [= <-] _. split; [exact Hn |]. intros r Hin.
        apply Hr in Hin as [_ Hin]. apply bool_decide_eq_true in Hin.
        rewrite Eids. exact Hin.
    - injection E3 as <-. split; [reflexivity |]. split; [tauto |]. discriminate. }
  clear E3. destruct H3 as (C3 & S3 & F3).
  destruct (match given (q_regulator q) with
            | Some x =>
                select d3 "regulator" (fun v => str_eqb (lower (py_str v)) (lower x))
            | None => mret d3
            end) as [d4 | e4] eqn:E4; cbn [mbind res_bind]; [| intros; discriminate].
  apply (step_inv d3 d4 _ "regulator"
           (fun x v => str_eqb (lower (py_str v)) (lower x))) in E4 as (C4 & S4 & F4).
  destruct (match given (q_booking_jurisdiction q) with
            | Some x =>
                select d4 "booking_jurisdiction"
                  (fun v => str_eqb (lower (py_str v)) (lower x))
            | None => mret d4
            end) as [d5 | e5] eqn:E5; cbn [mbind res_bind]; [| intros; discriminate].
  apply (step_inv d4 d5 _ "booking_jurisdiction"
           (fun x v => str_eqb (lower (py_str v)) (lower x))) in E5 as (C5 & S5 & F5).
  destruct (match q_resolved q with
            | Some true =>
                select d5 "transaction_id"
                  (fun v => bool_decide (is_Some (keys !! py_str v)))
            | Some false =>
                select d5 "transaction_id"
                  (fun v => negb (bool_decide (is_Some (keys !! py_str v))))
            | None => mret d5
            end) as [d6 | e6] eqn:E6; cbn [mbind res_bind]; [| intros; discriminate].
  assert (H6 : columns d6 = columns d5
               /\ (forall r, r ∈ rows d6 -> r ∈ rows d5)
               /\ forall b, q_resolved q = Some b ->
                    "transaction_id" ∈ columns d5
                    /\ forall r, r ∈ rows d6 ->
                         bool_decide (is_Some (keys !! py_str (cell r "transaction_id")))
                         = b).
  { destruct (q_resolved q) as [[|] |].
    - apply select_inv in E6 as (Hn & Hc & Hr).
      split; [exact Hc |]. split; [intros r Hin; apply Hr, Hin |].
      intros b [= <-]. split; [exact Hn |]. intros r Hin. apply Hr, Hin.
    - apply select_inv in E6 as (Hn & Hc & Hr).
      split; [exact Hc |]. split; [intros r Hin; apply Hr, Hin |].
      intros b [= <-]. split; [exact Hn |]. intros r Hin.
      apply Hr in Hin as [_ Hin]. apply negb_true_iff in Hin. exact Hin.
    - injection E6 as <-. split; [reflexivity |]. split; [tauto |]. discriminate. }
  clear E6. destruct H6 as (C6 & S6 & F6).
  cbn [mret res_ret fst]. intros [= <-].
  exists scored, d6.
  assert (Hc : forall c, c ∈ columns d6 <-> c ∈ columns d0)
    by (intros c; rewrite C6, C5, C4, C3, C2, C1; tauto).
  split; [reflexivity |].
  split; [rewrite C6, C5, C4, C3, C2, C1, C0; reflexivity |].
  split; [intros r Hin; apply R0; auto 10 |].
  split.
  { intros t Ht. destruct (F1 t Ht) as [Hn Hr]. split; [apply Hc, Hn |].
    intros r Hin. apply str_eqb_true, Hr. auto 10. }
  split.
  { intros c Hq. destruct (F2 c Hq) as [Hn Hr].
    split; [apply Hc; rewrite <- C1; exact Hn |].
    intros r Hin. apply str_eqb_true, Hr. auto 10. }
  split.
  { intros cs Hq Hne. destruct (F3 cs Hq Hne) as [Hn Hr].
    split; [apply Hc; rewrite <- C1, <- C2; exact Hn |].
    intros r Hin. apply Hr. auto 10. }
  split.
  { intros x Hq. destruct (F4 x Hq) as [Hn Hr].
    split; [apply Hc; rewrite <- C1, <- C2, <- C3; exact Hn |].
    intros r Hin. apply str_eqb_true, Hr. auto 10. }
  split.
  { intros x Hq. destruct (F5 x Hq) as [Hn Hr].
    split; [apply Hc; rewrite <- C1, <- C2, <- C3, <- C4; exact Hn |].
    intros r Hin. apply str_eqb_true, Hr. auto 10. }
  split; [| reflexivity].
  intros b Hq. destruct (F6 b Hq) as [Hn Hr].
  split; [rewrite C6; exact Hn |]. exact Hr.
Qed.

(** X10. Every record of a query is within the limit of 500, passes each
    filter the query gives, and carries a [resolved] flag that tells
    whether the store, swept at the time of the query, holds a resolution
    for its id. *)
Theorem get_flags_honours_filters (now : Z) (q : FlagQuery) (st : Store)
    (records : list Row) :
  (get_flags now q st).1 = FlagsRecords records ->
  (length records <= 500)%nat
  /\ (get_flags now q st).2 = purge_old_resolved_alerts now st
  /\ forall rec, rec ∈ records ->
       rec !! "resolved"
       = Some (VBool (bool_decide
                        (is_Some (resolved_alerts (purge_old_resolved_alerts now st)
                                    !! py_str (get rec "transaction_id")))))
       /\ (forall t, given (q_transaction_id q) = Some t ->
             py_str (get rec "transaction_id") = t)
       /\ (forall c, given (q_customer_id q) = Some c ->
             py_str (get rec "customer_id") = c)
       /\ (forall cs, given (q_customer_ids q) = Some cs -> id_list cs <> [] ->
             py_str (get rec "customer_id") ∈ id_list cs)
       /\ (forall x, given (q_regulator q) = Some x ->
             lower (py_str (get rec "regulator")) = lower x)
       /\ (forall x, given (q_booking_jurisdiction q) = Some x ->
             lower (py_str (get rec "booking_jurisdiction")) = lower x)
       /\ (forall b, q_resolved q = Some b -> rec !! "resolved" = Some (VBool b)).
Proof.
  intros Hq.
  destruct (get_flags_inv now q st records Hq)
    as (scored & df & Hdf & Hc & Hs & Ft & Fc & Fcs & Fr & Fb & Fres & ->).
  split; [rewrite length_map, length_take; lia |].
  split.
  { unfold get_flags. rewrite Hdf. cbv zeta.
    destruct (_ ≫= _); reflexivity. }
  intros rec Hrec.
  apply list_elem_of_In, in_map_iff in Hrec as (r & <- & Hin).
  apply list_elem_of_In, elem_of_take in Hin as (i & Hi & _).
  assert (Hr : r ∈ rows df) by (apply list_elem_of_lookup; eauto).
  assert (Hfc : forall c, c ∈ flag_columns -> c ∈ columns df ->
                  get (flag_record (resolved_alerts (purge_old_resolved_alerts now st))
                         (filter (fun c => c ∈ columns df) flag_columns) r) c
                  = cell r c)
    by (intros c; apply flag_record_get).
  assert (Hm : forall c, bool_decide (c ∈ flag_columns) = true -> c ∈ flag_columns)
    by (intros c; apply bool_decide_eq_true).
  split; [apply flag_record_resolved |].
  split.
  { intros t Ht. destruct (Ft t Ht) as [Hn Hall].
    rewrite Hfc; [apply Hall, Hr | apply Hm; reflexivity | exact Hn]. }
  split.
  { intros c Hc'. destruct (Fc c Hc') as [Hn Hall].
    rewrite Hfc; [apply Hall, Hr | apply Hm; reflexivity | exact Hn]. }
  split.
  { intros cs Hcs Hne. destruct (Fcs cs Hcs Hne) as [Hn Hall].
    rewrite Hfc; [apply Hall, Hr | apply Hm; reflexivity | exact Hn]. }
  split.
  { intros x Hx. destruct (Fr x Hx) as [Hn Hall].
    rewrite Hfc; [apply Hall, Hr | apply Hm; reflexivity | exact Hn]. }
  split.
  { intros x Hx. destruct (Fb x Hx) as [Hn Hall].
    rewrite Hfc; [apply Hall, Hr | apply Hm; reflexivity | exact Hn]. }
  intros b Hb. destruct (Fres b Hb) as [Hn Hall].
  rewrite flag_record_resolved.
  rewrite Hfc; [| apply Hm; reflexivity | exact Hn].
  rewrite (Hall r Hr). reflexivity.
Qed.

(** X11. An alert resolved at time [T] shows as resolved in every query made
    while the resolution is not older than the retention: each record
    that carries its id has the [resolved] flag set, and a query for
    unresolved alerts returns no record with that id. *)
Theorem resolved_alert_shows_resolved (T now : Z) (tid : string) (note : option string)
    (q : FlagQuery) (st : Store) (df : DataFrame) (records : list Row) :
  iso_lawful ->
  df_scored st = Some df ->
  is_alert df tid ->
  (now - RETENTION_DAYS * microseconds_per_day <= T)%Z ->
  (get_flags now q (resolve_alert T tid note st).2).1 = FlagsRecords records ->
  (forall rec, rec ∈ records ->
     py_str (get rec "transaction_id") = tid -> rec !! "resolved" = Some (VBool true))
  /\ (q_resolved q = Some false ->
      forall rec, rec ∈ records -> py_str (get rec "transaction_id") <> tid).
Proof.
  intros Hlaw Hdf Ha Hfresh Hq.
  set (st1 := (resolve_alert T tid note st).2) in *.
  assert (Hkey : resolved_alerts (purge_old_resolved_alerts now st1) !! tid
                 = Some (resolution T note)).
  { rewrite purge_lookup. unfold st1.
    rewrite (resolve_alert_found T tid note st df Hdf Ha).
    cbn [snd resolved_alerts set_resolved]. rewrite lookup_insert_eq.
    destruct (abandons _); [reflexivity |].
    rewrite (expired_resolution _ _ _ Hlaw).
    destruct (Z.ltb_spec T (now - RETENTION_DAYS * microseconds_per_day)); [lia |].
    reflexivity. }
  destruct (get_flags_inv now q st1 records Hq)
    as (scored & d & _ & _ & _ & _ & _ & _ & _ & _ & Fres & ->).
  assert (Hflag : forall rec,
            rec ∈ map (flag_record (resolved_alerts (purge_old_resolved_alerts now st1))
                         (filter (fun c => c ∈ columns d) flag_columns))
                      (take 500 (rows d)) ->
            py_str (get rec "transaction_id") = tid ->
            rec !! "resolved" = Some (VBool true)).
  { intros rec Hrec Hid.
    apply list_elem_of_In, in_map_iff in Hrec as (r & <- & _).
    rewrite flag_record_resolved, Hid, Hkey.
    rewrite bool_decide_eq_true_2 by eauto. reflexivity. }
  split; [exact Hflag |].
  intros Hb rec Hrec Hid.
  pose proof (Hflag rec Hrec Hid) as Htrue.
  destruct (Fres false Hb) as [Hn Hall].
  apply list_elem_of_In, in_map_iff in Hrec as (r & <- & Hin).
  apply list_elem_of_In, elem_of_take in Hin as (i & Hi & _).
  assert (Hr : r ∈ rows d) by (apply list_elem_of_lookup; eauto).
  rewrite flag_record_resolved in Htrue.
  rewrite flag_record_get in Htrue;
    [| apply (bool_decide_unpack _); exact I | exact Hn].
  rewrite (Hall r Hr) in Htrue. discriminate.
Qed.

End StoreMore.

Lemma purge_sweeps_compose_witness :
  (5 <= 10)%Z
  /\ purge_old_resolved_alerts (Clock := count_clock) 10
       (purge_old_resolved_alerts (Clock := count_clock) 5 store_undated)
     = purge_old_resolved_alerts (Clock := count_clock) 10 store_undated.
Proof.
  assert (H : (5 <= 10)%Z) by lia.
  split; [exact H |].
  exact (proj1 (purge_sweeps_compose (Clock := count_clock) 5 10 store_undated H)).
Defined.

Lemma get_flags_honours_filters_witness :
  exists records,
    (get_flags (Lib := whole_lib) (Clock := count_clock) 5
       {| q_customer_id := None; q_customer_ids := None; q_regulator := None;
          q_booking_jurisdiction := None; q_transaction_id := Some "T1";
          q_resolved := Some false |}
       store_sample).1 = FlagsRecords records
    /\ (length records <= 500)%nat.
Proof.
  eexists. split; [reflexivity |].
  exact (proj1 (get_flags_honours_filters (Lib := whole_lib) (Clock := count_clock) 5
                  {| q_customer_id := None; q_customer_ids := None; q_regulator := None;
                     q_booking_jurisdiction := None; q_transaction_id := Some "T1";
                     q_resolved := Some false |}
                  store_sample _ eq_refl)).
Defined.

Lemma resolved_alert_shows_resolved_witness :
  exists records,
    (get_flags (Lib := whole_lib) (Clock := count_clock) 10 any_query
       (resolve_alert (Lib := whole_lib) (Clock := count_clock) 5 "T1" None
          store_sample).2).1 = FlagsRecords records
    /\ forall rec, rec ∈ records ->
         py_str (Lib := whole_lib) (get rec "transaction_id") = "T1" ->
         rec !! "resolved" = Some (VBool true).
Proof.
  eexists. split; [reflexivity |].
  refine (proj1 (resolved_alert_shows_resolved (Lib := whole_lib) (Clock := count_clock)
                   5 10 "T1" None any_query store_sample scored_sample _
                   count_clock_lawful eq_refl T1_is_alert _ eq_refl)).
  unfold RETENTION_DAYS, microseconds_per_day. lia.
Defined.
(** ** Reports: purge, generation, scheduler and download *)

(** X12. The purge of the report directory touches report files older than
    the retention only: a file that is not a [.csv] or [.json] file, or
    that is not older than 365 days, stays as it is; nothing is added or
    altered; and purging again at the same time changes nothing. *)
Theorem purge_reports_only_stale (now : Z) (fs : Dir) :
  purge_old_monthly_reports now fs ⊆ fs
  /\ purge_old_monthly_reports now (purge_old_monthly_reports now fs)
     = purge_old_monthly_reports now fs
  /\ (forall name f,
        fs !! name = Some f ->
        (ends_with ".csv" name = false /\ ends_with ".json" name = false)
        \/ (now - REPORT_RETENTION_DAYS * microseconds_per_day <= mtime f)%Z ->
        purge_old_monthly_reports now fs !! name = Some f)
  /\ (forall name f,
        fs !! name = Some f ->
        ends_with ".csv" name = true \/ ends_with ".json" name = true ->
        (mtime f < now - REPORT_RETENTION_DAYS * microseconds_per_day)%Z ->
        purge_old_monthly_reports now fs !! name = None).
Proof.
  split; [| split; [| split]].
  - apply map_subseteq_spec. intros name f. rewrite purge_reports_lookup.
    destruct (fs !! name) as [g |]; [| discriminate].
    destruct (_ && _); [discriminate | tauto].
  - apply map_eq. intros name. rewrite !purge_reports_lookup.
    destruct (fs !! name) as [g |]; [| reflexivity].
    destruct ((ends_with ".csv" name || ends_with ".json" name)
              && (mtime g <? now - REPORT_RETENTION_DAYS * microseconds_per_day)%Z)
      eqn:E; [reflexivity |].
    rewrite E. reflexivity.
  - intros name f Hf H. rewrite purge_reports_lookup, Hf.
    destruct H as [[-> ->] | H]; [reflexivity |].
    apply Z.ltb_ge in H. rewrite H, andb_false_r. reflexivity.
  - intros name f Hf Hn Hold. rewrite purge_reports_lookup, Hf.
    apply Z.ltb_lt in Hold. rewrite Hold, andb_true_r.
    destruct Hn as [-> | ->]; [reflexivity | rewrite orb_true_r; reflexivity].
Qed.

Section ReportsMore.

Context `{Lib : PyLib} `{Clock : TimeText} `{Ser : Serializer} `{FS : FileSystem}.

(** After the two writes of a generation each file is as it was or is
    dated now. *)
Lemma written_pair_cases (now : Z) (cp jp tc tj path : string) (d : Disk) :
  disk_lookup (disk_write now jp tj (disk_write now cp tc d)) path = disk_lookup d path
  \/ exists text,
       disk_lookup (disk_write now jp tj (disk_write now cp tc d)) path
       = Some {| content := text; mtime := now |}.
Proof.
  destruct (disk_write_lookup_cases now jp path tj (disk_write now cp tc d))
    as [-> | [part ->]]; [| eauto].
  apply disk_write_lookup_cases.
Qed.

(** When neither write fails before its file is there, both files are
    there afterwards, dated now. *)
Lemma written_pair_dated (now : Z) (cp jp tc tj : string) (d : Disk) :
  write_result now cp tc <> NotWritten ->
  write_result now jp tj <> NotWritten ->
  (exists text, disk_lookup (disk_write now jp tj (disk_write now cp tc d)) cp
                = Some {| content := text; mtime := now |})
  /\ (exists text, disk_lookup (disk_write now jp tj (disk_write now cp tc d)) jp
                   = Some {| content := text; mtime := now |}).
Proof.
  intros Hc Hj.
  assert (Hjp : forall path d0, place_of path = place_of jp ->
            exists text, disk_lookup (disk_write now jp tj d0) path
                         = Some {| content := text; mtime := now |}).
  { intros path d0 E. rewrite (disk_write_lookup_same _ _ _ _ _ E).
    destruct (write_result now jp tj); [contradiction | eauto | eauto]. }
  split; [| apply Hjp; reflexivity].
  destruct (place_eq_dec (place_of cp) (place_of jp)) as [E | N]; [apply Hjp, E |].
  rewrite (disk_write_lookup_other _ _ _ _ _ N).
  rewrite disk_write_lookup_same by reflexivity.
  destruct (write_result now cp tc); [contradiction | eauto | eauto].
Qed.

Lemma dated_pair_exists (now now2 : Z) (m : string) (d : Disk) :
  (now2 - REPORT_RETENTION_DAYS * microseconds_per_day <= now)%Z ->
  (exists text, disk_lookup d (m +:+ ".csv") = Some {| content := text; mtime := now |}) ->
  (exists text, disk_lookup d (m +:+ ".json") = Some {| content := text; mtime := now |}) ->
  monthly_report_exists m d = true /\ monthly_report_exists m (purged now2 d) = true.
Proof.
  intros Hle [tc Hc] [tj Hj]. unfold monthly_report_exists.
  rewrite !purged_lookup.
  rewrite (fresh_not_stale now2 d _ _ Hc), (fresh_not_stale now2 d _ _ Hj)
    by exact Hle.
  rewrite Hc, Hj. rewrite !bool_decide_eq_true_2 by eauto. split; reflexivity.
Qed.

(** X13. A generation returns whenever the batch is loaded and can be
    filtered for its suspicious rows; a write that fails is passed over.
    Each artifact whose write succeeds is the text written, dated now
    (the extract provided its path is not the summary's); an artifact whose
    write fails before the file is there stays as it was; when neither
    write fails so, the report of the month exists afterwards. No other
    file is touched. In the summary the total is the number of suspicious
    rows of the batch, the resolved and the unresolved add up to the
    total, and each breakdown accounts for every flagged row once when
    the batch has the column. *)
Theorem generate_monthly_report_writes_pair (now : Z) (month : option string)
    (st : Store) (d : Disk) (df fl : DataFrame) :
  df_scored st = Some df ->
  flagged df = Ok fl ->
  let csv_path := report_month now month +:+ ".csv" in
  let json_path := report_month now month +:+ ".json" in
  let extract := to_csv (with_resolved (resolved_alerts st) fl) in
  exists summary d',
    generate_monthly_report now month st d
    = Ok (ReportGenerated csv_path json_path summary, d')
    /\ (write_result now json_path (json_dump summary) = Written ->
        disk_lookup d' json_path = Some {| content := json_dump summary; mtime := now |})
    /\ (write_result now csv_path extract = Written ->
        place_of csv_path <> place_of json_path ->
        disk_lookup d' csv_path = Some {| content := extract; mtime := now |})
    /\ (write_result now json_path (json_dump summary) = NotWritten ->
        place_of csv_path <> place_of json_path ->
        disk_lookup d' json_path = disk_lookup d json_path)
    /\ (write_result now csv_path extract = NotWritten ->
        place_of csv_path <> place_of json_path ->
        disk_lookup d' csv_path = disk_lookup d csv_path)
    /\ (write_result now csv_path extract <> NotWritten ->
        write_result now json_path (json_dump summary) <> NotWritten ->
        monthly_report_exists (report_month now month) d' = true)
    /\ (forall path,
          place_of path <> place_of csv_path ->
          place_of path <> place_of json_path ->
          disk_lookup d' path = disk_lookup d path)
    /\ summary_month summary = report_month now month
    /\ total_flagged summary
       = Z.of_nat (length (filter (fun r => is_one (cell r "is_suspicious") = true)
                             (rows df)))
    /\ (total_flagged summary = resolved summary + unresolved summary)%Z
    /\ (0 <= resolved summary <= total_flagged summary)%Z
    /\ total_of (by_category summary)
       = (if bool_decide ("risk_category" ∈ columns df)
          then Z.to_nat (total_flagged summary) else 0%nat)
    /\ total_of (by_regulator summary)
       = (if bool_decide ("regulator" ∈ columns df)
          then Z.to_nat (total_flagged summary) else 0%nat).
Proof.
  intros Hdf Hfl csv_path json_path extract.
  destruct (generate_monthly_report_returns now month st d df fl Hdf Hfl)
    as (out & d' & H).
  destruct (generate_monthly_report_inv _ _ _ _ _ _ H)
    as (df' & fl' & s & Hdf' & Hfl' & -> & Hd & Hm & _ & Ht & Hr & Hu & Hbr & Hbc).
  assert (df' = df) by congruence. subst df'.
  assert (fl' = fl) by congruence. subst fl'.
  fold csv_path json_path extract in Hd.
  exists s, d'. split; [exact H |].
  split.
  { intros Hw. rewrite Hd, disk_write_lookup_same by reflexivity.
    rewrite Hw. reflexivity. }
  split.
  { intros Hw Hne. rewrite Hd, disk_write_lookup_other by exact Hne.
    rewrite disk_write_lookup_same by reflexivity. rewrite Hw. reflexivity. }
  split.
  { intros Hw Hne. rewrite Hd, disk_write_lookup_same by reflexivity.
    rewrite Hw. apply disk_write_lookup_other. congruence. }
  split.
  { intros Hw Hne. rewrite Hd, disk_write_lookup_other by exact Hne.
    rewrite disk_write_lookup_same by reflexivity. rewrite Hw. reflexivity. }
  split.
  { intros Hwc Hwj. rewrite Hd.
    destruct (written_pair_dated now csv_path json_path extract (json_dump s) d Hwc Hwj)
      as [Hc Hj].
    refine (proj1 (dated_pair_exists now now _ _ _ Hc Hj)).
    unfold REPORT_RETENTION_DAYS, microseconds_per_day. lia. }
  split.
  { intros path H1 H2. rewrite Hd.
    rewrite disk_write_lookup_other by exact H2.
    apply disk_write_lookup_other, H1. }
  split; [exact Hm |].
  unfold flagged, select in Hfl.
  destruct (bool_decide ("is_suspicious" ∈ columns df)); [| discriminate].
  injection Hfl as <-. cbn [rows columns] in *.
  split; [exact Ht |].
  split; [lia |].
  split.
  { rewrite Hr, Ht. split; [lia |].
    apply inj_le. etransitivity; [apply length_filter |].
    rewrite with_resolved_length. reflexivity. }
  assert (Hcol : forall name, name <> "resolved" ->
            bool_decide (name ∈ columns (with_resolved (resolved_alerts st)
                           {| columns := columns df;
                              rows := filter (fun r => is_one (cell r "is_suspicious") = true)
                                        (rows df) |}))
            = bool_decide (name ∈ columns df)).
  { intros name Hne. rewrite with_resolved_columns. cbn [columns].
    apply bool_decide_ext. rewrite elem_of_app, list_elem_of_singleton. tauto. }
  split.
  - rewrite Hbc, counts_of_total, Hcol by discriminate.
    rewrite with_resolved_length, Ht, Nat2Z.id. reflexivity.
  - rewrite Hbr, counts_of_total, Hcol by discriminate.
    rewrite with_resolved_length, Ht, Nat2Z.id. reflexivity.
Qed.

Lemma report_month_default (now : Z) (month : option string) :
  (forall m, month = Some m -> str_truthy m = true) ->
  report_month now (Some (default (month_key now) month)) = default (month_key now) month.
Proof.
  intros H. destruct month as [m |].
  - change (default (month_key now) (Some m)) with m. cbn [report_month].
    rewrite (H m eq_refl). reflexivity.
  - change (default (month_key now) None) with (month_key now). cbn [report_month].
    destruct (str_truthy (month_key now)); reflexivity.
Qed.

(** What a request that has generated leaves on the disk. *)
Lemma reports_generate_disk (now : Z) (month : option string) (st : Store) (d : Disk)
    (p q : string) (s : Summary) :
  (reports_generate now month st d).1 = ReportGenerated p q s ->
  exists df fl,
    df_scored st = Some df /\ flagged df = Ok fl
    /\ p = summary_month s +:+ ".csv" /\ q = summary_month s +:+ ".json"
    /\ summary_month s = report_month now (Some (default (month_key now) month))
    /\ (reports_generate now month st d).2
       = disk_write now q (json_dump s)
           (disk_write now p (to_csv (with_resolved (resolved_alerts st) fl))
              (purged now d)).
Proof.
  intros Hgen.
  destruct (reports_generate_inv _ _ _ _ _ _ _ Hgen) as [_ Hg].
  destruct (generate_monthly_report_inv _ _ _ _ _ _ Hg)
    as (df & fl & s' & Hdf & Hfl & Hout & Hd & Hsm & _).
  injection Hout as -> -> <-.
  exists df, fl. rewrite Hsm. repeat split; assumption.
Qed.

(** X14. Once a request has generated the report of a month and neither
    write failed before its file was there, a request for that month made
    within the next 365 days answers "exists": asking for the same report
    twice generates it once. An empty month name is the exception the
    hypothesis excludes: it writes the report of the current month but
    looks for a report with an empty name. *)
Theorem generated_report_is_found (now now2 : Z) (month : option string)
    (st st2 : Store) (d : Disk) (p q : string) (s : Summary) :
  (forall m, month = Some m -> str_truthy m = true) ->
  (now2 - REPORT_RETENTION_DAYS * microseconds_per_day <= now)%Z ->
  (reports_generate now month st d).1 = ReportGenerated p q s ->
  (forall text, write_result now p text <> NotWritten) ->
  (forall text, write_result now q text <> NotWritten) ->
  summary_month s = default (month_key now) month
  /\ (reports_generate now2 (Some (summary_month s)) st2
        (reports_generate now month st d).2).1
     = ReportExists (summary_month s)
  /\ reports_generate now month st2 (reports_generate now month st d).2
     = (ReportExists (summary_month s), purged now (reports_generate now month st d).2).
Proof.
  intros Hm Hle Hgen Hwp Hwq.
  destruct (reports_generate_disk _ _ _ _ _ _ _ Hgen)
    as (df & fl & _ & _ & Hp & Hq & Hsm & Hd).
  rewrite (report_month_default now month Hm) in Hsm.
  set (d1 := (reports_generate now month st d).2) in *.
  destruct (written_pair_dated now p q (to_csv (with_resolved (resolved_alerts st) fl))
              (json_dump s) (purged now d) (Hwp _) (Hwq _)) as [Hc Hj].
  rewrite <- Hd in Hc, Hj. rewrite Hp in Hc. rewrite Hq in Hj.
  assert (Hex : forall t,
            (t - REPORT_RETENTION_DAYS * microseconds_per_day <= now)%Z ->
            monthly_report_exists (summary_month s) (purged t d1) = true).
  { intros t Ht. exact (proj2 (dated_pair_exists now t _ d1 Ht Hc Hj)). }
  split; [exact Hsm |].
  split.
  - unfold reports_generate. cbv zeta.
    change (default (month_key now2) (Some (summary_month s))) with (summary_month s).
    rewrite (Hex now2 Hle). reflexivity.
  - unfold reports_generate. cbv zeta. rewrite <- Hsm.
    rewrite Hex; [reflexivity |].
    unfold REPORT_RETENTION_DAYS, microseconds_per_day. lia.
Qed.

(** X15. A generated report downloads as written: when the write of the
    summary succeeded, the summary downloads as the text dumped, provided
    it reads back as JSON; when the write of the extract succeeded, under
    a path that is not the summary's, the extract downloads as the text
    written. *)
Theorem generated_report_downloads (json_ok : string -> bool) (now : Z)
    (month : option string) (st : Store) (d : Disk) (p q : string) (s : Summary) :
  (reports_generate now month st d).1 = ReportGenerated p q s ->
  exists df fl,
    df_scored st = Some df
    /\ flagged df = Ok fl
    /\ (write_result now q (json_dump s) = Written ->
        disk_lookup (reports_generate now month st d).2 q
        = Some {| content := json_dump s; mtime := now |}
        /\ reports_download json_ok (summary_month s) "json"
             (reports_generate now month st d).2
           = if json_ok (json_dump s) then DownloadJson (json_dump s) else DownloadFailed)
    /\ (write_result now p (to_csv (with_resolved (resolved_alerts st) fl)) = Written ->
        place_of p <> place_of q ->
        disk_lookup (reports_generate now month st d).2 p
        = Some {| content := to_csv (with_resolved (resolved_alerts st) fl);
                  mtime := now |}
        /\ reports_download json_ok (summary_month s) "csv"
             (reports_generate now month st d).2
           = DownloadCsv (to_csv (with_resolved (resolved_alerts st) fl))).
Proof.
  intros Hgen.
  destruct (reports_generate_disk _ _ _ _ _ _ _ Hgen)
    as (df & fl & Hdf & Hfl & Hp & Hq & _ & Hd).
  exists df, fl. split; [exact Hdf |]. split; [exact Hfl |].
  set (d1 := (reports_generate now month st d).2) in *.
  split.
  - intros Hw.
    assert (Hj : disk_lookup d1 q = Some {| content := json_dump s; mtime := now |}).
    { rewrite Hd, disk_write_lookup_same by reflexivity. rewrite Hw. reflexivity. }
    split; [exact Hj |].
    unfold reports_download, str_eqb.
    rewrite bool_decide_eq_false_2 by discriminate.
    rewrite <- Hq, Hj. reflexivity.
  - intros Hw Hne.
    assert (Hc : disk_lookup d1 p
                 = Some {| content := to_csv (with_resolved (resolved_alerts st) fl);
                           mtime := now |}).
    { rewrite Hd, disk_write_lookup_other by exact Hne.
      rewrite disk_write_lookup_same by reflexivity. rewrite Hw. reflexivity. }
    split; [exact Hc |].
    unfold reports_download, str_eqb.
    rewrite bool_decide_eq_true_2 by reflexivity.
    rewrite <- Hp, Hc. reflexivity.
Qed.

(** A pass of the scheduler is a purge of both stores followed, when the
    report of the current month is missing, by an attempt to generate it. *)
Lemma report_scheduler_pass_store (now : Z) (st : Store) (d : Disk) :
  (report_scheduler_pass now st d).1 = purge_old_resolved_alerts now st.
Proof.
  unfold report_scheduler_pass. cbv zeta.
  destruct (negb _); [| reflexivity].
  destruct (generate_monthly_report _ _ _ _) as [[o f] | e]; reflexivity.
Qed.

Lemma report_scheduler_pass_ensures (now : Z) (st : Store) (d : Disk) (df : DataFrame) :
  df_scored st = Some df ->
  "is_suspicious" ∈ columns df ->
  (forall text, write_result now (month_key now +:+ ".csv") text <> NotWritten) ->
  (forall text, write_result now (month_key now +:+ ".json") text <> NotWritten) ->
  monthly_report_exists (month_key now) (report_scheduler_pass now st d).2 = true.
Proof.
  intros Hdf Hcol Hwc Hwj. unfold report_scheduler_pass. cbv zeta.
  destruct (monthly_report_exists (month_key now) (purged now d))
    eqn:Hex; cbn [negb]; [exact Hex |].
  destruct (generate_monthly_report now (Some (month_key now))
              (purge_old_resolved_alerts now st) (purged now d))
    as [[o f] | e] eqn:Hg.
  - destruct (generate_monthly_report_inv _ _ _ _ _ _ Hg)
      as (df' & fl & s & _ & _ & _ & -> & _).
    cbn [snd].
    replace (report_month now (Some (month_key now))) with (month_key now)
      by (cbn [report_month]; destruct (str_truthy (month_key now)); reflexivity).
    destruct (written_pair_dated now _ _
                (to_csv (with_resolved
                           (resolved_alerts (purge_old_resolved_alerts now st)) fl))
                (json_dump s) (purged now d) (Hwc _) (Hwj _)) as [Hc Hj].
    refine (proj1 (dated_pair_exists now now _ _ _ Hc Hj)).
    unfold REPORT_RETENTION_DAYS, microseconds_per_day. lia.
  - exfalso. unfold generate_monthly_report in Hg.
    rewrite purge_keeps_frame, Hdf in Hg.
    unfold flagged, select in Hg.
    rewrite (bool_decide_eq_true_2 _ Hcol) in Hg. discriminate Hg.
Qed.

Lemma report_scheduler_frame (ticks : list Z) (st : Store) (d : Disk) :
  df_scored (report_scheduler ticks st d).1 = df_scored st.
Proof.
  unfold report_scheduler.
  revert st d. induction ticks as [| t ticks IH]; intros st d; [reflexivity |].
  cbn [foldl fst snd].
  destruct (report_scheduler_pass t st d) as [st1 d1] eqn:E.
  rewrite IH. change st1 with (st1, d1).1. rewrite <- E.
  rewrite report_scheduler_pass_store. apply purge_keeps_frame.
Qed.

(** X16. A pass of the scheduler always completes: a generation that
    fails is passed over, as is a write that fails. Whenever the scheduler
    has completed a pass, the report of the month of that pass exists,
    provided the batch is loaded and scored and neither write of that pass
    fails before its file is there; the passes never change the batch.
    Before the batch is loaded a pass only purges; a pass that finds the
    report of the month only purges too. *)
Theorem report_scheduler_ensures_report (ticks : list Z) (now : Z) (st : Store)
    (d : Disk) :
  (forall df,
     df_scored st = Some df -> "is_suspicious" ∈ columns df ->
     (forall text, write_result now (month_key now +:+ ".csv") text <> NotWritten) ->
     (forall text, write_result now (month_key now +:+ ".json") text <> NotWritten) ->
     monthly_report_exists (month_key now)
       (report_scheduler (ticks ++ [now]) st d).2 = true)
  /\ df_scored (report_scheduler (ticks ++ [now]) st d).1 = df_scored st
  /\ (df_scored st = None ->
      report_scheduler_pass now st d = (purge_old_resolved_alerts now st, purged now d))
  /\ (monthly_report_exists (month_key now) (purged now d) = true ->
      report_scheduler_pass now st d = (purge_old_resolved_alerts now st, purged now d))
  /\ (report_scheduler_pass now st d).1 = purge_old_resolved_alerts now st
  /\ (forall path,
        disk_lookup (report_scheduler_pass now st d).2 path
        = disk_lookup (purged now d) path
        \/ exists text,
             disk_lookup (report_scheduler_pass now st d).2 path
             = Some {| content := text; mtime := now |}).
Proof.
  split; [| split; [| split; [| split; [| split]]]].
  - intros df Hdf Hcol Hwc Hwj. unfold report_scheduler. rewrite foldl_app. cbn [foldl].
    apply (report_scheduler_pass_ensures now _ _ df); [| exact Hcol | exact Hwc | exact Hwj].
    fold (report_scheduler ticks st d). rewrite report_scheduler_frame. exact Hdf.
  - apply report_scheduler_frame.
  - intros Hdf. unfold report_scheduler_pass. cbv zeta.
    destruct (negb _); [| reflexivity].
    unfold generate_monthly_report. rewrite purge_keeps_frame, Hdf. reflexivity.
  - intros Hex. unfold report_scheduler_pass. cbv zeta. rewrite Hex. reflexivity.
  - apply report_scheduler_pass_store.
  - intros path. unfold report_scheduler_pass. cbv zeta.
    destruct (negb _); [| left; reflexivity].
    destruct (generate_monthly_report now (Some (month_key now))
                (purge_old_resolved_alerts now st) (purged now d))
      as [[o f] | e] eqn:Hg; cbn [snd]; [| left; reflexivity].
    destruct (generate_monthly_report_inv _ _ _ _ _ _ Hg)
      as (df' & fl & s & _ & _ & _ & -> & _).
    apply written_pair_cases.
Qed.

End ReportsMore.

(** ** Loading, export, remediation and document decisions *)

Lemma ensure_column_has (df : DataFrame) (col : string) :
  col ∈ columns (ensure_column df col).
Proof.
  unfold ensure_column. destruct (bool_decide (col ∈ columns df)) eqn:E.
  - apply bool_decide_eq_true in E. exact E.
  - cbn [columns]. apply elem_of_app. right. apply list_elem_of_singleton. reflexivity.
Qed.

Lemma ensure_column_keeps (df : DataFrame) (col c : string) :
  c ∈ columns df -> c ∈ columns (ensure_column df col).
Proof.
  intros H. unfold ensure_column. destruct (bool_decide (col ∈ columns df)); [exact H |].
  cbn [columns]. apply elem_of_app. left. exact H.
Qed.

Lemma ensure_column_length (df : DataFrame) (col : string) :
  length (rows (ensure_column df col)) = length (rows df).
Proof.
  unfold ensure_column. destruct (bool_decide _); [reflexivity |].
  cbn [rows]. apply length_map.
Qed.

Lemma ensure_columns_spec (cols : list string) (df : DataFrame) :
  (forall c, c ∈ cols -> c ∈ columns (foldl ensure_column df cols))
  /\ (forall c, c ∈ columns df -> c ∈ columns (foldl ensure_column df cols))
  /\ length (rows (foldl ensure_column df cols)) = length (rows df).
Proof.
  revert df. induction cols as [| col cols IH]; intros df; cbn [foldl].
  - split; [intros c H; apply elem_of_nil in H; contradiction |]. split; [tauto | reflexivity].
  - destruct (IH (ensure_column df col)) as (H1 & H2 & H3).
    split; [| split].
    + intros c Hc. apply elem_of_cons in Hc as [-> | Hc].
      * apply H2, ensure_column_has.
      * apply H1, Hc.
    + intros c Hc. apply H2, ensure_column_keeps, Hc.
    + rewrite H3. apply ensure_column_length.
Qed.

(** A left merge loses no row of the left frame. *)
Lemma merge_left_length (left right df : DataFrame) (key : string) :
  merge_left left right key = Ok df -> (length (rows left) <= length (rows df))%nat.
Proof.
  unfold merge_left. destruct (_ && _); [| discriminate].
  intros [= <-]. cbn [rows].
  induction (rows left) as [| l ls IH]; [cbn; lia |].
  cbn [map concat]. rewrite length_app. cbn [length].
  destruct (filter _ (rows right)) as [| m ms]; cbn [length map]; lia.
Qed.

Lemma select_ok (df : DataFrame) (name : string) (p : pyval -> bool) :
  name ∈ columns df ->
  exists df', select df name p = Ok df' /\ columns df' = columns df.
Proof.
  intros H. unfold select. rewrite (bool_decide_eq_true_2 _ H).
  eexists. split; reflexivity.
Qed.

Lemma update_first_found (id : string) (upd : Row -> Row) (docs : list Row) (i : nat)
    (v : Row) :
  docs !! i = Some v ->
  has_id id v = true ->
  (forall j w, (j < i)%nat -> docs !! j = Some w -> has_id id w = false) ->
  update_first id upd docs = Some (<[i := upd v]> docs).
Proof.
  revert i. induction docs as [| d docs IH]; intros i Hi Hv Hfirst; [discriminate |].
  destruct i as [| i]; cbn [update_first].
  - injection Hi as ->. rewrite Hv. reflexivity.
  - rewrite (Hfirst 0%nat d ltac:(lia) eq_refl).
    rewrite (IH i Hi Hv); [reflexivity |].
    intros j w Hj Hw. apply (Hfirst (S j) w); [lia | exact Hw].
Qed.

Lemma update_first_absent (id : string) (upd : Row -> Row) (docs : list Row) :
  update_first id upd docs = None <-> forall v, v ∈ docs -> has_id id v = false.
Proof.
  induction docs as [| d docs IH]; cbn [update_first].
  - split; [intros _ v H; apply elem_of_nil in H; contradiction | reflexivity].
  - destruct (has_id id d) eqn:E.
    + split; [discriminate |]. intros H.
      rewrite (H d) in E by (apply elem_of_cons; left; reflexivity). discriminate.
    + destruct (update_first id upd docs) as [l |]; cbn [option_map].
      * split; [discriminate |]. intros H.
        assert (Hn : Some l = None); [| discriminate Hn].
        apply IH. intros v Hv. apply H. apply elem_of_cons. right. exact Hv.
      * split; [| reflexivity]. intros _ v Hv.
        apply elem_of_cons in Hv as [-> | Hv]; [exact E |].
        exact (proj1 IH eq_refl v Hv).
Qed.

Section ServiceFacts.

Context `{Lib : PyLib} `{Clock : TimeText} `{Ser : Serializer}.

(** What a load that succeeds has stored. *)
Lemma load_and_score_inv (csv : DataFrame) (st0 st : Store) :
  load_and_score (Ok csv) st0 = Ok st ->
  exists results merged,
    merge_left {| columns := columns csv; rows := take 100 (rows csv) |}
      (results_frame results) "transaction_id" = Ok merged
    /\ df_raw st = Some {| columns := columns csv; rows := take 100 (rows csv) |}
    /\ df_scored st = Some (foldl ensure_column merged expected_columns)
    /\ resolved_alerts st = resolved_alerts st0.
Proof.
  unfold load_and_score. cbn [mbind res_bind]. cbv zeta.
  destruct (process_dataframe (init 95) _) as [[a results] | e]; cbn [mbind res_bind];
    [| discriminate].
  destruct (merge_left _ (results_frame results) "transaction_id") as [merged | e] eqn:M;
    cbn [mbind res_bind mret res_ret]; [| discriminate].
  intros [= <-]. exists results, merged.
  split; [exact M |]. repeat split.
Qed.


(** X18. After a start-up that succeeds the batch is in place: the scored
    frame has the id column and every result column, loses none of the
    first hundred rows of the file, and the resolutions are those held
    before, swept. Queries that filter on ids or on the resolved status
    only are answered with records, and the remediation tasks and the
    export are served. *)
Theorem started_service_serves (now : Z) (csv : DataFrame) (st0 st : Store) :
  startup_event now (Ok csv) st0 = Ok st ->
  (exists scored,
     df_scored st = Some scored
     /\ (forall c, c ∈ "transaction_id" :: expected_columns -> c ∈ columns scored)
     /\ (Nat.min 100 (length (rows csv)) <= length (rows scored))%nat
     /\ health st = length (rows scored))
  /\ df_raw st = Some {| columns := columns csv; rows := take 100 (rows csv) |}
  /\ resolved_alerts st = resolved_alerts (purge_old_resolved_alerts now st0)
  /\ (forall now' q,
        given (q_customer_id q) = None ->
        given (q_customer_ids q) = None ->
        given (q_regulator q) = None ->
        given (q_booking_jurisdiction q) = None ->
        exists records, (get_flags now' q st).1 = FlagsRecords records)
  /\ (exists tasks, remediation_tasks st = Tasks tasks)
  /\ (forall now' r, exists text, (export_fraud_csv now' r st).1 = ExportCsv text).
Proof.
  unfold startup_event.
  destruct (load_and_score (Ok csv) st0) as [st1 | e] eqn:L;
    cbn [mbind res_bind mret res_ret];
    [| discriminate].
  intros [= <-].
  destruct (load_and_score_inv csv st0 st1 L) as (results & merged & M & Hraw & Hsc & Hres).
  destruct (ensure_columns_spec expected_columns merged) as (Hexp & Hkeep & Hlen).
  set (scored := foldl ensure_column merged expected_columns) in *.
  assert (Hid : "transaction_id" ∈ columns scored).
  { apply Hkeep. exact (proj1 (merge_left_stems _ _ _ M)). }
  assert (Hsus : "is_suspicious" ∈ columns scored).
  { apply Hexp. apply elem_of_cons. left. reflexivity. }
  assert (Hfl : exists fl, flagged scored = Ok fl /\ columns fl = columns scored).
  { apply select_ok, Hsus. }
  destruct Hfl as (fl & Hfl & Hflc).
  split.
  { exists scored. split; [rewrite purge_keeps_frame; exact Hsc |].
    split.
    { intros c Hc. apply elem_of_cons in Hc as [-> | Hc]; [exact Hid | apply Hexp, Hc]. }
    split.
    { rewrite Hlen. apply merge_left_length in M. cbn [rows] in M.
      rewrite length_take in M. exact M. }
    unfold health. rewrite purge_keeps_frame, Hsc. reflexivity. }
  split; [rewrite purge_as_set_resolved; exact Hraw |].
  split.
  { apply purge_same_resolutions, Hres. }
  split.
  { intros now' q H1 H2 H3 H4. unfold get_flags.
    rewrite purge_keeps_frame, Hsc. cbv zeta.
    rewrite Hfl, H1, H2, H3, H4. cbn [mbind res_bind mret res_ret].
    destruct (given (q_transaction_id q)) as [t |].
    - destruct (select_ok fl "transaction_id" (fun v => str_eqb (py_str v) t))
        as (d1 & -> & Hc1); [rewrite Hflc; exact Hid |].
      cbn [mbind res_bind].
      destruct (q_resolved q) as [[|] |].
      + edestruct (select_ok d1 "transaction_id") as (d2 & -> & _);
          [rewrite Hc1, Hflc; exact Hid |].
        eexists. reflexivity.
      + edestruct (select_ok d1 "transaction_id") as (d2 & -> & _);
          [rewrite Hc1, Hflc; exact Hid |].
        eexists. reflexivity.
      + eexists. reflexivity.
    - cbn [mbind res_bind mret res_ret].
      destruct (q_resolved q) as [[|] |].
      + edestruct (select_ok fl "transaction_id") as (d2 & -> & _);
          [rewrite Hflc; exact Hid |].
        eexists. reflexivity.
      + edestruct (select_ok fl "transaction_id") as (d2 & -> & _);
          [rewrite Hflc; exact Hid |].
        eexists. reflexivity.
      + eexists. reflexivity. }
  split.
  { unfold remediation_tasks. rewrite purge_keeps_frame, Hsc, Hfl. eexists. reflexivity. }
  intros now' r. unfold export_fraud_csv. rewrite purge_keeps_frame, Hsc. cbv zeta.
  rewrite Hfl. eexists. reflexivity.
Qed.

(** X19. The export leaves out the resolved alerts unless told otherwise:
    with no filter, as with [resolved=false], it writes the suspicious
    rows that have no resolution in the store, swept at the time of the
    export; with [resolved=true] it writes the others. *)
Theorem export_default_unresolved (now : Z) (st : Store) (scored : DataFrame) :
  df_scored st = Some scored ->
  "is_suspicious" ∈ columns scored ->
  "transaction_id" ∈ columns scored ->
  export_fraud_csv now (Some false) st = export_fraud_csv now None st
  /\ (export_fraud_csv now None st).2 = purge_old_resolved_alerts now st
  /\ exists open closed,
       (export_fraud_csv now None st).1 = ExportCsv (to_csv open)
       /\ (export_fraud_csv now (Some true) st).1 = ExportCsv (to_csv closed)
       /\ columns open = columns scored
       /\ columns closed = columns scored
       /\ (forall r, r ∈ rows open
             <-> r ∈ rows scored /\ is_one (cell r "is_suspicious") = true
                 /\ resolved_alerts (purge_old_resolved_alerts now st)
                      !! py_str (cell r "transaction_id") = None)
       /\ (forall r, r ∈ rows closed
             <-> r ∈ rows scored /\ is_one (cell r "is_suspicious") = true
                 /\ is_Some (resolved_alerts (purge_old_resolved_alerts now st)
                               !! py_str (cell r "transaction_id"))).
Proof.
  intros Hdf Hsus Hid.
  split; [reflexivity |].
  unfold export_fraud_csv. rewrite Hdf. cbv zeta.
  set (keys := resolved_alerts (purge_old_resolved_alerts now st)).
  destruct (flagged scored) as [fl | e] eqn:Hfl.
  2: { unfold flagged, select in Hfl. rewrite (bool_decide_eq_true_2 _ Hsus) in Hfl.
       discriminate Hfl. }
  apply select_inv in Hfl as (_ & Hc & Hr).
  cbn [fst snd]. split; [reflexivity |].
  unfold export_rows.
  destruct (select fl "transaction_id"
              (fun v => negb (bool_decide (is_Some (keys !! py_str v)))))
    as [open | e] eqn:Ho.
  2: { unfold select in Ho. rewrite Hc in Ho.
       rewrite (bool_decide_eq_true_2 _ Hid) in Ho. discriminate Ho. }
  destruct (select fl "transaction_id"
              (fun v => bool_decide (is_Some (keys !! py_str v))))
    as [closed | e] eqn:Hcl.
  2: { unfold select in Hcl. rewrite Hc in Hcl.
       rewrite (bool_decide_eq_true_2 _ Hid) in Hcl. discriminate Hcl. }
  apply select_inv in Ho as (_ & Hoc & Hor).
  apply select_inv in Hcl as (_ & Hcc & Hcr).
  exists open, closed.
  split; [reflexivity |]. split; [reflexivity |].
  split; [congruence |]. split; [congruence |].
  split.
  - intros r. rewrite Hor, Hr, negb_true_iff, bool_decide_eq_false.
    rewrite <- eq_None_not_Some. tauto.
  - intros r. rewrite Hcr, Hr, bool_decide_eq_true. tauto.
Qed.

(** X20. Every remediation task stems from a suspicious row, in the order of
    the batch and 500 at most, and recommends one to four actions, none
    twice; the general review is recommended only when no specific action
    is. *)
Theorem remediation_tasks_actions (st : Store) (tasks : list Task) :
  remediation_tasks st = Tasks tasks ->
  (length tasks <= 500)%nat
  /\ (exists scored,
        df_scored st = Some scored
        /\ length tasks
           = Nat.min 500
               (length (filter (fun r => is_one (cell r "is_suspicious") = true)
                          (rows scored))))
  /\ forall t, t ∈ tasks ->
       (1 <= length (actions t) <= 4)%nat
       /\ NoDup (actions t)
       /\ ("Review case details and document outcome" ∈ actions t ->
           actions t = ["Review case details and document outcome"]).
Proof.
  unfold remediation_tasks.
  destruct (df_scored st) as [scored |]; [| discriminate].
  destruct (flagged scored) as [fl | e] eqn:Hfl; [| discriminate].
  intros [= <-].
  split; [rewrite length_take; lia |].
  split.
  { exists scored. split; [reflexivity |].
    unfold flagged, select in Hfl.
    destruct (bool_decide ("is_suspicious" ∈ columns scored)); [| discriminate].
    injection Hfl as <-. cbn [rows]. rewrite length_take, length_map. reflexivity. }
  intros t Ht.
  apply elem_of_take in Ht as (i & Hi & _).
  apply (list_elem_of_lookup_2 _ i) in Hi.
  apply list_elem_of_In, in_map_iff in Hi as (row & <- & _).
  cbn [actions]. unfold recommended_actions. cbv zeta.
  set (c1 := contains "EDD" _ || _).
  set (c2 := contains "sanctions" _).
  set (c3 := contains "SOW" _ || _).
  set (c4 := contains "high amount" _).
  clearbody c1 c2 c3 c4.
  destruct c1, c2, c3, c4; cbn [app length];
    (split; [lia |]);
    (split; [apply (bool_decide_unpack _); vm_compute; exact I |]);
    rewrite ?elem_of_cons, ?elem_of_nil;
    intros H; try reflexivity;
    repeat (destruct H as [H | H]; [discriminate H |]); contradiction.
Qed.

(** X21. A decision other than accept or reject is refused and an unknown id
    is not found, both leaving the list as it is. Otherwise the first
    entry that carries the id, and only that entry, takes the decision,
    the note and the time; its other fields stay. *)
Theorem doc_validation_decide_updates_first (now : Z) (id decision : string)
    (note : option string) (docs : list Row) (i : nat) (v : Row) :
  decision ∈ ["accept"; "reject"] ->
  docs !! i = Some v ->
  has_id id v = true ->
  (forall j w, (j < i)%nat -> docs !! j = Some w -> has_id id w = false) ->
  (doc_validation_decide now id decision note docs).1 = DecisionUpdated id decision
  /\ length (doc_validation_decide now id decision note docs).2 = length docs
  /\ (forall j, j <> i -> (doc_validation_decide now id decision note docs).2 !! j = docs !! j)
  /\ (exists v',
        (doc_validation_decide now id decision note docs).2 !! i = Some v'
        /\ v' !! "decision" = Some (VStr decision)
        /\ v' !! "decision_note" = Some (VStr (default "" note))
        /\ v' !! "decided_at" = Some (VStr (isoformat now +:+ "Z"))
        /\ has_id id v' = true
        /\ forall k, k ∉ ["decision"; "decision_note"; "decided_at"] -> v' !! k = v !! k)
  /\ (forall other ds,
        other ∉ ["accept"; "reject"] ->
        exists detail,
          doc_validation_decide now id other note ds = (DecisionRejected detail, ds))
  /\ (forall ds,
        (forall w, w ∈ ds -> has_id id w = false) ->
        exists detail,
          doc_validation_decide now id decision note ds = (DecisionNotFound detail, ds)).
Proof.
  intros Hd Hi Hv Hfirst.
  assert (Hlt : (i < length docs)%nat) by (apply lookup_lt_Some in Hi; exact Hi).
  unfold doc_validation_decide.
  rewrite (bool_decide_eq_true_2 _ Hd). cbn [negb].
  rewrite (update_first_found id _ docs i v Hi Hv Hfirst). cbn [fst snd].
  split; [reflexivity |].
  split; [apply length_insert |].
  split; [intros j Hj; apply list_lookup_insert_ne; congruence |].
  split.
  { eexists. split; [apply list_lookup_insert_eq, Hlt |].
    split; [rewrite !lookup_insert_ne by discriminate; apply lookup_insert_eq |].
    split; [rewrite lookup_insert_ne by discriminate; apply lookup_insert_eq |].
    split; [apply lookup_insert_eq |].
    split.
    { unfold has_id in *. rewrite !lookup_insert_ne by discriminate. exact Hv. }
    intros k Hk. rewrite !not_elem_of_cons in Hk. destruct Hk as (K1 & K2 & K3 & _).
    rewrite !lookup_insert_ne by congruence. reflexivity. }
  split.
  - intros other ds Ho. rewrite (bool_decide_eq_false_2 _ Ho). cbn [negb].
    eexists. reflexivity.
  - intros ds Hnone. rewrite (proj2 (update_first_absent id _ ds) Hnone).
    eexists. reflexivity.
Qed.

End ServiceFacts.

Lemma generate_monthly_report_writes_pair_witness :
  df_scored store_sample = Some scored_sample
  /\ exists fl,
       flagged scored_sample = Ok fl
       /\ exists summary d',
            generate_monthly_report (Lib := whole_lib) (Clock := count_clock)
              (Ser := plain_serializer) (FS := flat_disk) 5 None store_sample no_reports
            = Ok (ReportGenerated "0.csv" "0.json" summary, d')
            /\ monthly_report_exists (FS := flat_disk) "0" d' = true.
Proof.
  assert (H1 : df_scored store_sample = Some scored_sample) by reflexivity.
  assert (H2 : exists fl, flagged scored_sample = Ok fl)
    by (eexists; reflexivity).
  split; [exact H1 |]. destruct H2 as [fl H2]. exists fl. split; [exact H2 |].
  destruct (generate_monthly_report_writes_pair (Lib := whole_lib) (Clock := count_clock)
              (Ser := plain_serializer) (FS := flat_disk) 5 None store_sample no_reports
              scored_sample fl H1 H2)
    as (s & d' & Hg & _ & _ & _ & _ & Hex & _).
  exists s, d'. split; [exact Hg |].
  apply Hex; discriminate.
Defined.

Lemma generated_report_is_found_witness :
  (forall m, @None string = Some m -> str_truthy m = true)
  /\ (6 - REPORT_RETENTION_DAYS * microseconds_per_day <= 5)%Z
  /\ (forall text, @write_result flat_disk 5 "0.csv" text <> NotWritten)
  /\ (forall text, @write_result flat_disk 5 "0.json" text <> NotWritten)
  /\ exists s,
       (reports_generate (Lib := whole_lib) (Clock := count_clock)
          (Ser := plain_serializer) (FS := flat_disk) 5 None store_sample no_reports).1
       = ReportGenerated "0.csv" "0.json" s
       /\ (reports_generate (Lib := whole_lib) (Clock := count_clock)
             (Ser := plain_serializer) (FS := flat_disk) 6 (Some (summary_month s))
             empty_store
             (reports_generate (Lib := whole_lib) (Clock := count_clock)
                (Ser := plain_serializer) (FS := flat_disk) 5 None store_sample
                no_reports).2).1
          = ReportExists (summary_month s).
Proof.
  assert (H1 : forall m, @None string = Some m -> str_truthy m = true)
    by (intros m E; discriminate E).
  assert (H2 : (6 - REPORT_RETENTION_DAYS * microseconds_per_day <= 5)%Z)
    by (unfold REPORT_RETENTION_DAYS, microseconds_per_day; lia).
  assert (H3 : forall text, @write_result flat_disk 5 "0.csv" text <> NotWritten)
    by (intros text; discriminate).
  assert (H4 : forall text, @write_result flat_disk 5 "0.json" text <> NotWritten)
    by (intros text; discriminate).
  assert (H : exists s,
            (reports_generate (Lib := whole_lib) (Clock := count_clock)
               (Ser := plain_serializer) (FS := flat_disk) 5 None store_sample
               no_reports).1 = ReportGenerated "0.csv" "0.json" s)
    by (eexists; reflexivity).
  split; [exact H1 |]. split; [exact H2 |]. split; [exact H3 |]. split; [exact H4 |].
  destruct H as [s H]. exists s. split; [exact H |].
  exact (proj1 (proj2 (generated_report_is_found (Lib := whole_lib) (Clock := count_clock)
                         (Ser := plain_serializer) (FS := flat_disk) 5 6 None
                         store_sample empty_store no_reports _ _ _ H1 H2 H H3 H4))).
Defined.

Lemma generated_report_downloads_witness :
  exists s,
    (reports_generate (Lib := whole_lib) (Clock := count_clock)
       (Ser := plain_serializer) (FS := flat_disk) 5 None store_sample no_reports).1
    = ReportGenerated "0.csv" "0.json" s
    /\ reports_download (FS := flat_disk) (fun _ => true) (summary_month s) "json"
         (reports_generate (Lib := whole_lib) (Clock := count_clock)
            (Ser := plain_serializer) (FS := flat_disk) 5 None store_sample no_reports).2
       = DownloadJson (json_dump (Serializer := plain_serializer) s).
Proof.
  assert (H : exists s,
            (reports_generate (Lib := whole_lib) (Clock := count_clock)
               (Ser := plain_serializer) (FS := flat_disk) 5 None store_sample
               no_reports).1 = ReportGenerated "0.csv" "0.json" s)
    by (eexists; reflexivity).
  destruct H as [s H]. exists s. split; [exact H |].
  destruct (generated_report_downloads (Lib := whole_lib) (Clock := count_clock)
              (Ser := plain_serializer) (FS := flat_disk) (fun _ => true) 5 None
              store_sample no_reports _ _ s H)
    as (df & fl & _ & _ & Hj & _).
  exact (proj2 (Hj eq_refl)).
Defined.

(** A file that cannot be read fails the load with the error of the
    read. *)
Lemma unreadable_file_fails :
  load_and_score (Lib := whole_lib) (Raise FileNotFoundError) empty_store
  = Raise FileNotFoundError
  /\ load_and_score (Lib := whole_lib) (Raise EmptyDataError) empty_store
     = Raise EmptyDataError.
Proof. split; reflexivity. Qed.

Lemma started_service_serves_witness :
  match startup_event (Lib := whole_lib) (Clock := count_clock) 5 (Ok short_file)
          empty_store
  with
  | Ok st => exists tasks, remediation_tasks (Lib := whole_lib) st = Tasks tasks
  | Raise _ => False
  end.
Proof.
  destruct (startup_event (Lib := whole_lib) (Clock := count_clock) 5 (Ok short_file)
              empty_store) as [st | e] eqn:E.
  - exact (proj1 (proj2 (proj2 (proj2 (proj2
             (started_service_serves (Lib := whole_lib) (Clock := count_clock)
                (Ser := plain_serializer) 5 short_file empty_store st E)))))).
  - exfalso. unfold startup_event in E.
    destruct (load_and_score_stems (Lib := whole_lib) short_file empty_store)
      as (st & _ & _ & Hok & _).
    + apply elem_of_cons. left. reflexivity.
    + discriminate.
    + rewrite Hok in E. discriminate E.
Defined.

Lemma export_default_unresolved_witness :
  df_scored store_sample = Some scored_sample
  /\ "is_suspicious" ∈ columns scored_sample
  /\ "transaction_id" ∈ columns scored_sample
  /\ export_fraud_csv (Lib := whole_lib) (Clock := count_clock) (Ser := plain_serializer)
       5 (Some false) store_sample
     = export_fraud_csv (Lib := whole_lib) (Clock := count_clock) (Ser := plain_serializer)
         5 None store_sample.
Proof.
  assert (H1 : "is_suspicious" ∈ columns scored_sample)
    by (apply (bool_decide_unpack _); exact I).
  assert (H2 : "transaction_id" ∈ columns scored_sample)
    by (apply (bool_decide_unpack _); exact I).
  split; [reflexivity |]. split; [exact H1 |]. split; [exact H2 |].
  exact (proj1 (export_default_unresolved (Lib := whole_lib) (Clock := count_clock)
                  (Ser := plain_serializer) 5 store_sample scored_sample eq_refl H1 H2)).
Defined.

Lemma remediation_tasks_actions_witness :
  exists tasks,
    remediation_tasks (Lib := whole_lib) store_sample = Tasks tasks
    /\ (length tasks <= 500)%nat.
Proof.
  eexists. split; [reflexivity |].
  exact (proj1 (remediation_tasks_actions (Lib := whole_lib) store_sample _ eq_refl)).
Defined.

Lemma doc_validation_decide_updates_first_witness :
  "accept" ∈ ["accept"; "reject"]
  /\ two_docs !! 1%nat = Some (pending_doc "d2")
  /\ has_id "d2" (pending_doc "d2") = true
  /\ (doc_validation_decide (Clock := count_clock) 7 "d2" "accept" (Some "seen")
        two_docs).1 = DecisionUpdated "d2" "accept".
Proof.
  assert (H1 : "accept" ∈ ["accept"; "reject"]) by (apply elem_of_cons; left; reflexivity).
  assert (H2 : two_docs !! 1%nat = Some (pending_doc "d2")) by reflexivity.
  assert (H3 : has_id "d2" (pending_doc "d2") = true) by reflexivity.
  assert (H4 : forall j w, (j < 1)%nat -> two_docs !! j = Some w -> has_id "d2" w = false).
  { intros j w Hj Hw. destruct j as [| j]; [| lia].
    injection Hw as <-. reflexivity. }
  split; [exact H1 |]. split; [exact H2 |]. split; [exact H3 |].
  exact (proj1 (doc_validation_decide_updates_first (Clock := count_clock) 7 "d2" "accept"
                  (Some "seen") two_docs 1 (pending_doc "d2") H1 H2 H3 H4)).
Defined.
